(** * Fleet tracking backend: telemetry pipeline, geofence engine, edge
    analytics and command lifecycle

  A shallow embedding of [backend/app.py] and [backend/edge_processor.py].
  Python floats are IEEE binary64 numbers ([PrimFloat.float]); JSON
  messages are finite maps from field names to dynamically typed values;
  the module-level stores of [app.py] are gathered in one [state] record
  that every handler threads explicitly.  Functions of libraries outside
  the repository (the C library behind [math], [numpy.std], [round], the
  isolation forest, string formatting, the rendering of the clock) are
  the fields of the class [Runtime], over which every handler is
  parametric; exceptions are explicit results.  A clock reading is an
  argument of each handler. *)

From Stdlib Require Import ZArith String List Bool Lia Floats.
From stdpp Require Import base option list gmap strings pretty.

#[local] Set Warnings "-inexact-float".

Local Open Scope string_scope.
Local Open Scope Z_scope.
Local Open Scope list_scope.

(** ** Python values and the operations the handlers apply to them *)

Module Py.

(** A decoded JSON document; [VDict] keeps its items in insertion order. *)
#[warnings="-register-all"]
Inductive value : Type :=
| VNone
| VBool (b : bool)
| VInt (z : Z)
| VFloat (f : float)
| VStr (s : string)
| VList (l : list value)
| VDict (d : list (string * value)).

(** The exceptions the modelled code can raise. *)
Inductive exn : Type :=
| TypeError
| ValueError
| KeyError
| OverflowError
| RuntimeError.

Inductive result (A : Type) : Type :=
| Ok (a : A)
| Raise (e : exn).
Arguments Ok {A} a.
Arguments Raise {A} e.

Definition bind {A B} (r : result A) (k : A -> result B) : result B :=
  match r with
  | Ok a => k a
  | Raise e => Raise e
  end.

(** What the handlers use from outside the repository: the C library,
    [round], [numpy.std], the built-in [sum] on floats, the float parser,
    string formatting, the clock rendering, [json.dumps], the isolation
    forest of scikit-learn and the state of the industrial manager. *)
Class Runtime : Type := {
  (** [IsolationForest(contamination=0.1, random_state=42)], [model.fit]
      and [model.predict([features])[0]] *)
  forest : Type;
  new_forest : forest;
  forest_fit : forest -> list (list float) -> result forest;
  forest_predict : forest -> list float -> result Z;
  (** [sin], [cos], [atan2] and [pow] of the C library *)
  libm_sin : float -> float;
  libm_cos : float -> float;
  libm_atan2 : float -> float -> float;
  libm_pow : float -> float -> float;
  (** [round(x, ndigits)] *)
  round_ : float -> Z -> float;
  (** [numpy.std] *)
  np_std : list float -> float;
  (** the built-in [sum] on a list of floats *)
  sum_ : list float -> float;
  (** [float(s)] on a string, [str(v)] in an f-string, [f"{x:.2f}"] *)
  float_of_str : string -> option float;
  str_ : value -> string;
  format_2f : float -> string;
  (** [datetime.isoformat()] of an instant given in seconds *)
  isoformat : Z -> string;
  (** [len(json.dumps(d))] *)
  json_dumps_len : gmap string value -> Z;
  (** whether the global [industrial_manager] has been initialised, and
      what [asyncio.create_task] does in the calling thread *)
  industrial_manager : bool;
  asyncio_create_task : result unit
}.

(** Truth value testing ([bool(v)]). *)
Definition truthy (v : value) : bool :=
  match v with
  | VNone => false
  | VBool b => b
  | VInt z => negb (z =? 0)
  | VFloat f => negb (f =? 0)%float
  | VStr s => negb (String.eqb s "")
  | VList l => match l with [] => false | _ => true end
  | VDict d => match d with [] => false | _ => true end
  end.

(** [a or b] *)
Definition or_ (a b : value) : value := if truthy a then a else b.

(** [d.get(k)] and [d.get(k, dflt)] on a message. *)
Definition get (d : gmap string value) (k : string) : value :=
  default VNone (d !! k).
Definition get_or (d : gmap string value) (k : string) (dflt : value) : value :=
  default dflt (d !! k).

(** [d[k]] raises [KeyError] on an absent key. *)
Definition item (d : gmap string value) (k : string) : result value :=
  match d !! k with
  | Some v => Ok v
  | None => Raise KeyError
  end.

(** [float(z)] for an int: round to nearest even, [OverflowError] when the
    rounded value is not finite. *)
Definition float_of_Z (z : Z) : result float :=
  let f := SF2Prim (binary_normalize prec emax z 0 false) in
  if is_infinity f then Raise OverflowError else Ok f.

Section Float.
Context `{Runtime}.

(** [float(v)] *)
Definition float_ (v : value) : result float :=
  match v with
  | VFloat f => Ok f
  | VInt z => float_of_Z z
  | VBool b => Ok (if b then 1 else 0)%float
  | VStr s => match float_of_str s with
              | Some f => Ok f
              | None => Raise ValueError
              end
  | VNone | VList _ | VDict _ => Raise TypeError
  end.
End Float.

(** [min(1, x)] and [max(0, x)] as the built-ins compute them: the first
    argument is kept unless the second compares strictly smaller
    (resp. greater), so a NaN second argument is discarded. *)
Definition min1 (x : float) : float := if (x <? 1)%float then x else 1%float.
Definition max0 (x : float) : float := if (0 <? x)%float then x else 0%float.

(** An int operand of mixed int/float arithmetic, converted as [float(z)]
    (the ints met there are list lengths and sums of small indices). *)
Definition fz (z : Z) : float := SF2Prim (binary_normalize prec emax z 0 false).

(** [lst[-n:]] for a positive [n] *)
Definition last_n {A} (n : nat) (l : list A) : list A := drop (length l - n) l.


End Py.

Import Py.

(** ** [collections.deque(maxlen=n)] *)

Module Deque.

(** [q.append(x)] on a deque created with [maxlen]: when the deque is
    full the leftmost item is discarded. *)
Definition append {A} (maxlen : nat) (q : list A) (x : A) : list A :=
  match maxlen with
  | O => []
  | _ => if (maxlen <=? length q)%nat then tail q ++ [x] else q ++ [x]
  end.

Definition appends {A} (maxlen : nat) (q : list A) (xs : list A) : list A :=
  fold_left (append maxlen) xs q.

End Deque.

(** ** The [math] module *)

Module Math.
Section Libm.
Context `{Runtime}.

Definition pi : float := 3.141592653589793%float.

(** [math.radians(x)] is [x * (pi / 180)]. *)
Definition radians (x : float) : float := (x * (pi / 180))%float.

(** [math.sin] and [math.cos] reject an infinite argument. *)
Definition sin (x : float) : result float :=
  if is_infinity x then Raise ValueError else Ok (libm_sin x).
Definition cos (x : float) : result float :=
  if is_infinity x then Raise ValueError else Ok (libm_cos x).

(** [math.sqrt] rejects a negative argument. *)
Definition sqrt (x : float) : result float :=
  if (x <? 0)%float then Raise ValueError else Ok (PrimFloat.sqrt x).

Definition atan2 (y x : float) : float := libm_atan2 y x.

(** [x ** 2] on a float: [OverflowError] when a finite base overflows. *)
Definition sq (x : float) : result float :=
  let r := libm_pow x 2 in
  if is_infinity r && negb (is_infinity x) then Raise OverflowError else Ok r.

(** The haversine formula on arguments already expressed in radians:
    [a = sin(dlat/2)**2 + cos(lat1) * cos(lat2) * sin(dlon/2)**2],
    [c = 2 * atan2(sqrt(a), sqrt(1 - a))], result [6371 * c]. *)
Definition haversine (lat1_rad lat2_rad delta_lat delta_lon : float) : result float :=
  bind (sin (delta_lat / 2)) (fun s1 =>
  bind (sq s1) (fun s1sq =>
  bind (cos lat1_rad) (fun c1 =>
  bind (cos lat2_rad) (fun c2 =>
  bind (sin (delta_lon / 2)) (fun s2 =>
  bind (sq s2) (fun s2sq =>
  let a := (s1sq + c1 * c2 * s2sq)%float in
  bind (sqrt a) (fun ra =>
  bind (sqrt (1 - a)) (fun rb =>
  let c := (2 * atan2 ra rb)%float in
  Ok (6371 * c)%float)))))))).

End Libm.
End Math.

(** ** The data model of [app.py] *)

(** The canonical telemetry sample built by [original_handle_telemetry]. *)
Record record : Type := {
  r_device_id : string;
  r_timestamp : value;
  r_lat : float;
  r_lon : float;
  r_battery : float;
  r_temperature : float;
  r_status : value;
  r_device_type : value;
  r_sensor_data : value;
  r_signal_strength : value;
  r_protocol : value;
  r_received_at : value;
  r_geofence_state : string;
  r_edge_processed : bool;
  r_compressed : value
}.

Record device_info : Type := {
  di_device_type : value;
  di_protocol : value;
  di_firmware_version : value;
  di_capabilities : value;
  di_registered_at : string;
  di_status : string
}.

Record geofence : Type := {
  center_lat : float;
  center_lon : float;
  radius_km : float;
  alert_on_breach : value;
  alert_on_return : value;
  gf_name : value;
  gf_created_at : string
}.

(** The dictionary returned by [check_geofence_breach] on a transition. *)
Record geofence_event : Type := {
  ev_type : string;
  ev_device_id : string;
  ev_previous_state : string;
  ev_current_state : string;
  ev_distance_from_center_km : float;
  ev_geofence_name : value;
  ev_timestamp : string
}.

Record prediction : Type := {
  p_device_id : string;
  p_health_score : float;
  p_predicted_maintenance_date : string;
  p_confidence : float;
  p_recommended_actions : list string;
  p_battery_degradation_rate : float
}.

(** The two shapes of alert the telemetry handler appends. *)
Inductive alert : Type :=
| GeofenceAlert (timestamp device_id : string) (device_type : value)
    (type_ detail : string) (distance_km : float) (protocol : value)
| MaintenanceAlert (timestamp device_id : string) (detail : string)
    (predicted_maintenance : string) (recommended_actions : list string)
    (protocol : value) (severity : string).

Record command : Type := {
  command_id : string;
  c_type : value;
  c_parameters : value;
  c_timestamp : string;
  c_status : string;
  c_ack_timestamp : option string
}.

Record insight : Type := {
  last_processed : string;
  anomaly_detected : bool;
  data_compressed : bool;
  compression_ratio : float
}.

(** ** The stores *)

Section Stores.
Context `{Runtime}.

(** The attributes of [EdgeIntelligence] ([compression_enabled] is set to
    [True] by the constructor and never written again). *)
Record edge_intelligence : Type := {
  anomaly_models : gmap string forest;
  pattern_cache : gmap string (list (list float))
}.

(** The attributes of [PredictiveMaintenance]. *)
Record predictive : Type := {
  device_health_scores : gmap string float;
  pm_maintenance_predictions : gmap string prediction
}.

(** The module-level stores of [app.py] with the two analytics objects. *)
Record state : Type := {
  assets : gmap string record;
  telemetry : gmap string (list record);
  alerts : list alert;
  device_registry : gmap string device_info;
  device_commands : gmap string (list command);
  geofences : gmap string geofence;
  device_geofence_state : gmap string string;
  edge_insights : gmap string insight;
  maintenance_predictions : gmap string prediction;
  edge_processor : edge_intelligence;
  predictive_maintenance : predictive
}.

Definition initial_state : state := {|
  assets := ∅; telemetry := ∅; alerts := []; device_registry := ∅;
  device_commands := ∅; geofences := ∅; device_geofence_state := ∅;
  edge_insights := ∅; maintenance_predictions := ∅;
  edge_processor := {| anomaly_models := ∅; pattern_cache := ∅ |};
  predictive_maintenance :=
    {| device_health_scores := ∅; pm_maintenance_predictions := ∅ |}
|}.

Definition set_assets (v : gmap string record) (st : state) : state :=
  {| assets := v; telemetry := telemetry st; alerts := alerts st;
     device_registry := device_registry st;
     device_commands := device_commands st; geofences := geofences st;
     device_geofence_state := device_geofence_state st;
     edge_insights := edge_insights st;
     maintenance_predictions := maintenance_predictions st;
     edge_processor := edge_processor st;
     predictive_maintenance := predictive_maintenance st |}.

Definition set_telemetry (v : gmap string (list record)) (st : state) : state :=
  {| assets := assets st; telemetry := v; alerts := alerts st;
     device_registry := device_registry st;
     device_commands := device_commands st; geofences := geofences st;
     device_geofence_state := device_geofence_state st;
     edge_insights := edge_insights st;
     maintenance_predictions := maintenance_predictions st;
     edge_processor := edge_processor st;
     predictive_maintenance := predictive_maintenance st |}.

Definition set_alerts (v : list alert) (st : state) : state :=
  {| assets := assets st; telemetry := telemetry st; alerts := v;
     device_registry := device_registry st;
     device_commands := device_commands st; geofences := geofences st;
     device_geofence_state := device_geofence_state st;
     edge_insights := edge_insights st;
     maintenance_predictions := maintenance_predictions st;
     edge_processor := edge_processor st;
     predictive_maintenance := predictive_maintenance st |}.

Definition set_device_registry (v : gmap string device_info) (st : state) : state :=
  {| assets := assets st; telemetry := telemetry st; alerts := alerts st;
     device_registry := v;
     device_commands := device_commands st; geofences := geofences st;
     device_geofence_state := device_geofence_state st;
     edge_insights := edge_insights st;
     maintenance_predictions := maintenance_predictions st;
     edge_processor := edge_processor st;
     predictive_maintenance := predictive_maintenance st |}.

Definition set_device_commands (v : gmap string (list command)) (st : state) : state :=
  {| assets := assets st; telemetry := telemetry st; alerts := alerts st;
     device_registry := device_registry st;
     device_commands := v; geofences := geofences st;
     device_geofence_state := device_geofence_state st;
     edge_insights := edge_insights st;
     maintenance_predictions := maintenance_predictions st;
     edge_processor := edge_processor st;
     predictive_maintenance := predictive_maintenance st |}.

Definition set_geofences (v : gmap string geofence) (st : state) : state :=
  {| assets := assets st; telemetry := telemetry st; alerts := alerts st;
     device_registry := device_registry st;
     device_commands := device_commands st; geofences := v;
     device_geofence_state := device_geofence_state st;
     edge_insights := edge_insights st;
     maintenance_predictions := maintenance_predictions st;
     edge_processor := edge_processor st;
     predictive_maintenance := predictive_maintenance st |}.

Definition set_device_geofence_state (v : gmap string string) (st : state) : state :=
  {| assets := assets st; telemetry := telemetry st; alerts := alerts st;
     device_registry := device_registry st;
     device_commands := device_commands st; geofences := geofences st;
     device_geofence_state := v;
     edge_insights := edge_insights st;
     maintenance_predictions := maintenance_predictions st;
     edge_processor := edge_processor st;
     predictive_maintenance := predictive_maintenance st |}.

Definition set_edge_insights (v : gmap string insight) (st : state) : state :=
  {| assets := assets st; telemetry := telemetry st; alerts := alerts st;
     device_registry := device_registry st;
     device_commands := device_commands st; geofences := geofences st;
     device_geofence_state := device_geofence_state st;
     edge_insights := v;
     maintenance_predictions := maintenance_predictions st;
     edge_processor := edge_processor st;
     predictive_maintenance := predictive_maintenance st |}.

Definition set_maintenance_predictions (v : gmap string prediction) (st : state) : state :=
  {| assets := assets st; telemetry := telemetry st; alerts := alerts st;
     device_registry := device_registry st;
     device_commands := device_commands st; geofences := geofences st;
     device_geofence_state := device_geofence_state st;
     edge_insights := edge_insights st;
     maintenance_predictions := v;
     edge_processor := edge_processor st;
     predictive_maintenance := predictive_maintenance st |}.

Definition set_edge_processor (v : edge_intelligence) (st : state) : state :=
  {| assets := assets st; telemetry := telemetry st; alerts := alerts st;
     device_registry := device_registry st;
     device_commands := device_commands st; geofences := geofences st;
     device_geofence_state := device_geofence_state st;
     edge_insights := edge_insights st;
     maintenance_predictions := maintenance_predictions st;
     edge_processor := v;
     predictive_maintenance := predictive_maintenance st |}.

Definition set_predictive_maintenance (v : predictive) (st : state) : state :=
  {| assets := assets st; telemetry := telemetry st; alerts := alerts st;
     device_registry := device_registry st;
     device_commands := device_commands st; geofences := geofences st;
     device_geofence_state := device_geofence_state st;
     edge_insights := edge_insights st;
     maintenance_predictions := maintenance_predictions st;
     edge_processor := edge_processor st;
     predictive_maintenance := v |}.

End Stores.

(** ** The handlers *)

(** How a handler call ends.  [NotModelled]: the resolved device id is not
    a string (Python would use the value itself as a dictionary key, or
    raise on an unhashable one); the stores here are keyed by strings. *)
Inductive outcome : Type :=
| Returned
| Raised (e : exn)
| NotModelled.

Record usage_patterns : Type := {
  movement_intensity : float;
  temperature_variation : float
}.

(** The response of a management route. *)
Inductive response : Type :=
| Success
| NotFound (error : string)
| BadRequest (error : string)
| ServerError (e : exn).

Section Backend.
Context `{Runtime}.

(** [datetime.utcnow().isoformat() + "Z"]; one clock reading [now] serves
    a whole handler call. *)
Definition utcnow_z (now : Z) : string := (isoformat now ++ "Z")%string.

(** *** Geofence engine ([app.py]) *)

Definition calculate_distance (lat1 lon1 lat2 lon2 : float) : result float :=
  let lat1_rad := Math.radians lat1 in
  let lat2_rad := Math.radians lat2 in
  let delta_lat := Math.radians (lat2 - lat1) in
  let delta_lon := Math.radians (lon2 - lon1) in
  Math.haversine lat1_rad lat2_rad delta_lat delta_lon.

Definition geofence_event_of (now : Z) (type_ device_id previous_state
    current_state : string) (distance : float) (gf : geofence) : geofence_event :=
  {| ev_type := type_;
     ev_device_id := device_id;
     ev_previous_state := previous_state;
     ev_current_state := current_state;
     ev_distance_from_center_km := round_ distance 2;
     ev_geofence_name := gf_name gf;
     ev_timestamp := utcnow_z now |}.

Definition check_geofence_breach (now : Z) (device_id : string)
    (current_lat current_lon : float) (st : state)
  : result (option geofence_event * state) :=
  match geofences st !! device_id with
  | None => Ok (None, st)
  | Some gf =>
    bind (calculate_distance (center_lat gf) (center_lon gf)
            current_lat current_lon) (fun distance =>
    let is_inside := (distance <=? radius_km gf)%float in
    let previous_state :=
      default "inside" (device_geofence_state st !! device_id) in
    let current_state := if is_inside then "inside" else "outside" in
    if negb (String.eqb previous_state current_state) then
      let st' := set_device_geofence_state
                   (<[device_id := current_state]> (device_geofence_state st))
                   st in
      if String.eqb current_state "outside" && truthy (alert_on_breach gf) then
        Ok (Some (geofence_event_of now "GEOFENCE_BREACH" device_id
                    previous_state current_state distance gf), st')
      else if String.eqb current_state "inside" && truthy (alert_on_return gf) then
        Ok (Some (geofence_event_of now "GEOFENCE_RETURN" device_id
                    previous_state current_state distance gf), st')
      else Ok (None, st')
    else Ok (None, st))
  end.

(** The haversine formula raises on none of its steps for the fence of the
    device, if it has one. *)
Definition geofence_evaluable (device_id : string) (lat lon : float)
    (st : state) : bool :=
  match geofences st !! device_id with
  | None => true
  | Some gf =>
    match calculate_distance (center_lat gf) (center_lon gf) lat lon with
    | Ok _ => true
    | Raise _ => false
    end
  end.

(** *** Predictive maintenance ([edge_processor.py]) *)

(** [_calculate_distance] of both analytics classes: any exception of the
    formula yields 0. *)
Definition edge_calculate_distance (lat1 lon1 lat2 lon2 : float) : float :=
  let lat1 := Math.radians lat1 in
  let lon1 := Math.radians lon1 in
  let lat2 := Math.radians lat2 in
  let lon2 := Math.radians lon2 in
  let dlat := (lat2 - lat1)%float in
  let dlon := (lon2 - lon1)%float in
  match Math.haversine lat1 lat2 dlat dlon with
  | Ok d => d
  | Raise _ => 0%float
  end.

Definition calculate_battery_degradation (history : list record) : float :=
  if (length history <? 3)%nat then 0%float else
  let batteries := map r_battery (last_n 10 history) in
  if (length batteries <? 2)%nat then 0%float else
  let x := map Z.of_nat (seq 0 (length batteries)) in
  let y := batteries in
  let n := Z.of_nat (length x) in
  let sum_x := fold_left Z.add x 0 in
  let sum_y := sum_ y in
  let sum_xy := sum_ (zip_with (fun xi yi => fz xi * yi)%float x y) in
  let sum_x2 := fold_left Z.add (map (fun xi => xi ^ 2) x) 0 in
  let denominator := n * sum_x2 - sum_x ^ 2 in
  if denominator =? 0 then 0%float
  else ((fz n * sum_xy - fz sum_x * sum_y) / fz denominator)%float.

Definition calculate_movement_intensity (movements : list (float * float)) : float :=
  if (length movements <? 2)%nat then 0%float else
  let total_distance :=
    fold_left (fun total '((lat1, lon1), (lat2, lon2)) =>
                 (total + edge_calculate_distance lat1 lon1 lat2 lon2)%float)
              (zip movements (tail movements)) 0%float in
  (total_distance / fz (Z.of_nat (length movements) - 1))%float.

Definition analyze_usage_patterns (history : list record) : usage_patterns :=
  let points := last_n 20 history in
  let movements := map (fun point => (r_lat point, r_lon point)) points in
  let temperatures := map r_temperature points in
  {| movement_intensity :=
       match movements with
       | [] => 0%float
       | _ => calculate_movement_intensity movements
       end;
     temperature_variation :=
       match temperatures with
       | [] => 0%float
       | _ => np_std temperatures
       end |}.

Definition battery_score (battery_trend : float) : float :=
  max0 (min1 (1 + battery_trend * 10)%float).

Definition usage_score (up : usage_patterns) : float :=
  let movement_score := (1 - min1 (movement_intensity up / 100))%float in
  let temp_score := (1 - min1 (temperature_variation up / 20))%float in
  ((movement_score + temp_score) / 2)%float.

Definition calculate_health_score (battery_trend : float) (up : usage_patterns) : float :=
  let health_score :=
    (battery_score battery_trend * 0.4 + usage_score up * 0.3 + 0.3)%float in
  max0 (min1 health_score).

Definition generate_maintenance_actions (health_score battery_trend : float) : list string :=
  let actions :=
    if (health_score <? 0.3)%float then
      ["Immediate battery check"; "Full diagnostic"; "Consider replacement"]
    else if (health_score <? 0.6)%float then
      ["Scheduled maintenance"; "Battery calibration"; "Firmware update"]
    else ["Routine check"] in
  if (battery_trend <? -0.5)%float
  then actions ++ ["Battery replacement recommended"]
  else actions.

Definition days_until_maintenance (health_score : float) : Z :=
  if (health_score <? 0.3)%float then 7
  else if (health_score <? 0.6)%float then 30
  else 90.

(** [timedelta(days=d)] added to the clock, rendered as the handlers do. *)
Definition date_after (now days : Z) : string := utcnow_z (now + days * 86400).

Definition analyze_health_trends (now : Z) (device_id : string)
    (telemetry_history : list record) (pm : predictive)
  : option prediction * predictive :=
  if (length telemetry_history <? 5)%nat then (None, pm) else
  let battery_trend := calculate_battery_degradation telemetry_history in
  let up := analyze_usage_patterns telemetry_history in
  let health_score := calculate_health_score battery_trend up in
  let scores := <[device_id := health_score]> (device_health_scores pm) in
  let p := {| p_device_id := device_id;
              p_health_score := round_ health_score 2;
              p_predicted_maintenance_date :=
                date_after now (days_until_maintenance health_score);
              p_confidence := 0.85%float;
              p_recommended_actions :=
                generate_maintenance_actions health_score battery_trend;
              p_battery_degradation_rate := round_ battery_trend 4 |} in
  (Some p,
   {| device_health_scores := scores;
      pm_maintenance_predictions :=
        <[device_id := p]> (pm_maintenance_predictions pm) |}).

(** *** Edge intelligence ([edge_processor.py]) *)

Definition extract_features (t : gmap string value) : list float :=
  let attempt :=
    bind (float_ (get_or t "battery" (VInt 0))) (fun battery =>
    bind (float_ (get_or t "temperature" (VInt 0))) (fun temperature =>
    bind (float_ (get_or t "signal_strength" (VInt 0))) (fun signal =>
    bind (float_ (get_or t "lat" (VInt 0))) (fun lat =>
    bind (float_ (get_or t "lon" (VInt 0))) (fun lon =>
    Ok [battery; temperature; signal; lat; lon]))))) in
  match attempt with
  | Ok features => features
  | Raise _ => [0; 0; 0; 0; 0]%float
  end.

Definition classify_anomaly_type (features : list float) : string :=
  match features with
  | [battery; temp; signal; _; _] =>
    if (battery <? 10)%float then "CRITICAL_BATTERY"
    else if (45 <? temp)%float then "OVERHEATING"
    else if (signal <? -120)%float then "SIGNAL_DEGRADATION"
    else "BEHAVIORAL_ANOMALY"
  | _ => "UNKNOWN_ANOMALY"
  end.

(** [detect_anomalies]; every exception inside is caught and answered
    [False].  [_trigger_anomaly_alert] only builds and returns a
    dictionary that the caller drops, so it leaves no trace here. *)
Definition detect_anomalies (device_id : string)
    (telemetry_data : gmap string value) (ei : edge_intelligence)
  : bool * edge_intelligence :=
  match anomaly_models ei !! device_id with
  | None =>
    (false,
     match pattern_cache ei !! device_id with
     | None => {| anomaly_models := anomaly_models ei;
                  pattern_cache := <[device_id := []]> (pattern_cache ei) |}
     | Some _ => ei
     end)
  | Some _ =>
    let features := extract_features telemetry_data in
    if (10 <? length (default [] (pattern_cache ei !! device_id)))%nat then
      let models :=
        match anomaly_models ei !! device_id with
        | None => <[device_id := new_forest]> (anomaly_models ei)
        | Some _ => anomaly_models ei
        end in
      let model := default new_forest (models !! device_id) in
      let training_data :=
        last_n 50 (default [] (pattern_cache ei !! device_id)) in
      match forest_fit model training_data with
      | Raise _ =>
        (false, {| anomaly_models := models; pattern_cache := pattern_cache ei |})
      | Ok model' =>
        let ei' := {| anomaly_models := <[device_id := model']> models;
                      pattern_cache := pattern_cache ei |} in
        match forest_predict model' features with
        | Raise _ => (false, ei')
        | Ok prediction => (prediction =? -1, ei')
        end
      end
    else
      match pattern_cache ei !! device_id with
      | Some cache =>
        (false, {| anomaly_models := anomaly_models ei;
                   pattern_cache :=
                     <[device_id := cache ++ [features]]> (pattern_cache ei) |})
      | None => (false, ei)
      end
  end.

(** Successive evaluations of one device by the scorer: the answers in
    order and the scorer afterwards. *)
Fixpoint detect_run (device_id : string) (samples : list (gmap string value))
    (ei : edge_intelligence) : list bool * edge_intelligence :=
  match samples with
  | [] => ([], ei)
  | x :: rest =>
    let '(answer, ei) := detect_anomalies device_id x ei in
    let '(answers, ei) := detect_run device_id rest ei in
    (answer :: answers, ei)
  end.

(** The reduced dictionary built on a significant change. *)
Definition compressed_dict (current_data : gmap string value)
    (device_id timestamp : value)
    (battery_change temp_change position_change : float) : gmap string value :=
  <["device_id" := device_id]> (
  <["timestamp" := timestamp]> (
  <["lat" := get current_data "lat"]> (
  <["lon" := get current_data "lon"]> (
  <["battery" := get current_data "battery"]> (
  <["temperature" := get current_data "temperature"]> (
  <["compressed" := VBool true]> (
  <["changes_since_last" :=
      VDict [("battery_delta", VFloat battery_change);
             ("temp_delta", VFloat temp_change);
             ("position_delta_km", VFloat position_change)]]> ∅))))))).

(** The three deltas and the threshold test of [compress_telemetry]. *)
Definition significant_change (battery_change temp_change position_change : float) : bool :=
  (2.0 <? battery_change)%float || (1.0 <? temp_change)%float
  || (0.01 <? position_change)%float.

(** [compress_telemetry]; [previous_data] is the last stored record of the
    device, whose numeric fields are floats already.  Any exception falls
    back to the full data. *)
Definition compress_telemetry (current_data : gmap string value)
    (previous_data : option record) : option (gmap string value) * bool :=
  match previous_data with
  | None => (Some current_data, true)
  | Some prev =>
    let attempt :=
      bind (float_ (get_or current_data "battery" (VInt 0))) (fun battery =>
      let battery_change := abs (battery - r_battery prev) in
      bind (float_ (get_or current_data "temperature" (VInt 0))) (fun temperature =>
      let temp_change := abs (temperature - r_temperature prev) in
      bind (float_ (get_or current_data "lat" (VInt 0))) (fun lat =>
      bind (float_ (get_or current_data "lon" (VInt 0))) (fun lon =>
      let position_change :=
        edge_calculate_distance lat lon (r_lat prev) (r_lon prev) in
      if significant_change battery_change temp_change position_change then
        bind (item current_data "device_id") (fun device_id =>
        bind (item current_data "timestamp") (fun timestamp =>
        Ok (Some (compressed_dict current_data device_id timestamp
                    battery_change temp_change position_change), true)))
      else Ok (None, false))))) in
    match attempt with
    | Ok r => r
    | Raise _ => (Some current_data, true)
    end
  end.

(** *** Telemetry pipeline ([app.py]) *)

(** [data.get("device_id") or data.get("id", "unknown")] *)
Definition resolve_device_id (data : gmap string value) : value :=
  or_ (get data "device_id") (get_or data "id" (VStr "unknown")).

Definition auto_register (now : Z) (device_id : string)
    (data : gmap string value) (protocol : value) (st : state) : state :=
  match device_registry st !! device_id with
  | Some _ => st
  | None =>
    set_device_registry
      (<[device_id :=
           {| di_device_type := get_or data "device_type" (VStr "unknown");
              di_protocol := protocol;
              di_firmware_version := VStr "unknown";
              di_capabilities := VList [];
              di_registered_at := utcnow_z now;
              di_status := "active" |}]> (device_registry st)) st
  end.

Definition geofence_alert_of (now : Z) (device_id : string)
    (data : gmap string value) (protocol : value) (ev : geofence_event) : alert :=
  GeofenceAlert (utcnow_z now) device_id
    (get_or data "device_type" (VStr "unknown"))
    (ev_type ev)
    ("Device moved " ++ ev_current_state ev ++ " geofence '"
       ++ str_ (ev_geofence_name ev) ++ "'")%string
    (ev_distance_from_center_km ev)
    protocol.

Definition canonical_record (now : Z) (device_id : string)
    (data : gmap string value) (protocol : value)
    (current_lat current_lon battery temperature : float)
    (st : state) : record :=
  {| r_device_id := device_id;
     r_timestamp := get_or data "timestamp" (VStr (utcnow_z now));
     r_lat := current_lat;
     r_lon := current_lon;
     r_battery := battery;
     r_temperature := temperature;
     r_status := get_or data "status" (VStr "OK");
     r_device_type := get_or data "device_type" (VStr "unknown");
     r_sensor_data := get_or data "sensor_data" (VDict []);
     r_signal_strength := get_or data "signal_strength" (VInt 0);
     r_protocol := protocol;
     r_received_at := get data "received_at";
     r_geofence_state :=
       default "unknown" (device_geofence_state st !! device_id);
     r_edge_processed := true;
     r_compressed := get_or data "compressed" (VBool false) |}.

Definition maintenance_alert_of (now : Z) (device_id : string)
    (protocol : value) (p : prediction) : alert :=
  MaintenanceAlert (utcnow_z now) device_id
    ("Device health score: " ++ format_2f (p_health_score p))%string
    (p_predicted_maintenance_date p)
    (p_recommended_actions p)
    protocol "high".

(** The analysis run when the retained history length is a multiple of 10. *)
Definition periodic_maintenance (now : Z) (device_id : string)
    (protocol : value) (st : state) : state :=
  let device_history := default [] (telemetry st !! device_id) in
  if (Z.of_nat (length device_history) mod 10 =? 0) then
    let '(maintenance_prediction, pm) :=
      analyze_health_trends now device_id device_history
        (predictive_maintenance st) in
    let st := set_predictive_maintenance pm st in
    match maintenance_prediction with
    | None => st
    | Some p =>
      let st := set_maintenance_predictions
                  (<[device_id := p]> (maintenance_predictions st)) st in
      if (p_health_score p <? 0.4)%float then
        set_alerts (Deque.append 1000 (alerts st)
                      (maintenance_alert_of now device_id protocol p)) st
      else st
    end
  else st.

(** [IndustrialProtocolManager.handle_telemetry] touches none of the stores. *)
Definition industrial_handle_telemetry (protocol : value) : result unit :=
  match protocol with
  | VStr "opcua" => asyncio_create_task
  | _ => Ok tt
  end.

Definition original_handle_telemetry (now : Z) (data : gmap string value)
    (st : state) : outcome * state :=
  match resolve_device_id data with
  | VStr device_id =>
    let protocol := get_or data "protocol" (VStr "unknown") in
    let st := auto_register now device_id data protocol st in
    match float_ (get_or data "lat" (VFloat 0)) with
    | Raise e => (Raised e, st)
    | Ok current_lat =>
    match float_ (get_or data "lon" (VFloat 0)) with
    | Raise e => (Raised e, st)
    | Ok current_lon =>
    match check_geofence_breach now device_id current_lat current_lon st with
    | Raise e => (Raised e, st)
    | Ok (geofence_alert, st) =>
    let st :=
      match geofence_alert with
      | Some ev =>
        set_alerts (Deque.append 1000 (alerts st)
                      (geofence_alert_of now device_id data protocol ev)) st
      | None => st
      end in
    match float_ (get_or data "battery" (VFloat 0)) with
    | Raise e => (Raised e, st)
    | Ok battery =>
    match float_ (get_or data "temperature" (VFloat 0)) with
    | Raise e => (Raised e, st)
    | Ok temperature =>
    let record := canonical_record now device_id data protocol
                    current_lat current_lon battery temperature st in
    let st := set_assets (<[device_id := record]> (assets st)) st in
    let st := set_telemetry
                (<[device_id :=
                     Deque.append 500 (default [] (telemetry st !! device_id))
                       record]> (telemetry st)) st in
    let st := periodic_maintenance now device_id protocol st in
    if industrial_manager then
      match industrial_handle_telemetry protocol with
      | Ok _ => (Returned, st)
      | Raise e => (Raised e, st)
      end
    else (Returned, st)
    end end end end end
  | _ => (NotModelled, st)
  end.

Definition enhanced_handle_telemetry (now : Z) (data : gmap string value)
    (st : state) : outcome * state :=
  match resolve_device_id data with
  | VStr device_id =>
    let '(is_anomaly, ei) :=
      detect_anomalies device_id data (edge_processor st) in
    let st := set_edge_processor ei st in
    let previous_data := last (default [] (telemetry st !! device_id)) in
    let '(compressed_data, should_process) :=
      compress_telemetry data previous_data in
    if negb should_process && bool_decide (is_Some previous_data) then
      (Returned, st)
    else
      let usable :=
        match compressed_data with
        | Some d => (0 <? size d)%nat
        | None => false
        end in
      let processed_data :=
        if usable then default data compressed_data else data in
      let st :=
        set_edge_insights
          (<[device_id :=
               {| last_processed := utcnow_z now;
                  anomaly_detected := is_anomaly;
                  data_compressed := bool_decide (is_Some compressed_data);
                  compression_ratio :=
                    if usable
                    then (fz (json_dumps_len (default data compressed_data))
                          / fz (json_dumps_len data))%float
                    else 1.0%float |}]> (edge_insights st)) st in
      original_handle_telemetry now processed_data st
  | _ => (NotModelled, st)
  end.

(** *** Command acknowledgment ([ack_command]) *)

Definition acknowledge (now : Z) (c : command) : command :=
  {| command_id := command_id c;
     c_type := c_type c;
     c_parameters := c_parameters c;
     c_timestamp := c_timestamp c;
     c_status := "acknowledged";
     c_ack_timestamp := Some (utcnow_z now) |}.

(** The [for command in device_commands[device_id]] loop: the first
    command carrying the id is updated in place and the loop returns. *)
Fixpoint ack_scan (now : Z) (cid : string) (cmds : list command)
  : option (list command) :=
  match cmds with
  | [] => None
  | c :: rest =>
    if String.eqb (command_id c) cid then Some (acknowledge now c :: rest)
    else option_map (cons c) (ack_scan now cid rest)
  end.

Definition ack_command (now : Z) (device_id cid : string) (st : state)
  : response * state :=
  match device_commands st !! device_id with
  | None => (NotFound "Device not found", st)
  | Some cmds =>
    match ack_scan now cid cmds with
    | Some cmds' =>
      (Success,
       set_device_commands (<[device_id := cmds']> (device_commands st)) st)
    | None => (NotFound "Command not found", st)
    end
  end.

(** *** Geofence management ([device_geofence], POST and DELETE) *)

Definition post_geofence (now : Z) (device_id : string)
    (data : gmap string value) (st : state) : response * state :=
  match device_registry st !! device_id with
  | None => (NotFound "Device not found", st)
  | Some _ =>
    if (size data =? 0)%nat then (BadRequest "No geofence data provided", st)
    else
      match data !! "center_lat", data !! "center_lon", data !! "radius_km" with
      | Some vlat, Some vlon, Some vrad =>
        let attempt :=
          bind (float_ vlat) (fun lat =>
          bind (float_ vlon) (fun lon =>
          bind (float_ vrad) (fun rad =>
          Ok {| center_lat := lat;
                center_lon := lon;
                radius_km := rad;
                alert_on_breach := get_or data "alert_on_breach" (VBool true);
                alert_on_return := get_or data "alert_on_return" (VBool false);
                gf_name := get_or data "name"
                             (VStr ("Geofence for " ++ device_id)%string);
                gf_created_at := utcnow_z now |}))) in
        match attempt with
        | Raise e => (ServerError e, st)
        | Ok geofence_config =>
          let st := set_geofences
                      (<[device_id := geofence_config]> (geofences st)) st in
          let st := set_device_geofence_state
                      (<[device_id := "inside"]> (device_geofence_state st)) st in
          (Success, st)
        end
      | _, _, _ =>
        (BadRequest "Missing required fields: center_lat, center_lon, radius_km",
         st)
      end
  end.

Definition delete_geofence (device_id : string) (st : state) : response * state :=
  match device_registry st !! device_id with
  | None => (NotFound "Device not found", st)
  | Some _ =>
    match geofences st !! device_id with
    | Some _ =>
      let st := set_geofences (delete device_id (geofences st)) st in
      let st := set_device_geofence_state
                  (delete device_id (device_geofence_state st)) st in
      (Success, st)
    | None => (NotFound "No geofence found for device", st)
    end
  end.

(** *** Runs and the invariant of the geofence stores *)

(** Every fenced device has a recorded containment. *)
Definition fences_recorded (st : state) : Prop :=
  forall d, is_Some (geofences st !! d) ->
            is_Some (device_geofence_state st !! d).

(** Messages handed one after the other to [original_handle_telemetry],
    each with the clock reading of its arrival. *)
Definition feed (msgs : list (Z * gmap string value)) (st : state) : state :=
  fold_left (fun st m => snd (original_handle_telemetry (fst m) (snd m) st))
            msgs st.

(** The message resolves to the device, its four numeric fields convert
    and the geofence of the device can be evaluated at its position. *)
Definition accepted (d : string) (st : state) (data : gmap string value) : bool :=
  match resolve_device_id data,
        float_ (get_or data "lat" (VFloat 0)),
        float_ (get_or data "lon" (VFloat 0)),
        float_ (get_or data "battery" (VFloat 0)),
        float_ (get_or data "temperature" (VFloat 0)) with
  | VStr d', Ok la, Ok lo, Ok _, Ok _ =>
    String.eqb d' d && geofence_evaluable d la lo st
  | _, _, _, _, _ => false
  end.

(** The record carries the fields of the message. *)
Definition record_of (d : string) (data : gmap string value) (r : record) : Prop :=
  r_device_id r = d /\
  float_ (get_or data "lat" (VFloat 0)) = Ok (r_lat r) /\
  float_ (get_or data "lon" (VFloat 0)) = Ok (r_lon r) /\
  float_ (get_or data "battery" (VFloat 0)) = Ok (r_battery r) /\
  float_ (get_or data "temperature" (VFloat 0)) = Ok (r_temperature r) /\
  r_status r = get_or data "status" (VStr "OK") /\
  r_received_at r = get data "received_at".

End Backend.

(** ** Device management and the protocol entry points *)

(** An entry of [LoRaWANHandler.devices]: the registered device info
    spread under the handler's own keys. *)
Record lorawan_device : Type := {
  ld_device_type : value;
  ld_protocol : value;
  ld_firmware_version : value;
  ld_capabilities : value;
  ld_status : string;
  ld_last_seen : value;
  ld_signal_strength : value;
  ld_data_rate : string;
  ld_registered_at : string
}.

(** The stores of the management routes that the telemetry handlers never
    read: [device_configs] of [app.py] and the device table of the LoRaWAN
    handler held by the industrial manager. *)
Record management : Type := {
  device_configs : gmap string (gmap string value);
  lorawan_devices : gmap string lorawan_device
}.

Definition initial_management : management :=
  {| device_configs := ∅; lorawan_devices := ∅ |}.

(** [v == s] for a string literal [s]. *)
Definition is_str (v : value) (s : string) : bool :=
  match v with
  | VStr s' => String.eqb s' s
  | _ => false
  end.

(** [s.replace(old, "")] for a non-empty [old]: the occurrences of [old]
    are dropped from left to right, [skip] counting the characters of the
    occurrence being dropped. *)
Fixpoint remove_occurrences (old s : string) (skip : nat) : string :=
  match s with
  | EmptyString => EmptyString
  | String c rest =>
    match skip with
    | S k => remove_occurrences old rest k
    | O =>
      if String.prefix old s
      then remove_occurrences old rest (String.length old - 1)
      else String c (remove_occurrences old rest 0)
    end
  end.

(** The character [_]. *)
Definition underscore : Ascii.ascii := Ascii.ascii_of_nat 95.

(** [device_id.replace('lorawan_', '')] *)
Definition dev_eui_of (device_id : string) : string :=
  remove_occurrences "lorawan_" device_id 0.

(** How a telemetry entry point answers its caller ([IdNotModelled] for
    the outcome [NotModelled] of the handler). *)
Inductive ingest_response : Type :=
| Received
| Rejected (e : exn)
| RouterNotReady
| IdNotModelled.

(** How the downlink route answers. *)
Inductive downlink_response : Type :=
| LoRaWANNotAvailable
| CommandRequired
| Downlink (success : bool).

(** How the maintenance route answers: the prediction, its health score
    and the battery degradation rate of the history. *)
Inductive maintenance_response : Type :=
| MaintenanceNotFound
| Maintenance (p : option prediction) (health_score : float)
    (battery_degradation : float).

(** What the operators and the adapters send to the backend. *)
Inductive request : Type :=
| Telemetry (now : Z) (data : gmap string value)
| HttpTelemetry (now : Z) (data : gmap string value)
| CoapTelemetry (now : Z) (data : gmap string value)
| RegisterDevice (now : Z) (device_id : string) (data : gmap string value)
| PostCommand (now : Z) (device_id : string) (data : gmap string value)
    (uuid : string) (publish : result unit)
| AckCommand (now : Z) (device_id command_id : string)
| PostGeofence (now : Z) (device_id : string) (data : gmap string value)
| DeleteGeofence (device_id : string)
| GetMaintenance (now : Z) (device_id : string).

Section Management.
Context `{Runtime}.

(** *** The LoRaWAN handler and the industrial manager
        ([industrial_protocols.py]) *)

(** [LoRaWANHandler.register_device] *)
Definition lorawan_register_device (now : Z) (dev_eui : string)
    (info : device_info) (m : management) : management :=
  {| device_configs := device_configs m;
     lorawan_devices :=
       <[dev_eui := {| ld_device_type := di_device_type info;
                       ld_protocol := di_protocol info;
                       ld_firmware_version := di_firmware_version info;
                       ld_capabilities := di_capabilities info;
                       ld_status := di_status info;
                       ld_last_seen := VNone;
                       ld_signal_strength := VInt 0;
                       ld_data_rate := "SF7";
                       ld_registered_at := utcnow_z now |}]>
         (lorawan_devices m) |}.

(** [LoRaWANHandler.send_downlink]: the transmission is simulated and
    succeeds for every registered device. *)
Definition send_downlink (dev_eui : string) (m : management) : bool :=
  bool_decide (is_Some (lorawan_devices m !! dev_eui)).

(** [IndustrialProtocolManager.send_command] *)
Definition industrial_send_command (device_id : string) (protocol : value)
    (m : management) : bool :=
  if is_str protocol "lorawan" then send_downlink (dev_eui_of device_id) m
  else false.

(** [protocol in [p.value for p in IndustrialProtocol]] *)
Definition is_industrial (protocol : value) : bool :=
  is_str protocol "opcua" || is_str protocol "modbus"
  || is_str protocol "lorawan".

(** *** Registration and command routes ([app.py]) *)

(** [register_device]; an absent body counts as the empty one. *)
Definition register_device (now : Z) (device_id : string)
    (data : gmap string value) (sys : state * management)
  : response * (state * management) :=
  let '(st, m) := sys in
  let device_info :=
    {| di_device_type := get_or data "device_type" (VStr "unknown");
       di_protocol := get_or data "protocol" (VStr "unknown");
       di_firmware_version := get_or data "firmware_version" (VStr "1.0.0");
       di_capabilities := get_or data "capabilities" (VList []);
       di_registered_at := utcnow_z now;
       di_status := "active" |} in
  let st := set_device_registry
              (<[device_id := device_info]> (device_registry st)) st in
  let default_config : gmap string value :=
    <["telemetry_interval" := get_or data "telemetry_interval" (VInt 30)]> (
    <["heartbeat_interval" := get_or data "heartbeat_interval" (VInt 60)]> (
    <["alert_thresholds" :=
        VDict [("battery", VInt 20); ("temperature", VInt 40);
               ("signal_strength", VInt (-100))]]> ∅)) in
  let m := {| device_configs :=
                <[device_id := default_config]> (device_configs m);
              lorawan_devices := lorawan_devices m |} in
  let protocol := get_or data "protocol" (VStr "unknown") in
  let m := if industrial_manager && is_str protocol "lorawan"
           then lorawan_register_device now (dev_eui_of device_id)
                  device_info m
           else m in
  (Success, (st, m)).

(** The POST branch of [device_commands_endpoint].  [uuid] is the value
    of [str(uuid.uuid4())] and [publish] what the MQTT client does with
    the message. *)
Definition post_command (now : Z) (device_id : string)
    (data : gmap string value) (uuid : string) (publish : result unit)
    (sys : state * management) : response * (state * management) :=
  let '(st, m) := sys in
  match device_registry st !! device_id with
  | None => (NotFound "Device not found", sys)
  | Some info =>
    match data !! "command" with
    | None => (BadRequest "No command provided", sys)
    | Some type_ =>
      let protocol := di_protocol info in
      let status :=
        if is_str protocol "mqtt" then
          match publish with
          | Ok _ => "sent"
          | Raise _ => "pending"
          end
        else if industrial_manager && is_industrial protocol then
          if industrial_send_command device_id protocol m
          then "sent" else "pending"
        else "pending" in
      let command :=
        {| command_id := uuid;
           c_type := type_;
           c_parameters := get_or data "parameters" (VDict []);
           c_timestamp := utcnow_z now;
           c_status := status;
           c_ack_timestamp := None |} in
      let queue := default [] (device_commands st !! device_id) in
      (Success,
       (set_device_commands
          (<[device_id := queue ++ [command]]> (device_commands st)) st, m))
    end
  end.

(** The route [send_lorawan_downlink]: the command goes through
    [send_command] under the device id [lorawan_<dev_eui>]. *)
Definition send_lorawan_downlink (dev_eui : string)
    (data : gmap string value) (m : management) : downlink_response :=
  if negb industrial_manager then LoRaWANNotAvailable
  else
    match data !! "command" with
    | None => CommandRequired
    | Some _ =>
      Downlink (industrial_send_command ("lorawan_" ++ dev_eui)%string
                  (VStr "lorawan") m)
    end.

(** The route [get_device_maintenance]: a device without stored
    prediction is analysed on demand. *)
Definition get_device_maintenance (now : Z) (device_id : string)
    (st : state) : maintenance_response * state :=
  match device_registry st !! device_id with
  | None => (MaintenanceNotFound, st)
  | Some _ =>
    let '(prediction, st) :=
      match maintenance_predictions st !! device_id with
      | Some p => (Some p, st)
      | None =>
        let device_history := default [] (telemetry st !! device_id) in
        match device_history with
        | [] => (None, st)
        | _ :: _ =>
          let '(prediction, pm) :=
            analyze_health_trends now device_id device_history
              (predictive_maintenance st) in
          let st := set_predictive_maintenance pm st in
          match prediction with
          | Some p =>
            (Some p,
             set_maintenance_predictions
               (<[device_id := p]> (maintenance_predictions st)) st)
          | None => (None, st)
          end
        end
      end in
    (Maintenance prediction
       match prediction with
       | Some p => p_health_score p
       | None => 0%float
       end
       match default [] (telemetry st !! device_id) with
       | [] => 0%float
       | _ :: _ as history => calculate_battery_degradation history
       end,
     st)
  end.

(** *** Protocol entry points ([protocol_router.py], [app.py]) *)

(** The tagging every adapter applies before the callback. *)
Definition tag (now : Z) (protocol : string) (data : gmap string value)
  : gmap string value :=
  <["received_at" := VStr (utcnow_z now)]> (
  <["protocol" := VStr protocol]> data).

(** [ProtocolRouter.handle_http_telemetry] *)
Definition handle_http_telemetry (now : Z) (data : gmap string value)
    (st : state) : outcome * state :=
  enhanced_handle_telemetry now (tag now "http" data) st.

(** The route [/coap/telemetry]: any exception becomes a 400 answer. *)
Definition coap_telemetry (now : Z) (data : gmap string value) (st : state)
  : ingest_response * state :=
  match enhanced_handle_telemetry now (tag now "coap" data) st with
  | (Returned, st') => (Received, st')
  | (Raised e, st') => (Rejected e, st')
  | (NotModelled, st') => (IdNotModelled, st')
  end.

(** The route [/http/telemetry]. *)
Definition http_telemetry (router_ready : bool) (now : Z)
    (data : gmap string value) (st : state) : ingest_response * state :=
  if router_ready then
    match handle_http_telemetry now data st with
    | (Returned, st') => (Received, st')
    | (Raised e, st') => (Rejected e, st')
    | (NotModelled, st') => (IdNotModelled, st')
    end
  else (RouterNotReady, st).

(** *** What one telemetry message may change *)

(** The footprint of a call of [original_handle_telemetry] that resolved
    to the device [d], whatever its outcome: the device is registered if
    it was not, its containment may have been rewritten if it is fenced,
    at most one record has been stored, under [d], and at most two alerts
    have been appended.  The fences, the command queues, the insights and
    the scorer are as before. *)
Definition telemetry_effect (d : string) (st st' : state) : Prop :=
  geofences st' = geofences st /\
  device_commands st' = device_commands st /\
  edge_insights st' = edge_insights st /\
  edge_processor st' = edge_processor st /\
  (exists info,
     device_registry st'
     = <[d := default info (device_registry st !! d)]> (device_registry st)) /\
  (device_geofence_state st' = device_geofence_state st \/
   is_Some (geofences st !! d) /\
   exists c, (c = "inside" \/ c = "outside") /\
             device_geofence_state st'
             = <[d := c]> (device_geofence_state st)) /\
  (telemetry st' = telemetry st /\ assets st' = assets st \/
   exists r,
     r_device_id r = d /\
     telemetry st'
     = <[d := Deque.append 500 (default [] (telemetry st !! d)) r]>
         (telemetry st) /\
     assets st' = <[d := r]> (assets st)) /\
  (exists new,
     (length new <= 2)%nat /\
     alerts st' = Deque.appends 1000 (alerts st) new).

(** *** The backend as a whole *)

(** One request served on the stores; the answer is dropped. *)
Definition serve (r : request) (sys : state * management)
  : state * management :=
  let '(st, m) := sys in
  match r with
  | Telemetry now data => (snd (enhanced_handle_telemetry now data st), m)
  | HttpTelemetry now data => (snd (http_telemetry true now data st), m)
  | CoapTelemetry now data => (snd (coap_telemetry now data st), m)
  | RegisterDevice now d data => snd (register_device now d data sys)
  | PostCommand now d data uuid publish =>
    snd (post_command now d data uuid publish sys)
  | AckCommand now d cid => (snd (ack_command now d cid st), m)
  | PostGeofence now d data => (snd (post_geofence now d data st), m)
  | DeleteGeofence d => (snd (delete_geofence d st), m)
  | GetMaintenance now d => (snd (get_device_maintenance now d st), m)
  end.

Definition run (rs : list request) (sys : state * management)
  : state * management :=
  fold_left (fun sys r => serve r sys) rs sys.

(** The stores a run of requests from a fresh backend can reach. *)
Definition reachable (sys : state * management) : Prop :=
  exists rs, sys = run rs (initial_state, initial_management).

(** The elementary changes of the stores out of which every request is
    made: the scorer alone (a skipped sample), the scorer and the insight
    of the device, the footprint of a recorded message, a registration, a
    queued command, an acknowledgment, a fence set and a fence removed. *)
Inductive store_step : state -> state -> Prop :=
| step_scored (d : string) (data : gmap string value) (st : state) :
    store_step st
      (set_edge_processor
         (snd (detect_anomalies d data (edge_processor st))) st)
| step_analysed (d : string) (data : gmap string value) (i : insight)
    (st : state) :
    anomaly_detected i = fst (detect_anomalies d data (edge_processor st)) ->
    store_step st
      (set_edge_insights (<[d := i]> (edge_insights st))
         (set_edge_processor
            (snd (detect_anomalies d data (edge_processor st))) st))
| step_telemetry (d : string) (st st' : state) :
    telemetry_effect d st st' -> store_step st st'
| step_registered (d : string) (info : device_info) (st : state) :
    store_step st
      (set_device_registry (<[d := info]> (device_registry st)) st)
| step_queued (d : string) (c : command) (st : state) :
    is_Some (device_registry st !! d) ->
    c_status c = "pending" \/ c_status c = "sent" ->
    c_ack_timestamp c = None ->
    store_step st
      (set_device_commands
         (<[d := default [] (device_commands st !! d) ++ [c]]>
            (device_commands st)) st)
| step_acked (now : Z) (d : string) (pre post : list command) (c : command)
    (st : state) :
    device_commands st !! d = Some (pre ++ c :: post) ->
    store_step st
      (set_device_commands
         (<[d := pre ++ acknowledge now c :: post]> (device_commands st)) st)
| step_fenced (d : string) (gf : geofence) (st : state) :
    is_Some (device_registry st !! d) ->
    store_step st
      (set_device_geofence_state
         (<[d := "inside"]> (device_geofence_state st))
         (set_geofences (<[d := gf]> (geofences st)) st))
| step_unfenced (d : string) (st : state) :
    store_step st
      (set_device_geofence_state (delete d (device_geofence_state st))
         (set_geofences (delete d (geofences st)) st)).

End Management.

(** ** A runtime on which the handlers can be executed *)

Module Sample.

(** Truncated Taylor series stand in for the C library (adequate for the
    small angles of nearby positions); [round] keeps its argument, [sum]
    adds from the left, the clock is printed as its number of seconds, no
    string parses as a float, and the industrial manager is absent. *)
Definition taylor : Runtime := {|
  forest := unit;
  new_forest := tt;
  forest_fit := fun m _ => Ok m;
  forest_predict := fun _ _ => Ok 1;
  libm_sin := fun x => (x - x * x * x / 6 + x * x * x * x * x / 120)%float;
  libm_cos := fun x => (1 - x * x / 2 + x * x * x * x / 24)%float;
  libm_atan2 := fun y x => let t := (y / x)%float in (t - t * t * t / 3)%float;
  libm_pow := fun x _ => (x * x)%float;
  round_ := fun x _ => x;
  np_std := fun _ => 0%float;
  sum_ := fun l => fold_left PrimFloat.add l 0%float;
  float_of_str := fun _ => None;
  str_ := fun v => match v with VStr s => s | _ => "" end;
  format_2f := fun _ => "";
  isoformat := fun t => pretty t;
  json_dumps_len := fun d => Z.of_nat (size d);
  industrial_manager := false;
  asyncio_create_task := Raise RuntimeError
|}.

(** The same runtime with the industrial manager initialised. *)
Definition plant : Runtime := {|
  forest := unit;
  new_forest := tt;
  forest_fit := fun m _ => Ok m;
  forest_predict := fun _ _ => Ok 1;
  libm_sin := libm_sin (Runtime := taylor);
  libm_cos := libm_cos (Runtime := taylor);
  libm_atan2 := libm_atan2 (Runtime := taylor);
  libm_pow := libm_pow (Runtime := taylor);
  round_ := fun x _ => x;
  np_std := fun _ => 0%float;
  sum_ := fun l => fold_left PrimFloat.add l 0%float;
  float_of_str := fun _ => None;
  str_ := str_ (Runtime := taylor);
  format_2f := fun _ => "";
  isoformat := fun t => pretty t;
  json_dumps_len := fun d => Z.of_nat (size d);
  industrial_manager := true;
  asyncio_create_task := Raise RuntimeError
|}.

(** A registered truck fenced within 1 km of (34.89, -1.32), both alerts
    on, as the geofence route leaves it. *)
Definition depot_fence : gmap string value :=
  <["center_lat" := VFloat 34.89]> (
  <["center_lon" := VFloat (-1.32)]> (
  <["radius_km" := VFloat 1]> (
  <["alert_on_return" := VBool true]> (
  <["name" := VStr "depot"]> ∅)))).

Definition registered : state (H := taylor) :=
  set_device_registry
    (<["truck-1" := {| di_device_type := VStr "truck";
                       di_protocol := VStr "http";
                       di_firmware_version := VStr "1.0.0";
                       di_capabilities := VList [];
                       di_registered_at := "0Z";
                       di_status := "active" |}]> ∅)
    initial_state.

Definition fenced : state (H := taylor) :=
  snd (post_geofence 0 "truck-1" depot_fence registered).

(** A report of the truck. *)
Definition report (lat lon battery : float) (status : string)
  : gmap string value :=
  <["device_id" := VStr "truck-1"]> (
  <["timestamp" := VStr "2024-05-01T10:00:00Z"]> (
  <["lat" := VFloat lat]> (
  <["lon" := VFloat lon]> (
  <["battery" := VFloat battery]> (
  <["temperature" := VInt 25]> (
  <["status" := VStr status]> (
  <["device_type" := VStr "truck"]> (
  <["signal_strength" := VInt (-90)]> (
  <["protocol" := VStr "http"]> ∅))))))))).

(** The same report from a device that still uses the legacy [id] field. *)
Definition legacy_report (lat lon battery : float) (status : string)
  : gmap string value :=
  <["id" := VStr "truck-1"]> (delete "device_id" (report lat lon battery status)).

(** The fenced truck after a first report from the centre of its fence. *)
Definition tracked : state (H := taylor) :=
  snd (enhanced_handle_telemetry 0 (report 34.89 (-1.32) 80 "MOVING") fenced).

(** A stored sample of the truck parked at the centre of its fence. *)
Definition parked : record :=
  {| r_device_id := "truck-1";
     r_timestamp := VStr "2024-05-01T10:00:00Z";
     r_lat := 34.89;
     r_lon := -1.32;
     r_battery := 80;
     r_temperature := 25;
     r_status := VStr "IDLE";
     r_device_type := VStr "truck";
     r_sensor_data := VDict [];
     r_signal_strength := VInt (-90);
     r_protocol := VStr "http";
     r_received_at := VNone;
     r_geofence_state := "inside";
     r_edge_processed := true;
     r_compressed := VBool false |}.

(** The record of a first report ["MOVING"] from the same place. *)
Definition parked_moving : record :=
  {| r_device_id := "truck-1";
     r_timestamp := VStr "2024-05-01T10:00:00Z";
     r_lat := 34.89;
     r_lon := -1.32;
     r_battery := 80;
     r_temperature := 25;
     r_status := VStr "MOVING";
     r_device_type := VStr "truck";
     r_sensor_data := VDict [];
     r_signal_strength := VInt (-90);
     r_protocol := VStr "http";
     r_received_at := VNone;
     r_geofence_state := "inside";
     r_edge_processed := true;
     r_compressed := VBool false |}.



(** A queue whose only command was acknowledged at instant 1. *)
Definition acked_ping : command :=
  {| command_id := "c-1";
     c_type := VStr "ping";
     c_parameters := VDict [];
     c_timestamp := "0Z";
     c_status := "acknowledged";
     c_ack_timestamp := Some "1Z" |}.

Definition acked : state (H := taylor) :=
  set_device_commands (<["truck-1" := [acked_ping]]> ∅) registered.

(** A report whose battery field is not a number, and one without [lat]. *)
Definition unreadable_battery_report (lat lon : float) : gmap string value :=
  <["battery" := VStr "n/a"]> (report lat lon 0 "MOVING").

Definition report_without_lat (lon battery : float) : gmap string value :=
  delete "lat" (report 0 lon battery "MOVING").

(** A request to ping a device. *)
Definition ping : gmap string value := <["command" := VStr "ping"]> ∅.

(** The backend with the truck registered by the operator, and a short
    session: registration, fence, two reports, a command and its
    acknowledgment. *)
Definition backend : state (H := taylor) * management :=
  snd (register_device 0 "truck-1"
         (<["device_type" := VStr "truck"]> (<["protocol" := VStr "mqtt"]> ∅))
         (initial_state, initial_management)).

Definition session : list request :=
  [RegisterDevice 0 "truck-1" (<["protocol" := VStr "mqtt"]> ∅);
   PostGeofence 1 "truck-1" depot_fence;
   HttpTelemetry 2 (report 34.89 (-1.32) 80 "MOVING");
   Telemetry 3 (report 34.95 (-1.32) 70 "MOVING");
   PostCommand 4 "truck-1" ping "c-1" (Ok tt);
   AckCommand 5 "truck-1" "c-1";
   GetMaintenance 6 "truck-1"].

(** The registered truck with five stored samples and no prediction. *)
Definition rested : state (H := taylor) :=
  set_telemetry (<["truck-1" := repeat parked 5]> ∅) registered.

(** A LoRaWAN sensor as the operator registers it. *)
Definition sensor : gmap string value :=
  <["device_type" := VStr "sensor"]> (<["protocol" := VStr "lorawan"]> ∅).

End Sample.

(** * Properties *)

(** ** The bounded telemetry history *)

Section DequeFacts.
Context {A : Type}.
Implicit Types (q xs : list A) (x : A).

Lemma deque_append_spec n q x :
  (0 < n)%nat -> (length q <= n)%nat ->
  Deque.append n q x = drop (length (q ++ [x]) - n) (q ++ [x]).
Proof.
  intros Hn Hq. unfold Deque.append.
  destruct n as [|m]; [lia|].
  rewrite length_app; cbn [length].
  destruct (Nat.leb_spec (S m) (length q)) as [Hfull|Hroom].
  - assert (length q = S m) as Hlen by lia.
    replace (length q + 1 - S m)%nat with 1%nat by lia.
    destruct q as [|y q']; [discriminate|]. reflexivity.
  - replace (length q + 1 - S m)%nat with 0%nat by lia. reflexivity.
Qed.

Lemma deque_appends_snoc n q xs x :
  Deque.appends n q (xs ++ [x]) = Deque.append n (Deque.appends n q xs) x.
Proof. unfold Deque.appends. apply fold_left_app. Qed.

Lemma deque_appends_spec n q xs :
  (0 < n)%nat -> (length q <= n)%nat ->
  Deque.appends n q xs = drop (length (q ++ xs) - n) (q ++ xs).
Proof.
  intros Hn Hq. induction xs as [|x xs IH] using rev_ind.
  - cbn. rewrite app_nil_r.
    replace (length q - n)%nat with 0%nat by lia. reflexivity.
  - rewrite deque_appends_snoc, IH.
    rewrite deque_append_spec; [|done|rewrite length_drop; lia].
    rewrite length_app, length_drop. cbn [length].
    rewrite (app_assoc q xs [x]).
    set (l := q ++ xs).
    rewrite <- (drop_app_le l [x] (length l - n)) by lia.
    rewrite drop_drop. f_equal.
    rewrite length_app. cbn [length]. lia.
Qed.

End DequeFacts.

(** A deque of capacity 500 that starts empty holds the newest
    [min (length xs) 500] of the items appended, in order. *)
Lemma deque_keeps_newest {A : Type} (xs : list A) :
  let q := Deque.appends 500 [] xs in
  length q = Nat.min (length xs) 500 /\
  q = drop (length xs - 500) xs /\
  take (length xs - 500) xs ++ q = xs.
Proof.
  cbv zeta.
  rewrite deque_appends_spec by (cbn; lia).
  cbn [app]. rewrite length_drop, take_drop. repeat split; lia.
Qed.

(** ** Comparisons of binary64 numbers *)

Section FloatOrder.

Lemma SFcompare_antisym (x y : spec_float) :
  SFcompare y x = option_map CompOpp (SFcompare x y).
Proof.
  destruct x as [sx|sx| |sx mx ex], y as [sy|sy| |sy my ey]; cbn;
    try reflexivity;
    try (destruct sx; reflexivity);
    try (destruct sy; reflexivity);
    try (destruct sx, sy; reflexivity).
  destruct sx, sy; try reflexivity; f_equal;
    rewrite (Z.compare_antisym ex ey);
    destruct (ex ?= ey); cbn; try reflexivity;
    rewrite !Pos.compare_cont_antisym; reflexivity.
Qed.


Lemma float_leb_not_gt (x y : float) : (x <=? y)%float = true -> (y <? x)%float = false.
Proof.
  rewrite ltb_spec, leb_spec. unfold SFltb, SFleb.
  rewrite (SFcompare_antisym (Prim2SF x) (Prim2SF y)).
  destruct (SFcompare _ _) as [[]|]; cbn; congruence.
Qed.

End FloatOrder.

(** ** Health score *)



(** ** Geofence engine *)

Section GeofenceFacts.
Context `{Runtime}.


End GeofenceFacts.

(** ** Telemetry pipeline *)

Section PipelineFacts.
Context `{Runtime}.

Lemma deque_append_last {A : Type} (n : nat) (q : list A) (x : A) :
  (0 < n)%nat -> last (Deque.append n q x) = Some x.
Proof.
  intros Hn. unfold Deque.append. destruct n as [|m]; [lia|].
  destruct (S m <=? length q)%nat; apply last_snoc.
Qed.

(** What [check_geofence_breach] may touch is the containment store. *)
Lemma check_geofence_breach_frame (now : Z) (d : string) (lat lon : float)
    (st st' : state) (ev : option geofence_event) :
  check_geofence_breach now d lat lon st = Ok (ev, st') ->
  st' = set_device_geofence_state (device_geofence_state st') st.
Proof.
  unfold check_geofence_breach.
  destruct (geofences st !! d) as [gf|].
  - destruct (calculate_distance _ _ _ _) as [distance|e]; cbn [bind];
      [|discriminate].
    repeat match goal with
           | |- context [if ?b then _ else _] => destruct b
           end; intros Heq; inversion Heq; subst; try reflexivity;
      match goal with
      | |- _ = set_device_geofence_state _ ?s => destruct s; reflexivity
      end.
  - intros Heq; inversion Heq; subst.
    match goal with
    | |- _ = set_device_geofence_state _ ?s => destruct s; reflexivity
    end.
Qed.

Lemma check_geofence_breach_evaluable (now : Z) (d : string) (lat lon : float)
    (st : state) :
  geofence_evaluable d lat lon st = true ->
  exists ev st', check_geofence_breach now d lat lon st = Ok (ev, st').
Proof.
  unfold geofence_evaluable, check_geofence_breach.
  destruct (geofences st !! d) as [gf|]; [|eauto].
  destruct (calculate_distance _ _ _ _) as [distance|e]; [|discriminate].
  intros _. cbn [bind].
  repeat match goal with
         | |- context [if ?b then _ else _] => destruct b
         end; eauto.
Qed.

(** After the check the recorded containment of a fenced device that had
    one recorded is the computed one. *)
Lemma check_geofence_breach_containment (now : Z) (d : string)
    (lat lon : float) (st st' : state) (ev : option geofence_event)
    (gf : geofence) (distance : float) :
  geofences st !! d = Some gf ->
  is_Some (device_geofence_state st !! d) ->
  calculate_distance (center_lat gf) (center_lon gf) lat lon = Ok distance ->
  check_geofence_breach now d lat lon st = Ok (ev, st') ->
  device_geofence_state st' !! d
  = Some (if (distance <=? radius_km gf)%float then "inside" else "outside").
Proof.
  intros Hgf Hsome Hdist. unfold check_geofence_breach.
  rewrite Hgf, Hdist. cbn [bind].
  destruct (device_geofence_state st !! d) as [stored|] eqn:Hstored;
    [|destruct Hsome; discriminate].
  cbn [default from_option id].
  destruct (String.eqb_spec stored
              (if (distance <=? radius_km gf)%float then "inside" else "outside"))
    as [Heq|Hne]; cbn [negb].
  - intros Hrun; inversion Hrun; subst st'.
    rewrite Hstored. f_equal. exact Heq.
  - repeat match goal with
           | |- context [if ?b && ?c then _ else _] => destruct (b && c)
           end; intros Hrun; inversion Hrun; subst st'; cbn;
      apply lookup_insert_eq.
Qed.

Lemma auto_register_frame (now : Z) (d : string) (data : gmap string value)
    (protocol : value) (st : state) :
  exists reg, auto_register now d data protocol st = set_device_registry reg st.
Proof.
  unfold auto_register. destruct (device_registry st !! d); eauto.
  exists (device_registry st). destruct st; reflexivity.
Qed.

(** The periodic analysis touches the predictions, the analytics object
    and the alerts only. *)
Lemma periodic_maintenance_frame (now : Z) (d : string) (protocol : value)
    (st : state) :
  let st' := periodic_maintenance now d protocol st in
  assets st' = assets st /\ telemetry st' = telemetry st /\
  device_registry st' = device_registry st /\
  device_commands st' = device_commands st /\
  geofences st' = geofences st /\
  device_geofence_state st' = device_geofence_state st /\
  edge_insights st' = edge_insights st /\
  edge_processor st' = edge_processor st.
Proof.
  unfold periodic_maintenance.
  destruct (_ =? 0); [|repeat split].
  destruct (analyze_health_trends _ _ _ _) as [[p|] pm]; [|repeat split].
  cbn. destruct (p_health_score p <? 0.4)%float; repeat split.
Qed.

(** A message whose numeric fields convert and whose geofence evaluation
    goes through is recorded: [original_handle_telemetry] builds the
    canonical record from the stores as the geofence check left them,
    makes it the current snapshot and appends it to the bounded history. *)
Lemma original_handle_telemetry_stores (now : Z) (data : gmap string value)
    (st stg : state) (d : string) (la lo b t : float)
    (ev : option geofence_event) :
  resolve_device_id data = VStr d ->
  float_ (get_or data "lat" (VFloat 0)) = Ok la ->
  float_ (get_or data "lon" (VFloat 0)) = Ok lo ->
  check_geofence_breach now d la lo
    (auto_register now d data (get_or data "protocol" (VStr "unknown")) st)
  = Ok (ev, stg) ->
  float_ (get_or data "battery" (VFloat 0)) = Ok b ->
  float_ (get_or data "temperature" (VFloat 0)) = Ok t ->
  exists o st',
    original_handle_telemetry now data st = (o, st') /\
    o <> NotModelled /\
    let r := canonical_record now d data
               (get_or data "protocol" (VStr "unknown")) la lo b t stg in
    assets st' !! d = Some r /\
    telemetry st' !! d
    = Some (Deque.append 500 (default [] (telemetry st !! d)) r) /\
    geofences st' = geofences st /\
    device_geofence_state st' = device_geofence_state stg /\
    edge_insights st' = edge_insights st /\
    edge_processor st' = edge_processor st.
Proof.
  intros Hid Hla Hlo Hcheck Hb Ht.
  unfold original_handle_telemetry.
  rewrite Hid, Hla, Hlo, Hcheck, Hb, Ht.
  rewrite (check_geofence_breach_frame _ _ _ _ _ _ _ Hcheck).
  set (gs := device_geofence_state stg).
  destruct (auto_register_frame now d data
              (get_or data "protocol" (VStr "unknown")) st) as [reg ->].
  match goal with
  | |- context [periodic_maintenance ?n ?dd ?p ?s] =>
    pose proof (periodic_maintenance_frame n dd p s) as Hframe;
    set (st4 := periodic_maintenance n dd p s) in *
  end.
  cbv zeta in Hframe.
  destruct Hframe as (Ha & Htel & _ & _ & Hg & Hgs & Hi & Hep).
  assert (exists o, (if industrial_manager
                     then match industrial_handle_telemetry
                                  (get_or data "protocol" (VStr "unknown")) with
                          | Ok _ => (Returned, st4)
                          | Raise e => (Raised e, st4)
                          end
                     else (Returned, st4)) = (o, st4) /\ o <> NotModelled)
    as (o & -> & Ho).
  { destruct industrial_manager; [|eauto].
    destruct (industrial_handle_telemetry _); eauto. }
  exists o, st4. split; [reflexivity|]. split; [exact Ho|].
  cbv zeta. rewrite Ha, Htel, Hg, Hgs, Hi, Hep.
  destruct ev; cbn; rewrite !lookup_insert_eq; repeat split.
Qed.

(** C3: when a message is recorded, the geofence has been evaluated first:
    the record appended last to the history, which is also the current
    snapshot, carries the position of the message and as [geofence_state]
    the containment recorded once the check has run (["unknown"] when none
    is recorded).  For a fenced device with a recorded containment that is
    the containment computed from this very position: ["inside"] exactly
    when the distance to the centre is at most the radius. *)
Theorem sample_carries_post_transition_state (now : Z)
    (data : gmap string value) (st : state) (d : string) (la lo b t : float) :
  resolve_device_id data = VStr d ->
  float_ (get_or data "lat" (VFloat 0)) = Ok la ->
  float_ (get_or data "lon" (VFloat 0)) = Ok lo ->
  float_ (get_or data "battery" (VFloat 0)) = Ok b ->
  float_ (get_or data "temperature" (VFloat 0)) = Ok t ->
  geofence_evaluable d la lo st = true ->
  exists o st' r,
    original_handle_telemetry now data st = (o, st') /\
    last (default [] (telemetry st' !! d)) = Some r /\
    assets st' !! d = Some r /\
    r_lat r = la /\ r_lon r = lo /\
    r_geofence_state r
    = default "unknown" (device_geofence_state st' !! d) /\
    (forall ev stg,
       check_geofence_breach now d la lo
         (auto_register now d data (get_or data "protocol" (VStr "unknown")) st)
       = Ok (ev, stg) ->
       device_geofence_state st' = device_geofence_state stg) /\
    (forall gf distance,
       geofences st !! d = Some gf ->
       is_Some (device_geofence_state st !! d) ->
       calculate_distance (center_lat gf) (center_lon gf) la lo = Ok distance ->
       r_geofence_state r
       = if (distance <=? radius_km gf)%float then "inside" else "outside").
Proof.
  intros Hid Hla Hlo Hb Ht Heval.
  set (st0 := auto_register now d data
                (get_or data "protocol" (VStr "unknown")) st).
  assert (geofences st0 = geofences st /\
          device_geofence_state st0 = device_geofence_state st) as [Hg0 Hgs0].
  { subst st0. destruct (auto_register_frame now d data
                           (get_or data "protocol" (VStr "unknown")) st)
      as [reg ->]. split; reflexivity. }
  assert (geofence_evaluable d la lo st0 = true) as Heval0.
  { unfold geofence_evaluable in *. rewrite Hg0. exact Heval. }
  destruct (check_geofence_breach_evaluable now d la lo st0 Heval0)
    as (ev & stg & Hcheck).
  destruct (original_handle_telemetry_stores now data st stg d la lo b t ev
              Hid Hla Hlo Hcheck Hb Ht)
    as (o & st' & Hrun & _ & Hassets & Htel & _ & Hgs & _).
  eexists o, st', _. split; [exact Hrun|].
  rewrite Htel. cbn [from_option id]. rewrite deque_append_last by lia.
  split; [reflexivity|]. split; [exact Hassets|].
  rewrite Hgs. cbn [canonical_record r_lat r_lon r_geofence_state].
  repeat split.
  - intros ev' stg' Hcheck'. fold st0 in Hcheck'. congruence.
  - intros gf distance Hgf Hsome Hdist.
    rewrite (check_geofence_breach_containment now d la lo st0 stg ev gf
               distance); [reflexivity| | |exact Hdist|exact Hcheck].
    + rewrite Hg0. exact Hgf.
    + rewrite Hgs0. exact Hsome.
Qed.

(** *** The bounded history *)

Lemma geofence_evaluable_ext (d : string) (la lo : float) (st st' : state) :
  geofences st' = geofences st ->
  geofence_evaluable d la lo st' = geofence_evaluable d la lo st.
Proof. intros Hg. unfold geofence_evaluable. rewrite Hg. reflexivity. Qed.

Lemma accepted_ext (d : string) (data : gmap string value) (st st' : state) :
  geofences st' = geofences st -> accepted d st' data = accepted d st data.
Proof.
  intros Hg. unfold accepted.
  destruct (resolve_device_id data); try reflexivity.
  repeat match goal with
         | |- context [match ?r with Ok _ => _ | Raise _ => _ end] =>
           destruct r; try reflexivity
         end.
  rewrite (geofence_evaluable_ext _ _ _ st st' Hg). reflexivity.
Qed.

(** One accepted message: its record is appended to the history. *)
Lemma accepted_appends (now : Z) (d : string) (data : gmap string value)
    (st : state) :
  accepted d st data = true ->
  exists r,
    record_of d data r /\
    let st' := snd (original_handle_telemetry now data st) in
    telemetry st' !! d
    = Some (Deque.append 500 (default [] (telemetry st !! d)) r) /\
    geofences st' = geofences st.
Proof.
  unfold accepted.
  destruct (resolve_device_id data) as [| | | |d'| |] eqn:Hid; try discriminate.
  destruct (float_ (get_or data "lat" _)) as [la|] eqn:Hla; try discriminate.
  destruct (float_ (get_or data "lon" _)) as [lo|] eqn:Hlo; try discriminate.
  destruct (float_ (get_or data "battery" _)) as [b|] eqn:Hb; try discriminate.
  destruct (float_ (get_or data "temperature" _)) as [t|] eqn:Ht;
    try discriminate.
  intros [Hd Heval]%andb_true_iff. apply String.eqb_eq in Hd. subst d'.
  assert (geofence_evaluable d la lo
            (auto_register now d data (get_or data "protocol" (VStr "unknown")) st)
          = true) as Heval0.
  { destruct (auto_register_frame now d data
                (get_or data "protocol" (VStr "unknown")) st) as [reg ->].
    exact Heval. }
  destruct (check_geofence_breach_evaluable now d la lo _ Heval0)
    as (ev & stg & Hcheck).
  destruct (original_handle_telemetry_stores now data st stg d la lo b t ev
              Hid Hla Hlo Hcheck Hb Ht)
    as (o & st' & Hrun & _ & _ & Htel & Hg & _).
  eexists. split; [|rewrite Hrun; cbn [snd]; split; [exact Htel|exact Hg]].
  unfold record_of. cbn. repeat split; assumption.
Qed.

Lemma feed_history (d : string) (msgs : list (Z * gmap string value))
    (st0 st : state) :
  geofences st = geofences st0 ->
  Forall (fun m => accepted d st0 (snd m) = true) msgs ->
  exists rs,
    Forall2 (fun m r => record_of d (snd m) r) msgs rs /\
    default [] (telemetry (feed msgs st) !! d)
    = Deque.appends 500 (default [] (telemetry st !! d)) rs.
Proof.
  intros Hg Hall. revert st Hg.
  induction Hall as [|[now data] msgs Hm _ IH]; intros st Hg.
  - exists []. split; [constructor|reflexivity].
  - cbn [snd] in Hm. rewrite <- (accepted_ext d data st0 st Hg) in Hm.
    destruct (accepted_appends now d data st Hm) as (r & Hr & Htel & Hg1).
    cbv zeta in Htel, Hg1.
    destruct (IH (snd (original_handle_telemetry now data st)))
      as (rs & Hrs & Hfeed); [congruence|].
    exists (r :: rs). split; [constructor; assumption|].
    change (feed ((now, data) :: msgs) st)
      with (feed msgs (snd (original_handle_telemetry now data st))).
    rewrite Hfeed, Htel. reflexivity.
Qed.

(** C2: a device without history sends the messages [msgs], all accepted.
    Each yields one record, and afterwards the history of the device holds
    exactly [min (length msgs) 500] of these records: the newest ones, in
    their order of arrival, the [length msgs - 500] oldest being the ones
    evicted. *)
Theorem history_bounded_fifo (d : string) (msgs : list (Z * gmap string value))
    (st : state) :
  telemetry st !! d = None ->
  Forall (fun m => accepted d st (snd m) = true) msgs ->
  exists rs,
    Forall2 (fun m r => record_of d (snd m) r) msgs rs /\
    let history := default [] (telemetry (feed msgs st) !! d) in
    length history = Nat.min (length msgs) 500 /\
    history = drop (length msgs - 500) rs /\
    take (length msgs - 500) rs ++ history = rs.
Proof.
  intros Hfresh Hall.
  destruct (feed_history d msgs st st eq_refl Hall) as (rs & Hrs & Hfeed).
  exists rs. split; [exact Hrs|]. cbv zeta.
  rewrite Hfeed, Hfresh. cbn [from_option id].
  rewrite (Forall2_length _ _ _ Hrs).
  apply deque_keeps_newest.
Qed.

(** *** The geofence stores stay in step *)

Lemma fences_recorded_initial : fences_recorded initial_state.
Proof. intros d [gf Hgf]. cbn in Hgf. rewrite lookup_empty in Hgf. discriminate. Qed.

Lemma post_geofence_fences (now : Z) (d : string) (data : gmap string value)
    (st : state) :
  fences_recorded st -> fences_recorded (snd (post_geofence now d data st)).
Proof.
  intros Hinv. unfold post_geofence.
  destruct (device_registry st !! d); [|exact Hinv].
  destruct (size data =? 0)%nat; [exact Hinv|].
  destruct (data !! "center_lat"), (data !! "center_lon"), (data !! "radius_km");
    try exact Hinv.
  destruct (bind _ _) as [gf|e]; [|exact Hinv].
  intros d'. cbn. rewrite !lookup_insert_is_Some.
  destruct (decide (d = d')) as [->|Hne]; [auto|].
  intros [?|[_ Hsome]]; [contradiction|]. right. split; [exact Hne|].
  apply Hinv, Hsome.
Qed.

Lemma delete_geofence_fences (d : string) (st : state) :
  fences_recorded st -> fences_recorded (snd (delete_geofence d st)).
Proof.
  intros Hinv. unfold delete_geofence.
  destruct (device_registry st !! d); [|exact Hinv].
  destruct (geofences st !! d); [|exact Hinv].
  intros d'. cbn. rewrite !lookup_delete_is_Some.
  intros [Hne Hsome]. split; [exact Hne|]. apply Hinv, Hsome.
Qed.

Lemma check_geofence_breach_fences (now : Z) (d : string) (lat lon : float)
    (st st' : state) (ev : option geofence_event) :
  check_geofence_breach now d lat lon st = Ok (ev, st') ->
  geofences st' = geofences st /\
  forall d', is_Some (device_geofence_state st !! d') ->
             is_Some (device_geofence_state st' !! d').
Proof.
  unfold check_geofence_breach.
  destruct (geofences st !! d) as [gf|].
  - destruct (calculate_distance _ _ _ _) as [distance|e]; cbn [bind];
      [|discriminate].
    repeat match goal with
           | |- context [if ?b then _ else _] => destruct b
           end; intros Heq; inversion Heq; subst; cbn; (split; [reflexivity|]);
      intros d' Hsome; rewrite ?lookup_insert_is_Some;
      try (destruct (decide (d = d')); [left; assumption|right; auto]);
      exact Hsome.
  - intros Heq; inversion Heq; subst. auto.
Qed.

Lemma original_handle_telemetry_fences (now : Z) (data : gmap string value)
    (st : state) :
  fences_recorded st ->
  fences_recorded (snd (original_handle_telemetry now data st)).
Proof.
  intros Hinv. unfold original_handle_telemetry.
  destruct (resolve_device_id data) as [| | | |d| |]; try exact Hinv.
  destruct (auto_register_frame now d data
              (get_or data "protocol" (VStr "unknown")) st) as [reg ->].
  set (st0 := set_device_registry reg st).
  assert (fences_recorded st0) as Hinv0 by exact Hinv.
  clearbody st0.
  destruct (float_ (get_or data "lat" _)) as [la|]; [|exact Hinv0].
  destruct (float_ (get_or data "lon" _)) as [lo|]; [|exact Hinv0].
  destruct (check_geofence_breach now d la lo st0) as [[ev stg]|] eqn:Hcheck;
    [|exact Hinv0].
  destruct (check_geofence_breach_fences _ _ _ _ _ _ _ Hcheck) as [Hg Hgs].
  assert (fences_recorded stg) as Hinvg.
  { intros d' Hsome. apply Hgs, Hinv0. rewrite <- Hg. exact Hsome. }
  set (sta := match ev with Some _ => _ | None => _ end).
  assert (fences_recorded sta) as Hinva by (subst sta; destruct ev; exact Hinvg).
  clearbody sta.
  destruct (float_ (get_or data "battery" _)) as [b|]; [|exact Hinva].
  destruct (float_ (get_or data "temperature" _)) as [t|]; [|exact Hinva].
  match goal with
  | |- context [periodic_maintenance ?n ?dd ?p ?s] =>
    pose proof (periodic_maintenance_frame n dd p s) as Hframe;
    set (st4 := periodic_maintenance n dd p s) in *
  end.
  cbv zeta in Hframe. destruct Hframe as (_ & _ & _ & _ & Hg4 & Hgs4 & _).
  assert (fences_recorded st4) as Hinv4.
  { intros d'. rewrite Hg4, Hgs4. apply Hinva. }
  destruct industrial_manager; [|exact Hinv4].
  destruct (industrial_handle_telemetry _); exact Hinv4.
Qed.

Lemma enhanced_handle_telemetry_fences (now : Z) (data : gmap string value)
    (st : state) :
  fences_recorded st ->
  fences_recorded (snd (enhanced_handle_telemetry now data st)).
Proof.
  intros Hinv. unfold enhanced_handle_telemetry.
  destruct (resolve_device_id data) as [| | | |d| |]; try exact Hinv.
  destruct (detect_anomalies d data (edge_processor st)) as [is_anomaly ei].
  destruct (compress_telemetry data _) as [compressed_data should_process].
  destruct (negb should_process && _); [exact Hinv|].
  apply original_handle_telemetry_fences. exact Hinv.
Qed.

(** *** The compression pre-filter *)

Lemma compress_telemetry_insignificant (data : gmap string value)
    (prev : record) (b t la lo : float) :
  float_ (get_or data "battery" (VInt 0)) = Ok b ->
  float_ (get_or data "temperature" (VInt 0)) = Ok t ->
  float_ (get_or data "lat" (VInt 0)) = Ok la ->
  float_ (get_or data "lon" (VInt 0)) = Ok lo ->
  significant_change (abs (b - r_battery prev)) (abs (t - r_temperature prev))
    (edge_calculate_distance la lo (r_lat prev) (r_lon prev)) = false ->
  compress_telemetry data (Some prev) = (None, false).
Proof.
  intros Hb Ht Hla Hlo Hsig. unfold compress_telemetry.
  rewrite Hb; cbn [bind]. rewrite Ht; cbn [bind]. rewrite Hla; cbn [bind].
  rewrite Hlo; cbn [bind]. rewrite Hsig. reflexivity.
Qed.

Lemma compress_telemetry_significant (data : gmap string value)
    (prev : record) (b t la lo : float) (vid vts : value) :
  float_ (get_or data "battery" (VInt 0)) = Ok b ->
  float_ (get_or data "temperature" (VInt 0)) = Ok t ->
  float_ (get_or data "lat" (VInt 0)) = Ok la ->
  float_ (get_or data "lon" (VInt 0)) = Ok lo ->
  significant_change (abs (b - r_battery prev)) (abs (t - r_temperature prev))
    (edge_calculate_distance la lo (r_lat prev) (r_lon prev)) = true ->
  data !! "device_id" = Some vid ->
  data !! "timestamp" = Some vts ->
  compress_telemetry data (Some prev)
  = (Some (compressed_dict data vid vts
             (abs (b - r_battery prev)) (abs (t - r_temperature prev))
             (edge_calculate_distance la lo (r_lat prev) (r_lon prev))),
     true).
Proof.
  intros Hb Ht Hla Hlo Hsig Hid Hts. unfold compress_telemetry.
  rewrite Hb; cbn [bind]. rewrite Ht; cbn [bind]. rewrite Hla; cbn [bind].
  rewrite Hlo; cbn [bind]. rewrite Hsig. unfold item. rewrite Hid, Hts.
  reflexivity.
Qed.

(** Without the [device_id] or the [timestamp] key the reduced dictionary
    cannot be built and the full data is kept. *)
Lemma compress_telemetry_fallback (data : gmap string value)
    (prev : record) (b t la lo : float) :
  float_ (get_or data "battery" (VInt 0)) = Ok b ->
  float_ (get_or data "temperature" (VInt 0)) = Ok t ->
  float_ (get_or data "lat" (VInt 0)) = Ok la ->
  float_ (get_or data "lon" (VInt 0)) = Ok lo ->
  significant_change (abs (b - r_battery prev)) (abs (t - r_temperature prev))
    (edge_calculate_distance la lo (r_lat prev) (r_lon prev)) = true ->
  data !! "device_id" = None \/ data !! "timestamp" = None ->
  compress_telemetry data (Some prev) = (Some data, true).
Proof.
  intros Hb Ht Hla Hlo Hsig Hmissing. unfold compress_telemetry.
  rewrite Hb; cbn [bind]. rewrite Ht; cbn [bind]. rewrite Hla; cbn [bind].
  rewrite Hlo; cbn [bind]. rewrite Hsig. unfold item.
  destruct Hmissing as [-> | Hts]; [reflexivity|].
  destruct (data !! "device_id"); cbn [bind]; [rewrite Hts|]; reflexivity.
Qed.

Lemma within_thresholds_insignificant (bc tc pc : float) :
  (bc <=? 2)%float = true -> (tc <=? 1)%float = true ->
  (pc <=? 0.01)%float = true ->
  significant_change bc tc pc = false.
Proof.
  intros Hb Ht Hp. unfold significant_change.
  rewrite (float_leb_not_gt _ _ Hb), (float_leb_not_gt _ _ Ht),
    (float_leb_not_gt _ _ Hp). reflexivity.
Qed.

(** C6 (what the code does): once a device has a stored sample, a new
    sample within the three thresholds of it makes
    [enhanced_handle_telemetry] return at once.  History, snapshot,
    registry, geofence state and alerts are left alone, and so is the
    insight store [edge_insights]: the only store the call can have
    touched is the scorer's, through [detect_anomalies]. *)
Theorem insignificant_sample_skipped (now : Z) (data : gmap string value)
    (st : state) (d : string) (prev : record) (b t la lo : float) :
  resolve_device_id data = VStr d ->
  last (default [] (telemetry st !! d)) = Some prev ->
  float_ (get_or data "battery" (VInt 0)) = Ok b ->
  float_ (get_or data "temperature" (VInt 0)) = Ok t ->
  float_ (get_or data "lat" (VInt 0)) = Ok la ->
  float_ (get_or data "lon" (VInt 0)) = Ok lo ->
  (abs (b - r_battery prev) <=? 2)%float = true ->
  (abs (t - r_temperature prev) <=? 1)%float = true ->
  (edge_calculate_distance la lo (r_lat prev) (r_lon prev) <=? 0.01)%float
  = true ->
  exists st',
    enhanced_handle_telemetry now data st = (Returned, st') /\
    st' = set_edge_processor
            (snd (detect_anomalies d data (edge_processor st))) st /\
    telemetry st' = telemetry st /\ assets st' = assets st /\
    device_registry st' = device_registry st /\
    device_geofence_state st' = device_geofence_state st /\
    alerts st' = alerts st /\
    edge_insights st' = edge_insights st.
Proof.
  intros Hid Hprev Hb Ht Hla Hlo Hdb Hdt Hdp.
  unfold enhanced_handle_telemetry. rewrite Hid.
  destruct (detect_anomalies d data (edge_processor st)) as [is_anomaly ei].
  cbn [telemetry set_edge_processor snd]. rewrite Hprev.
  rewrite (compress_telemetry_insignificant data prev b t la lo Hb Ht Hla Hlo
             (within_thresholds_insignificant _ _ _ Hdb Hdt Hdp)).
  cbn [negb andb]. rewrite bool_decide_eq_true_2 by eauto.
  eexists. split; [reflexivity|]. repeat split.
Qed.

(** The keys of the reduced dictionary. *)
Lemma compressed_dict_lookup (data : gmap string value) (vid vts : value)
    (bc tc pc : float) :
  let c := compressed_dict data vid vts bc tc pc in
  c !! "device_id" = Some vid /\
  c !! "timestamp" = Some vts /\
  c !! "lat" = Some (get data "lat") /\
  c !! "lon" = Some (get data "lon") /\
  c !! "battery" = Some (get data "battery") /\
  c !! "temperature" = Some (get data "temperature") /\
  c !! "compressed" = Some (VBool true) /\
  c !! "id" = None /\ c !! "status" = None /\ c !! "device_type" = None /\
  c !! "sensor_data" = None /\ c !! "signal_strength" = None /\
  c !! "protocol" = None /\ c !! "received_at" = None.
Proof.
  unfold compressed_dict. cbv zeta.
  repeat split;
    repeat first [ rewrite lookup_insert_eq; reflexivity
                 | rewrite lookup_insert_ne by discriminate
                 | apply lookup_empty ].
Qed.

(** C10 (as amended): let a device have a stored sample and a message
    carry a non-empty [device_id] string, a [timestamp], and numeric
    [lat], [lon], [battery] and [temperature].  If the change is judged
    significant, the record stored for the message is built from the
    reduced dictionary: whatever the message said, its status is ["OK"],
    its device type and protocol are ["unknown"], its sensor data is the
    empty map, its signal strength is 0, and it is marked compressed. *)
Theorem significant_sample_loses_fields (now : Z) (data : gmap string value)
    (st : state) (d : string) (prev : record) (vts vb vt vla vlo : value)
    (b t la lo : float) :
  data !! "device_id" = Some (VStr d) -> d <> "" ->
  data !! "timestamp" = Some vts ->
  data !! "battery" = Some vb -> float_ vb = Ok b ->
  data !! "temperature" = Some vt -> float_ vt = Ok t ->
  data !! "lat" = Some vla -> float_ vla = Ok la ->
  data !! "lon" = Some vlo -> float_ vlo = Ok lo ->
  last (default [] (telemetry st !! d)) = Some prev ->
  significant_change (abs (b - r_battery prev)) (abs (t - r_temperature prev))
    (edge_calculate_distance la lo (r_lat prev) (r_lon prev)) = true ->
  geofence_evaluable d la lo st = true ->
  exists o st' r,
    enhanced_handle_telemetry now data st = (o, st') /\
    last (default [] (telemetry st' !! d)) = Some r /\
    assets st' !! d = Some r /\
    r_battery r = b /\ r_temperature r = t /\ r_lat r = la /\ r_lon r = lo /\
    r_status r = VStr "OK" /\
    r_device_type r = VStr "unknown" /\
    r_sensor_data r = VDict [] /\
    r_signal_strength r = VInt 0 /\
    r_protocol r = VStr "unknown" /\
    r_compressed r = VBool true.
Proof.
  intros Hid Hne Hts Hvb Hb Hvt Ht Hvla Hla Hvlo Hlo Hprev Hsig Heval.
  assert (resolve_device_id data = VStr d) as Hres.
  { unfold resolve_device_id, or_, get. rewrite Hid. cbn.
    destruct (String.eqb_spec d ""); [contradiction|reflexivity]. }
  unfold enhanced_handle_telemetry. rewrite Hres.
  destruct (detect_anomalies d data (edge_processor st)) as [is_anomaly ei].
  cbn [telemetry set_edge_processor]. rewrite Hprev.
  rewrite (compress_telemetry_significant data prev b t la lo (VStr d) vts);
    try assumption;
    try (unfold get_or; rewrite ?Hvb, ?Hvt, ?Hvla, ?Hvlo; assumption).
  cbn [negb andb].
  set (c := compressed_dict data (VStr d) vts _ _ _).
  destruct (compressed_dict_lookup data (VStr d) vts
              (abs (b - r_battery prev)) (abs (t - r_temperature prev))
              (edge_calculate_distance la lo (r_lat prev) (r_lon prev)))
    as (Cid & Cts & Cla & Clo & Cb & Ct & Cc & Cno_id & Cst & Cdt & Csd & Css
        & Cpr & Cra).
  fold c in Cid, Cts, Cla, Clo, Cb, Ct, Cc, Cno_id, Cst, Cdt, Csd, Css, Cpr, Cra.
  assert ((0 <? size c)%nat = true) as ->.
  { apply Nat.ltb_lt. destruct (size c) eqn:Hsize; [|lia].
    apply map_size_empty_iff in Hsize. rewrite Hsize in Cid.
    rewrite lookup_empty in Cid. discriminate. }
  cbn [from_option id].
  match goal with
  | |- context [original_handle_telemetry now c ?s] => set (st1 := s)
  end.
  assert (resolve_device_id c = VStr d) as Hresc.
  { unfold resolve_device_id, or_, get. rewrite Cid. cbn.
    destruct (String.eqb_spec d ""); [contradiction|reflexivity]. }
  assert (get_or c "protocol" (VStr "unknown") = VStr "unknown") as Hproto.
  { unfold get_or. rewrite Cpr. reflexivity. }
  assert (geofence_evaluable d la lo
            (auto_register now d c (get_or c "protocol" (VStr "unknown")) st1)
          = true) as Heval1.
  { destruct (auto_register_frame now d c
                (get_or c "protocol" (VStr "unknown")) st1) as [reg ->].
    exact Heval. }
  destruct (check_geofence_breach_evaluable now d la lo _ Heval1)
    as (ev & stg & Hcheck).
  destruct (original_handle_telemetry_stores now c st1 stg d la lo b t ev)
    as (o & st' & Hrun & _ & Hassets & Htel & _); try assumption;
    try (unfold get_or, get; rewrite ?Cla, ?Clo, ?Cb, ?Ct;
         unfold get; rewrite ?Hvb, ?Hvt, ?Hvla, ?Hvlo; assumption).
  eexists o, st', _. split; [exact Hrun|].
  rewrite Htel. cbn [from_option id]. rewrite deque_append_last by lia.
  split; [reflexivity|]. split; [exact Hassets|].
  cbn. unfold get_or. rewrite Cst, Cdt, Csd, Css, Cpr, Cc.
  repeat split.
Qed.

End PipelineFacts.

(** ** Predictive maintenance *)

Section MaintenanceFacts.
Context `{Runtime}.


End MaintenanceFacts.


(** ** Command acknowledgment *)

Section CommandFacts.
Context `{Runtime}.

Lemma ack_scan_absent (now : Z) (cid : string) (cmds : list command) :
  Forall (fun c => command_id c <> cid) cmds -> ack_scan now cid cmds = None.
Proof.
  induction 1 as [|c rest Hc _ IH]; cbn; [reflexivity|].
  destruct (String.eqb_spec (command_id c) cid); [contradiction|].
  rewrite IH. reflexivity.
Qed.

Lemma ack_scan_first (now : Z) (cid : string) (pre post : list command)
    (c : command) :
  Forall (fun c' => command_id c' <> cid) pre -> command_id c = cid ->
  ack_scan now cid (pre ++ c :: post) = Some (pre ++ acknowledge now c :: post).
Proof.
  intros Hpre Hc. induction Hpre as [|c' rest Hc' _ IH]; cbn.
  - rewrite <- Hc, String.eqb_refl. reflexivity.
  - destruct (String.eqb_spec (command_id c') cid); [contradiction|].
    rewrite IH. reflexivity.
Qed.

(** The queue splits at the first command carrying a given id. *)
Lemma first_with_id (cid : string) (cmds : list command) :
  In cid (map command_id cmds) ->
  exists pre c post,
    cmds = pre ++ c :: post /\ command_id c = cid /\
    Forall (fun c' => command_id c' <> cid) pre.
Proof.
  induction cmds as [|c rest IH]; cbn; [contradiction|].
  intros Hin. destruct (String.eqb_spec (command_id c) cid) as [Heq|Hne].
  - exists [], c, rest. auto.
  - destruct Hin as [Heq|Hin]; [contradiction|].
    destruct (IH Hin) as (pre & c0 & post & -> & Hc0 & Hpre).
    exists (c :: pre), c0, post. auto.
Qed.

(** C9 (as amended): acknowledging an id the device's queue holds
    succeeds, and the first command with that id gets status
    ["acknowledged"] and the current time as ack timestamp, the rest of
    the queue being untouched; this also happens when the command was
    acknowledged before, which is not an error but stamps it anew.  An id
    the queue does not hold, or a device without a queue, is answered
    "not found" and no store changes. *)
Theorem ack_command_lifecycle (now : Z) (d cid : string) (st : state) :
  (device_commands st !! d = None ->
   ack_command now d cid st = (NotFound "Device not found", st)) /\
  (forall cmds,
     device_commands st !! d = Some cmds ->
     ~ In cid (map command_id cmds) ->
     ack_command now d cid st = (NotFound "Command not found", st)) /\
  (forall cmds,
     device_commands st !! d = Some cmds ->
     In cid (map command_id cmds) ->
     exists pre c post,
       cmds = pre ++ c :: post /\ command_id c = cid /\
       Forall (fun c' => command_id c' <> cid) pre /\
       ack_command now d cid st
       = (Success,
          set_device_commands
            (<[d := pre ++ acknowledge now c :: post]> (device_commands st))
            st) /\
       command_id (acknowledge now c) = cid /\
       c_status (acknowledge now c) = "acknowledged" /\
       c_ack_timestamp (acknowledge now c) = Some (utcnow_z now)).
Proof.
  repeat split.
  - intros Hnone. unfold ack_command. rewrite Hnone. reflexivity.
  - intros cmds Hq Habsent. unfold ack_command. rewrite Hq.
    rewrite ack_scan_absent; [reflexivity|].
    apply Forall_forall. intros c Hc Heq. apply Habsent.
    rewrite <- Heq. apply in_map, list_elem_of_In, Hc.
  - intros cmds Hq Hpresent.
    destruct (first_with_id cid cmds Hpresent) as (pre & c & post & -> & Hc & Hpre).
    exists pre, c, post. repeat split; try assumption.
    unfold ack_command. rewrite Hq, (ack_scan_first now cid pre post c Hpre Hc).
    reflexivity.
Qed.

End CommandFacts.

(** ** Device identity *)


(** ** Anomaly scorer *)

Section ScorerFacts.
Context `{Runtime}.

Lemma detect_anomalies_untrained (d : string) (x : gmap string value)
    (ei : edge_intelligence) :
  anomaly_models ei !! d = None ->
  detect_anomalies d x ei
  = (false,
     {| anomaly_models := anomaly_models ei;
        pattern_cache :=
          <[d := default [] (pattern_cache ei !! d)]> (pattern_cache ei) |}).
Proof.
  intros Hnone. unfold detect_anomalies. rewrite Hnone.
  destruct (pattern_cache ei !! d) as [cache|] eqn:Hcache; cbn; [|reflexivity].
  rewrite insert_id by assumption. destruct ei; reflexivity.
Qed.

Lemma detect_run_untrained (d : string) (samples : list (gmap string value))
    (ei : edge_intelligence) :
  anomaly_models ei !! d = None ->
  detect_run d samples ei
  = (repeat false (length samples),
     match samples with
     | [] => ei
     | _ => {| anomaly_models := anomaly_models ei;
               pattern_cache :=
                 <[d := default [] (pattern_cache ei !! d)]> (pattern_cache ei) |}
     end).
Proof.
  revert ei. induction samples as [|x rest IH]; intros ei Hnone; [reflexivity|].
  cbn [detect_run]. rewrite detect_anomalies_untrained by assumption.
  rewrite IH by exact Hnone. cbn [length repeat].
  destruct rest; cbn; [reflexivity|].
  rewrite lookup_insert_eq, insert_insert_eq. reflexivity.
Qed.

(** The telemetry handler leaves the scorer alone. *)
Lemma original_handle_telemetry_edge (now : Z) (data : gmap string value)
    (st : state) :
  edge_processor (snd (original_handle_telemetry now data st))
  = edge_processor st.
Proof.
  unfold original_handle_telemetry.
  destruct (resolve_device_id data) as [| | | |d| |]; try reflexivity.
  destruct (auto_register_frame now d data
              (get_or data "protocol" (VStr "unknown")) st) as [reg ->].
  destruct (float_ (get_or data "lat" _)) as [la|]; [|reflexivity].
  destruct (float_ (get_or data "lon" _)) as [lo|]; [|reflexivity].
  destruct (check_geofence_breach now d la lo _) as [[ev stg]|] eqn:Hcheck;
    [|reflexivity].
  rewrite (check_geofence_breach_frame _ _ _ _ _ _ _ Hcheck).
  set (sta := match ev with Some _ => _ | None => _ end).
  assert (edge_processor sta = edge_processor st) as Hsta
    by (subst sta; destruct ev; reflexivity).
  clearbody sta.
  destruct (float_ (get_or data "battery" _)) as [b|]; [|exact Hsta].
  destruct (float_ (get_or data "temperature" _)) as [t|]; [|exact Hsta].
  match goal with
  | |- context [periodic_maintenance ?n ?dd ?p ?s] =>
    pose proof (periodic_maintenance_frame n dd p s) as Hframe;
    set (st4 := periodic_maintenance n dd p s) in *
  end.
  cbv zeta in Hframe. destruct Hframe as (_ & _ & _ & _ & _ & _ & _ & Hep).
  assert (edge_processor st4 = edge_processor st) as Hst4
    by (rewrite Hep; exact Hsta).
  destruct industrial_manager; [|exact Hst4].
  destruct (industrial_handle_telemetry _); exact Hst4.
Qed.

(** No run of the pipeline ever trains a model: a scorer without models
    stays without models. *)
Lemma enhanced_handle_telemetry_untrained (now : Z) (data : gmap string value)
    (st : state) :
  anomaly_models (edge_processor st) = ∅ ->
  anomaly_models (edge_processor (snd (enhanced_handle_telemetry now data st)))
  = ∅.
Proof.
  intros Hnone. unfold enhanced_handle_telemetry.
  destruct (resolve_device_id data) as [| | | |d| |]; try exact Hnone.
  rewrite detect_anomalies_untrained by (rewrite Hnone; apply lookup_empty).
  destruct (compress_telemetry data _) as [compressed_data should_process].
  destruct (negb should_process && _); [exact Hnone|].
  rewrite original_handle_telemetry_edge. exact Hnone.
Qed.

(** C5 (what the code does): a device the scorer has never seen has no
    entry in [anomaly_models], and nothing ever adds one, so every
    evaluation answers "not anomalous" through the first return, and the
    feature cache of the device stays the empty list however many samples
    are evaluated. *)
Theorem scorer_cache_stays_empty (d : string) (x : gmap string value)
    (samples : list (gmap string value)) :
  detect_run d (x :: samples)
    {| anomaly_models := ∅; pattern_cache := ∅ |}
  = (repeat false (S (length samples)),
     {| anomaly_models := ∅; pattern_cache := {[d := []]} |}).
Proof.
  rewrite detect_run_untrained by apply lookup_empty. reflexivity.
Qed.

End ScorerFacts.

(** ** The footprint of a telemetry message *)

Section Footprint.
Context `{Runtime}.

Lemma set_device_registry_id (st : state) :
  set_device_registry (device_registry st) st = st.
Proof. destruct st; reflexivity. Qed.

Lemma auto_register_insert (now : Z) (d : string) (data : gmap string value)
    (protocol : value) (st : state) :
  exists info,
    auto_register now d data protocol st
    = set_device_registry
        (<[d := default info (device_registry st !! d)]> (device_registry st))
        st.
Proof.
  unfold auto_register. eexists.
  destruct (device_registry st !! d) as [known|] eqn:Hd; cbn [from_option id].
  - rewrite insert_id by exact Hd. symmetry. apply set_device_registry_id.
  - reflexivity.
Qed.

Lemma check_geofence_breach_rewrites (now : Z) (d : string) (lat lon : float)
    (st st' : state) (ev : option geofence_event) :
  check_geofence_breach now d lat lon st = Ok (ev, st') ->
  device_geofence_state st' = device_geofence_state st \/
  is_Some (geofences st !! d) /\
  exists c, (c = "inside" \/ c = "outside") /\
            device_geofence_state st' = <[d := c]> (device_geofence_state st).
Proof.
  unfold check_geofence_breach.
  destruct (geofences st !! d) as [gf|].
  - destruct (calculate_distance _ _ _ _) as [distance|e]; cbn [bind];
      [|discriminate].
    destruct (negb _).
    + intros Hrun. right. split; [eauto|].
      exists (if (distance <=? radius_km gf)%float then "inside" else "outside").
      split; [destruct (distance <=? radius_km gf)%float; auto|].
      repeat match type of Hrun with
             | context [if ?b && ?c then _ else _] => destruct (b && c)
             end; inversion Hrun; reflexivity.
    + intros Hrun; inversion Hrun; subst. left. reflexivity.
  - intros Hrun; inversion Hrun; subst. left. reflexivity.
Qed.

Lemma periodic_maintenance_alerts (now : Z) (d : string) (protocol : value)
    (st : state) :
  exists new,
    (length new <= 1)%nat /\
    alerts (periodic_maintenance now d protocol st)
    = Deque.appends 1000 (alerts st) new.
Proof.
  unfold periodic_maintenance.
  destruct (_ =? 0); [|exists []; split; [cbn; lia|reflexivity]].
  destruct (analyze_health_trends _ _ _ _) as [[p|] pm];
    [|exists []; split; [cbn; lia|reflexivity]].
  cbn. destruct (p_health_score p <? 0.4)%float.
  - eexists [_]. split; [cbn; lia|reflexivity].
  - exists []. split; [cbn; lia|reflexivity].
Qed.

Lemma original_handle_telemetry_footprint (now : Z) (data : gmap string value)
    (st : state) :
  match resolve_device_id data with
  | VStr d => telemetry_effect d st (snd (original_handle_telemetry now data st))
  | _ => snd (original_handle_telemetry now data st) = st
  end.
Proof.
  unfold original_handle_telemetry.
  destruct (resolve_device_id data) as [| | | |d| |]; try reflexivity.
  destruct (auto_register_insert now d data
              (get_or data "protocol" (VStr "unknown")) st) as [info ->].
  set (reg := <[d := default info (device_registry st !! d)]> (device_registry st)).
  assert (telemetry_effect d st (set_device_registry reg st)) as Hearly.
  { unfold telemetry_effect. cbn. repeat split; eauto.
    exists []. split; [cbn; lia|reflexivity]. }
  destruct (float_ (get_or data "lat" _)) as [la|]; [|exact Hearly].
  destruct (float_ (get_or data "lon" _)) as [lo|]; [|exact Hearly].
  destruct (check_geofence_breach now d la lo _) as [[ev stg]|] eqn:Hcheck;
    [|exact Hearly].
  pose proof (check_geofence_breach_rewrites _ _ _ _ _ _ _ Hcheck) as Hgs.
  rewrite (check_geofence_breach_frame _ _ _ _ _ _ _ Hcheck).
  cbn [geofences device_geofence_state set_device_registry] in Hgs.
  set (gs := device_geofence_state stg) in *. clearbody gs. clear Hcheck stg.
  set (sta := match ev with Some _ => _ | None => _ end).
  assert (exists new,
            (length new <= 1)%nat /\
            sta = set_alerts (Deque.appends 1000 (alerts st) new)
                    (set_device_geofence_state gs (set_device_registry reg st)))
    as (new1 & Hnew1 & Hsta).
  { subst sta. destruct ev.
    - eexists [_]. split; [cbn; lia|reflexivity].
    - exists []. split; [cbn; lia|]. destruct st; reflexivity. }
  clearbody sta. subst sta.
  assert (telemetry_effect d st
            (set_alerts (Deque.appends 1000 (alerts st) new1)
               (set_device_geofence_state gs (set_device_registry reg st))))
    as Hmid.
  { unfold telemetry_effect. cbn. repeat split; eauto. }
  destruct (float_ (get_or data "battery" _)) as [b|]; [|exact Hmid].
  destruct (float_ (get_or data "temperature" _)) as [t|]; [|exact Hmid].
  match goal with
  | |- context [periodic_maintenance ?n ?dd ?p ?s] =>
    pose proof (periodic_maintenance_frame n dd p s) as Hframe;
    destruct (periodic_maintenance_alerts n dd p s) as (new2 & Hnew2 & Halerts);
    set (st4 := periodic_maintenance n dd p s) in *
  end.
  cbv zeta in Hframe.
  destruct Hframe as (Ha & Htel & Hreg & Hcmd & Hg & Hgs4 & Hi & Hep).
  assert (telemetry_effect d st st4) as Hlate.
  { unfold telemetry_effect.
    rewrite Ha, Htel, Hreg, Hcmd, Hg, Hgs4, Hi, Hep, Halerts. cbn.
    repeat split; eauto.
    - right. eexists. split; [|split; reflexivity]. reflexivity.
    - exists (new1 ++ new2). split; [rewrite length_app; lia|].
      unfold Deque.appends. rewrite fold_left_app. reflexivity. }
  destruct industrial_manager; [|exact Hlate].
  destruct (industrial_handle_telemetry _); exact Hlate.
Qed.

End Footprint.

(** ** Requests as sequences of elementary changes *)

Section Steps.
Context `{Runtime}.

Lemma original_handle_telemetry_steps (now : Z) (data : gmap string value)
    (st : state) :
  rtc store_step st (snd (original_handle_telemetry now data st)).
Proof.
  pose proof (original_handle_telemetry_footprint now data st) as Hfoot.
  destruct (resolve_device_id data);
    try (rewrite Hfoot; apply rtc_refl).
  eapply rtc_once, step_telemetry, Hfoot.
Qed.

Lemma enhanced_handle_telemetry_steps (now : Z) (data : gmap string value)
    (st : state) :
  rtc store_step st (snd (enhanced_handle_telemetry now data st)).
Proof.
  unfold enhanced_handle_telemetry.
  destruct (resolve_device_id data) as [| | | |d| |]; try apply rtc_refl.
  destruct (detect_anomalies d data (edge_processor st))
    as [is_anomaly ei] eqn:Hdetect.
  destruct (compress_telemetry data _) as [compressed_data should_process].
  destruct (negb should_process && _); cbn [snd].
  - apply rtc_once. replace ei with (snd (detect_anomalies d data (edge_processor st)))
      by (rewrite Hdetect; reflexivity).
    apply step_scored.
  - eapply rtc_l; [|apply original_handle_telemetry_steps].
    replace ei with (snd (detect_anomalies d data (edge_processor st)))
      by (rewrite Hdetect; reflexivity).
    cbn [edge_insights set_edge_processor].
    apply step_analysed. cbn. rewrite Hdetect. reflexivity.
Qed.

Lemma ack_scan_splits (now : Z) (cid : string) (cmds cmds' : list command) :
  ack_scan now cid cmds = Some cmds' ->
  exists pre c post,
    cmds = pre ++ c :: post /\ command_id c = cid /\
    Forall (fun c' => command_id c' <> cid) pre /\
    cmds' = pre ++ acknowledge now c :: post.
Proof.
  revert cmds'. induction cmds as [|c rest IH]; intros cmds'; cbn;
    [discriminate|].
  destruct (String.eqb_spec (command_id c) cid) as [Heq|Hne].
  - intros [= <-]. exists [], c, rest. auto.
  - destruct (ack_scan now cid rest) as [rest'|]; [|discriminate].
    intros [= <-].
    destruct (IH rest' eq_refl) as (pre & c0 & post & -> & Hc0 & Hpre & ->).
    exists (c :: pre), c0, post. auto.
Qed.

(** The maintenance route changes nothing, or the predictions of a
    registered device and the predictor. *)
Lemma get_device_maintenance_cases (now : Z) (d : string) (st : state) :
  snd (get_device_maintenance now d st) = st \/
  is_Some (device_registry st !! d) /\
  telemetry_effect d st (snd (get_device_maintenance now d st)).
Proof.
  unfold get_device_maintenance.
  destruct (device_registry st !! d) as [info|] eqn:Hd; [|left; reflexivity].
  destruct (maintenance_predictions st !! d); [left; reflexivity|].
  destruct (default [] (telemetry st !! d)) as [|r history];
    [left; reflexivity|].
  right. split; [eauto|].
  destruct (analyze_health_trends _ _ _ _) as [[p|] pm]; cbn [snd];
    (repeat split; try reflexivity;
     [exists info; cbn; rewrite Hd; cbn; symmetry; apply insert_id, Hd
     |left; reflexivity
     |left; split; reflexivity
     |exists []; split; [cbn; lia|reflexivity]]).
Qed.

Lemma serve_steps (r : request) (sys : state * management) :
  rtc store_step (fst sys) (fst (serve r sys)).
Proof.
  destruct sys as [st m].
  destruct r as [now data|now data|now data|now d data|now d data uuid publish
                 |now d cid|now d data|d|now d]; cbn [serve fst snd].
  - apply enhanced_handle_telemetry_steps.
  - unfold http_telemetry, handle_http_telemetry.
    pose proof (enhanced_handle_telemetry_steps now (tag now "http" data) st).
    destruct (enhanced_handle_telemetry _ _ _) as [[] ?]; assumption.
  - unfold coap_telemetry.
    pose proof (enhanced_handle_telemetry_steps now (tag now "coap" data) st).
    destruct (enhanced_handle_telemetry _ _ _) as [[] ?]; assumption.
  - unfold register_device.
    destruct (industrial_manager && _); cbn; apply rtc_once, step_registered.
  - unfold post_command.
    destruct (device_registry st !! d) as [info|] eqn:Hd; [|apply rtc_refl].
    destruct (data !! "command"); [|apply rtc_refl].
    cbn. apply rtc_once, step_queued; [eauto| |reflexivity].
    cbn. repeat match goal with
                | |- context [if ?b then _ else _] => destruct b
                | |- context [match ?p with Ok _ => _ | Raise _ => _ end] =>
                  destruct p
                end; auto.
  - unfold ack_command.
    destruct (device_commands st !! d) as [cmds|] eqn:Hq; [|apply rtc_refl].
    destruct (ack_scan now cid cmds) as [cmds'|] eqn:Hscan; [|apply rtc_refl].
    destruct (ack_scan_splits _ _ _ _ Hscan) as (pre & c & post & -> & _ & _ & ->).
    cbn. apply rtc_once, step_acked, Hq.
  - unfold post_geofence.
    destruct (device_registry st !! d) as [info|] eqn:Hd; [|apply rtc_refl].
    destruct (size data =? 0)%nat; [apply rtc_refl|].
    destruct (data !! "center_lat"), (data !! "center_lon"),
      (data !! "radius_km"); try apply rtc_refl.
    destruct (bind _ _) as [gf|e]; [|apply rtc_refl].
    cbn. apply rtc_once. apply (step_fenced d gf st). eauto.
  - unfold delete_geofence.
    destruct (device_registry st !! d); [|apply rtc_refl].
    destruct (geofences st !! d); [|apply rtc_refl].
    cbn. apply rtc_once, step_unfenced.
  - destruct (get_device_maintenance_cases now d st) as [->|(Hd & Hst)];
      [apply rtc_refl|].
    apply rtc_once, (step_telemetry d). exact Hst.
Qed.

(** An invariant of the elementary changes holds in every reachable state. *)
Lemma reachable_invariant (P : state -> Prop) :
  P initial_state ->
  (forall st st', store_step st st' -> P st -> P st') ->
  forall sys, reachable sys -> P (fst sys).
Proof.
  intros Hinit Hstep sys [rs ->].
  assert (forall start, P (fst start) -> P (fst (run rs start))) as Hrun.
  { induction rs as [|r rs IH]; intros start Hstart; [exact Hstart|].
    cbn [run fold_left]. apply IH.
    pose proof (serve_steps r start) as Hsteps.
    induction Hsteps as [|st1 st2 st3 H12 _ IH']; [exact Hstart|].
    apply IH'. eapply Hstep; eassumption. }
  apply Hrun, Hinit.
Qed.

End Steps.

(** ** Invariants of the backend *)

Section Invariants.
Context `{Runtime}.

#[local] Arguments Deque.append : simpl never.
#[local] Arguments Deque.appends : simpl never.

Lemma run_reachable (rs : list request) :
  reachable (run rs (initial_state, initial_management)).
Proof. exists rs. reflexivity. Qed.

Lemma deque_append_length {A : Type} (n : nat) (q : list A) (x : A) :
  (0 < n)%nat -> (length q <= n)%nat ->
  (1 <= length (Deque.append n q x) <= n)%nat.
Proof.
  intros Hn Hq. unfold Deque.append. destruct n as [|m]; [lia|].
  destruct (Nat.leb_spec (S m) (length q)); rewrite length_app; cbn [length].
  - destruct q; cbn in *; lia.
  - lia.
Qed.

Lemma deque_appends_length {A : Type} (n : nat) (q xs : list A) :
  (0 < n)%nat -> (length q <= n)%nat ->
  (length (Deque.appends n q xs) <= n)%nat.
Proof.
  intros Hn. revert q. induction xs as [|x xs IH]; intros q Hq; [exact Hq|].
  cbn. apply IH. apply deque_append_length; assumption.
Qed.

Lemma deque_append_elem {A : Type} (n : nat) (q : list A) (x y : A) :
  y ∈ Deque.append n q x -> y ∈ q \/ y = x.
Proof.
  unfold Deque.append. destruct n as [|m]; [intros Hin; inversion Hin|].
  destruct (S m <=? length q)%nat; rewrite elem_of_app, list_elem_of_singleton;
    intros [Hin|Heq]; auto.
  left. destruct q as [|z q]; [exact Hin|]. right. exact Hin.
Qed.

(** X1: in every state the backend can reach, the fences and the recorded
    containments have the same devices, and a recorded containment is
    ["inside"] or ["outside"]. *)
Theorem fences_and_containments_agree (rs : list request) :
  let st := fst (run rs (initial_state, initial_management)) in
  (forall d, is_Some (geofences st !! d)
             <-> is_Some (device_geofence_state st !! d)) /\
  (forall d c, device_geofence_state st !! d = Some c ->
               c = "inside" \/ c = "outside").
Proof.
  cbv zeta.
  apply (reachable_invariant
           (fun st =>
              (forall d, is_Some (geofences st !! d)
                         <-> is_Some (device_geofence_state st !! d)) /\
              (forall d c, device_geofence_state st !! d = Some c ->
                           c = "inside" \/ c = "outside")));
    [| |apply run_reachable].
  - split.
    + intros d. cbn. rewrite !lookup_empty. split; intros [? ?]; discriminate.
    + intros d c. cbn. rewrite lookup_empty. discriminate.
  - intros st st' Hstep [Hkeys Hvals].
    destruct Hstep as [d data st|d data i st Hi|d st st' Heffect|d info st
                       |d c st Hd Hc Hack|now d pre post c st Hq|d gf st Hd
                       |d st]; cbn; try (split; assumption).
    + destruct Heffect as (Hg & _ & _ & _ & _ & Hgs & _).
      rewrite Hg. destruct Hgs as [->|(Hfenced & c & Hc & ->)];
        [split; assumption|].
      split.
      * intros d'. rewrite lookup_insert_is_Some.
        destruct (decide (d = d')) as [<-|Hne].
        -- split; [auto|intros _; exact Hfenced].
        -- rewrite Hkeys. split; [auto|intros [?|[_ ?]]; [contradiction|auto]].
      * intros d' c'. rewrite lookup_insert. case_decide.
        -- intros [= <-]. exact Hc.
        -- apply Hvals.
    + split.
      * intros d'. rewrite !lookup_insert_is_Some.
        destruct (decide (d = d')) as [<-|Hne]; [split; auto|].
        rewrite Hkeys. split; intros [?|[_ ?]]; try contradiction; auto.
      * intros d' c'. rewrite lookup_insert. case_decide.
        -- intros [= <-]. auto.
        -- apply Hvals.
    + split.
      * intros d'. rewrite !lookup_delete_is_Some, Hkeys. reflexivity.
      * intros d' c'. rewrite lookup_delete. case_decide; [discriminate|].
        apply Hvals.
Qed.

(** X2: in every reachable state the alert log holds at most 1000 alerts
    and every stored history holds between 1 and 500 records. *)
Theorem stores_stay_bounded (rs : list request) :
  let st := fst (run rs (initial_state, initial_management)) in
  (length (alerts st) <= 1000)%nat /\
  (forall d h, telemetry st !! d = Some h -> (1 <= length h <= 500)%nat).
Proof.
  cbv zeta.
  apply (reachable_invariant
           (fun st =>
              (length (alerts st) <= 1000)%nat /\
              (forall d h, telemetry st !! d = Some h ->
                           (1 <= length h <= 500)%nat)));
    [| |apply run_reachable].
  - split; [cbn; lia|]. intros d h. cbn. rewrite lookup_empty. discriminate.
  - intros st st' Hstep [Halerts Hhist].
    destruct Hstep as [d data st|d data i st Hi|d st st' Heffect|d info st
                       |d c st Hd Hc Hack|now d pre post c st Hq|d gf st Hd
                       |d st]; cbn; try (split; assumption).
    destruct Heffect as (_ & _ & _ & _ & _ & _ & Htel & new & _ & ->).
    split; [apply deque_appends_length; [lia|exact Halerts]|].
    destruct Htel as [[-> _]|(r & _ & -> & _)]; [exact Hhist|].
    intros d' h. rewrite lookup_insert. case_decide.
    + intros <-%(inj Some). apply deque_append_length; [lia|].
      destruct (telemetry st !! d) as [old|] eqn:Hold; cbn; [|lia].
      apply (Hhist d old Hold).
    + apply Hhist.
Qed.

(** X3: in every reachable state the current snapshot of a device is the
    newest record of its history, a device without history has no
    snapshot, and every record of the history of a device carries the id
    of that device. *)
Theorem snapshot_is_newest_record (rs : list request) :
  let st := fst (run rs (initial_state, initial_management)) in
  (forall d, assets st !! d = telemetry st !! d ≫= last) /\
  (forall d h r, telemetry st !! d = Some h -> r ∈ h -> r_device_id r = d).
Proof.
  cbv zeta.
  apply (reachable_invariant
           (fun st =>
              (forall d, assets st !! d = telemetry st !! d ≫= last) /\
              (forall d h r, telemetry st !! d = Some h -> r ∈ h ->
                             r_device_id r = d)));
    [| |apply run_reachable].
  - split.
    + intros d. cbn. rewrite !lookup_empty. reflexivity.
    + intros d h r. cbn. rewrite lookup_empty. discriminate.
  - intros st st' Hstep [Hsnap Hids].
    destruct Hstep as [d data st|d data i st Hi|d st st' Heffect|d info st
                       |d c st Hd Hc Hack|now d pre post c st Hq|d gf st Hd
                       |d st]; cbn; try (split; assumption).
    destruct Heffect as (_ & _ & _ & _ & _ & _ & Htel & _).
    destruct Htel as [[-> ->]|(r & Hr & -> & ->)]; [split; assumption|].
    split.
    + intros d'. rewrite !lookup_insert. case_decide; [|apply Hsnap].
      cbn. rewrite deque_append_last by lia. reflexivity.
    + intros d' h r'. rewrite lookup_insert. case_decide; [|apply Hids].
      intros <-%(inj Some) [Hold| ->]%deque_append_elem; [|congruence].
      destruct (telemetry st !! d) as [old|] eqn:Hq; cbn in Hold;
        [|inversion Hold].
      subst d'. apply (Hids d old r' Hq Hold).
Qed.

(** X4: in every reachable state a device that has a history, a snapshot,
    a command queue or a fence is registered. *)
Theorem known_devices_are_registered (rs : list request) :
  let st := fst (run rs (initial_state, initial_management)) in
  forall d,
    is_Some (telemetry st !! d) \/ is_Some (assets st !! d) \/
    is_Some (device_commands st !! d) \/ is_Some (geofences st !! d) ->
    is_Some (device_registry st !! d).
Proof.
  cbv zeta.
  apply (reachable_invariant
           (fun st =>
              forall d,
                is_Some (telemetry st !! d) \/ is_Some (assets st !! d) \/
                is_Some (device_commands st !! d) \/
                is_Some (geofences st !! d) ->
                is_Some (device_registry st !! d)));
    [| |apply run_reachable].
  - intros d. cbn. rewrite !lookup_empty.
    intros [[? ?]|[[? ?]|[[? ?]|[? ?]]]]; discriminate.
  - intros st st' Hstep Hinv.
    destruct Hstep as [d data st|d data i st Hi|d st st' Heffect|d info st
                       |d c st Hd Hc Hack|now d pre post c st Hq|d gf st Hd
                       |d st]; cbn; try exact Hinv.
    + destruct Heffect as (Hg & Hc & _ & _ & [info ->] & _ & Htel & _).
      intros d' Hd'. rewrite Hg, Hc in Hd'. rewrite lookup_insert_is_Some.
      destruct (decide (d = d')) as [<-|Hne]; [auto|]. right. split; [exact Hne|].
      apply Hinv.
      destruct Htel as [[Ht Ha]|(r & _ & Ht & Ha)]; rewrite Ht, Ha in Hd';
        [assumption|].
      rewrite !lookup_insert_ne in Hd' by exact Hne. assumption.
    + intros d'. rewrite lookup_insert_is_Some.
      destruct (decide (d = d')) as [<-|Hne]; [auto|]. right. split; [exact Hne|].
      apply Hinv. assumption.
    + intros d'. destruct (decide (d = d')) as [<-|Hne]; [intros _; exact Hd|].
      rewrite lookup_insert_ne by exact Hne. apply Hinv.
    + intros d'. destruct (decide (d = d')) as [<-|Hne].
      * intros _. apply Hinv. right. right. left. eauto.
      * rewrite lookup_insert_ne by exact Hne. apply Hinv.
    + intros d'. destruct (decide (d = d')) as [<-|Hne]; [intros _; exact Hd|].
      rewrite lookup_insert_ne by exact Hne. apply Hinv.
    + intros d'. destruct (decide (d = d')) as [<-|Hne].
      * rewrite lookup_delete_eq. intros [?|[?|[?|[? ?]]]]; try discriminate;
          apply Hinv; auto.
      * rewrite lookup_delete_ne by exact Hne. apply Hinv.
Qed.

(** X5: in every reachable state the scorer holds no model and no stored
    insight reports an anomaly: the pipeline never flags a sample. *)
Theorem no_anomaly_is_ever_reported (rs : list request) :
  let st := fst (run rs (initial_state, initial_management)) in
  anomaly_models (edge_processor st) = ∅ /\
  (forall d i, edge_insights st !! d = Some i -> anomaly_detected i = false).
Proof.
  cbv zeta.
  apply (reachable_invariant
           (fun st =>
              anomaly_models (edge_processor st) = ∅ /\
              (forall d i, edge_insights st !! d = Some i ->
                           anomaly_detected i = false)));
    [| |apply run_reachable].
  - split; [reflexivity|]. intros d i. cbn. rewrite lookup_empty. discriminate.
  - intros st st' Hstep [Hmodels Hins].
    assert (forall d data,
              detect_anomalies d data (edge_processor st)
              = (false,
                 {| anomaly_models := anomaly_models (edge_processor st);
                    pattern_cache :=
                      <[d := default [] (pattern_cache (edge_processor st) !! d)]>
                        (pattern_cache (edge_processor st)) |})) as Hdetect.
    { intros d data. apply detect_anomalies_untrained.
      rewrite Hmodels. apply lookup_empty. }
    destruct Hstep as [d data st|d data i st Hi|d st st' Heffect|d info st
                       |d c st Hd Hc Hack|now d pre post c st Hq|d gf st Hd
                       |d st]; cbn; try (split; assumption).
    + rewrite Hdetect. cbn. split; assumption.
    + rewrite Hdetect in *. cbn in *. split; [assumption|].
      intros d' i'. rewrite lookup_insert. case_decide.
      * intros [= <-]. exact Hi.
      * apply Hins.
    + destruct Heffect as (_ & _ & -> & -> & _). split; assumption.
Qed.

(** X6: in every reachable state a queued command is either pending or
    sent and carries no ack timestamp, or acknowledged and carries one. *)
Theorem ack_timestamp_marks_acknowledged (rs : list request) :
  let st := fst (run rs (initial_state, initial_management)) in
  forall d q c,
    device_commands st !! d = Some q -> c ∈ q ->
    (c_status c = "pending" \/ c_status c = "sent") /\
    c_ack_timestamp c = None \/
    c_status c = "acknowledged" /\ is_Some (c_ack_timestamp c).
Proof.
  cbv zeta.
  apply (reachable_invariant
           (fun st =>
              forall d q c,
                device_commands st !! d = Some q -> c ∈ q ->
                (c_status c = "pending" \/ c_status c = "sent") /\
                c_ack_timestamp c = None \/
                c_status c = "acknowledged" /\ is_Some (c_ack_timestamp c)));
    [| |apply run_reachable].
  - intros d q c. cbn. rewrite lookup_empty. discriminate.
  - intros st st' Hstep Hinv.
    destruct Hstep as [d data st|d data i st Hi|d st st' Heffect|d info st
                       |d c st Hd Hc Hack|now d pre post c st Hq|d gf st Hd
                       |d st]; cbn; try exact Hinv.
    + destruct Heffect as (_ & -> & _). exact Hinv.
    + intros d' q c'. rewrite lookup_insert. case_decide; [|apply Hinv].
      intros [= <-] [Hold| ->%list_elem_of_singleton]%elem_of_app; [|auto].
      destruct (device_commands st !! d) as [old|] eqn:Hq; cbn in Hold;
        [|inversion Hold].
      subst d'. apply (Hinv d old c' Hq Hold).
    + intros d' q c'. rewrite lookup_insert. case_decide; [|apply Hinv].
      intros [= <-]. subst d'.
      rewrite elem_of_app, elem_of_cons.
      intros [Hpre|[->|Hpost]].
      * apply (Hinv d _ c' Hq). rewrite elem_of_app. auto.
      * right. cbn. eauto.
      * apply (Hinv d _ c' Hq). rewrite elem_of_app, elem_of_cons. auto.
Qed.

End Invariants.

(** ** Single requests *)

Section Requests.
Context `{Runtime}.

#[local] Arguments Deque.append : simpl never.
#[local] Arguments Deque.appends : simpl never.

(** X7: once a position has been evaluated, evaluating the same position
    again, at any later time, returns no event and changes nothing: a
    transition is reported once. *)
Theorem geofence_check_settles (now now' : Z) (d : string) (lat lon : float)
    (st st' : state) (ev : option geofence_event) :
  check_geofence_breach now d lat lon st = Ok (ev, st') ->
  check_geofence_breach now' d lat lon st' = Ok (None, st').
Proof.
  intros Hrun.
  pose proof (check_geofence_breach_frame _ _ _ _ _ _ _ Hrun) as Hframe.
  revert Hrun. unfold check_geofence_breach.
  rewrite Hframe at 2 3. cbn [geofences set_device_geofence_state].
  destruct (geofences st !! d) as [gf|];
    [|intros Hrun; inversion Hrun; subst; rewrite <- Hframe; reflexivity].
  destruct (calculate_distance _ _ _ _) as [distance|e]; cbn [bind];
    [|discriminate].
  set (computed := if (distance <=? radius_km gf)%float
                   then "inside" else "outside").
  destruct (String.eqb_spec
              (default "inside" (device_geofence_state st !! d)) computed)
    as [Heq|Hne]; cbn [negb].
  - intros Hrun; inversion Hrun; subst st'.
    rewrite Heq, String.eqb_refl. cbn [negb]. rewrite <- Hframe. reflexivity.
  - intros Hrun.
    assert (device_geofence_state st' !! d = Some computed) as ->.
    { repeat match type of Hrun with
             | context [if ?b && ?c then _ else _] => destruct (b && c)
             end; inversion Hrun; subst st'; cbn; apply lookup_insert_eq. }
    cbn [from_option id]. rewrite String.eqb_refl. cbn [negb].
    rewrite <- Hframe. reflexivity.
Qed.

(** X8: a telemetry message only touches the entries of its own device:
    whatever the outcome, the history, snapshot, containment and
    registration of every other device, all fences and all command queues
    are as before; the device itself is registered afterwards, and a
    registration that existed is kept as it was. *)
Theorem telemetry_touches_own_device_only (now : Z)
    (data : gmap string value) (st : state) (d : string) :
  resolve_device_id data = VStr d ->
  let st' := snd (original_handle_telemetry now data st) in
  (forall d', d' <> d ->
     telemetry st' !! d' = telemetry st !! d' /\
     assets st' !! d' = assets st !! d' /\
     device_geofence_state st' !! d' = device_geofence_state st !! d' /\
     device_registry st' !! d' = device_registry st !! d') /\
  geofences st' = geofences st /\
  device_commands st' = device_commands st /\
  is_Some (device_registry st' !! d) /\
  (forall info, device_registry st !! d = Some info ->
                device_registry st' !! d = Some info).
Proof.
  intros Hid. cbv zeta.
  pose proof (original_handle_telemetry_footprint now data st) as Hfoot.
  rewrite Hid in Hfoot.
  destruct Hfoot as (Hg & Hc & _ & _ & [info0 Hreg] & Hgs & Htel & _).
  repeat split; try assumption.
  - destruct Htel as [[-> _]|(r & _ & -> & _)]; [reflexivity|].
    apply lookup_insert_ne. congruence.
  - destruct Htel as [[_ ->]|(r & _ & _ & ->)]; [reflexivity|].
    apply lookup_insert_ne. congruence.
  - destruct Hgs as [->|(_ & c & _ & ->)]; [reflexivity|].
    apply lookup_insert_ne. congruence.
  - rewrite Hreg. apply lookup_insert_ne. congruence.
  - rewrite Hreg, lookup_insert_eq. eauto.
  - intros info Hinfo. rewrite Hreg, lookup_insert_eq, Hinfo. reflexivity.
Qed.

(** X9: when the position of a message crosses the fence but its battery
    field does not convert, the handler raises after the geofence has been
    evaluated: the containment is rewritten and the alert appended, yet no
    record is stored, neither in the history nor as snapshot. *)
Theorem transition_outlives_rejected_sample (now : Z)
    (data : gmap string value) (st stg : state) (d : string)
    (la lo : float) (ev : geofence_event) (e : exn) :
  resolve_device_id data = VStr d ->
  float_ (get_or data "lat" (VFloat 0)) = Ok la ->
  float_ (get_or data "lon" (VFloat 0)) = Ok lo ->
  check_geofence_breach now d la lo
    (auto_register now d data (get_or data "protocol" (VStr "unknown")) st)
  = Ok (Some ev, stg) ->
  float_ (get_or data "battery" (VFloat 0)) = Raise e ->
  exists st',
    original_handle_telemetry now data st = (Raised e, st') /\
    telemetry st' = telemetry st /\ assets st' = assets st /\
    device_geofence_state st' = device_geofence_state stg /\
    device_geofence_state st' !! d = Some (ev_current_state ev) /\
    alerts st'
    = Deque.append 1000 (alerts st)
        (geofence_alert_of now d data
           (get_or data "protocol" (VStr "unknown")) ev).
Proof.
  intros Hid Hla Hlo Hcheck Hb.
  unfold original_handle_telemetry. rewrite Hid, Hla, Hlo, Hcheck, Hb.
  eexists. split; [reflexivity|].
  pose proof (check_geofence_breach_frame _ _ _ _ _ _ _ Hcheck) as Hframe.
  destruct (auto_register_insert now d data
              (get_or data "protocol" (VStr "unknown")) st) as [info Hreg].
  rewrite Hreg in Hframe, Hcheck.
  assert (device_geofence_state stg !! d = Some (ev_current_state ev)) as Hcur.
  { revert Hcheck. unfold check_geofence_breach.
    destruct (geofences _ !! d) as [gf|]; [|discriminate].
    destruct (calculate_distance _ _ _ _) as [distance|]; cbn [bind];
      [|discriminate].
    destruct (negb _); [|discriminate].
    repeat match goal with
           | |- context [if ?b && ?c then _ else _] => destruct (b && c)
           end; intros Hrun; inversion Hrun; subst; cbn;
      apply lookup_insert_eq. }
  rewrite Hframe. cbn. rewrite Hframe in Hcur. cbn in Hcur.
  repeat split; assumption.
Qed.

(** X13: an acknowledgment never adds, removes or reorders commands: in
    every queue the command ids are as before, and no store other than the
    command queues is touched. *)
Theorem ack_keeps_the_queues (now : Z) (d cid : string) (st : state) :
  let st' := snd (ack_command now d cid st) in
  (forall d', map command_id <$> device_commands st' !! d'
              = map command_id <$> device_commands st !! d') /\
  st' = set_device_commands (device_commands st') st.
Proof.
  cbv zeta. unfold ack_command.
  destruct (device_commands st !! d) as [cmds|] eqn:Hq;
    [|split; [reflexivity|destruct st; reflexivity]].
  destruct (ack_scan now cid cmds) as [cmds'|] eqn:Hscan;
    [|split; [reflexivity|destruct st; reflexivity]].
  destruct (ack_scan_splits _ _ _ _ Hscan) as (pre & c & post & -> & _ & _ & ->).
  cbn. split; [|reflexivity].
  intros d'. rewrite lookup_insert. case_decide as Hd; [|reflexivity].
  subst d'. rewrite Hq. cbn. rewrite !map_app. reflexivity.
Qed.

Lemma post_geofence_cases (now : Z) (d : string) (data : gmap string value)
    (st : state) :
  (exists la lo ra gf,
     is_Some (device_registry st !! d) /\
     float_ <$> data !! "center_lat" = Some (Ok la) /\
     float_ <$> data !! "center_lon" = Some (Ok lo) /\
     float_ <$> data !! "radius_km" = Some (Ok ra) /\
     post_geofence now d data st
     = (Success,
        set_device_geofence_state
          (<[d := "inside"]> (device_geofence_state st))
          (set_geofences (<[d := gf]> (geofences st)) st)) /\
     center_lat gf = la /\ center_lon gf = lo /\ radius_km gf = ra /\
     alert_on_breach gf = get_or data "alert_on_breach" (VBool true) /\
     alert_on_return gf = get_or data "alert_on_return" (VBool false)) \/
  fst (post_geofence now d data st) <> Success /\
  snd (post_geofence now d data st) = st /\
  ~ (is_Some (device_registry st !! d) /\
     exists la lo ra,
       float_ <$> data !! "center_lat" = Some (Ok la) /\
       float_ <$> data !! "center_lon" = Some (Ok lo) /\
       float_ <$> data !! "radius_km" = Some (Ok ra)).
Proof.
  unfold post_geofence.
  destruct (device_registry st !! d) as [info|] eqn:Hd.
  2:{ right. split; [discriminate|]. split; [reflexivity|].
      intros [[? ?] _]. discriminate. }
  destruct (size data =? 0)%nat eqn:Hsize.
  { right. split; [discriminate|]. split; [reflexivity|].
    apply Nat.eqb_eq, map_size_empty_iff in Hsize. subst data.
    intros [_ (la & lo & ra & Hla & _)]. rewrite lookup_empty in Hla.
    discriminate. }
  destruct (data !! "center_lat") as [vla|] eqn:Elat.
  2:{ right. split; [discriminate|]. split; [reflexivity|].
      intros [_ (la & lo & ra & Hla & _)]. discriminate. }
  destruct (data !! "center_lon") as [vlo|] eqn:Elon.
  2:{ right. split; [discriminate|]. split; [reflexivity|].
      intros [_ (la & lo & ra & _ & Hlo & _)]. discriminate. }
  destruct (data !! "radius_km") as [vra|] eqn:Erad.
  2:{ right. split; [discriminate|]. split; [reflexivity|].
      intros [_ (la & lo & ra & _ & _ & Hra)]. discriminate. }
  cbn [fmap option_fmap option_map].
  destruct (float_ vla) as [la|ela] eqn:Fla; cbn [bind].
  2:{ right. split; [discriminate|]. split; [reflexivity|].
      intros [_ (la & lo & ra & Hla & _)]. discriminate. }
  destruct (float_ vlo) as [lo|elo] eqn:Flo; cbn [bind].
  2:{ right. split; [discriminate|]. split; [reflexivity|].
      intros [_ (la' & lo & ra & _ & Hlo & _)]. discriminate. }
  destruct (float_ vra) as [ra|era] eqn:Fra; cbn [bind].
  2:{ right. split; [discriminate|]. split; [reflexivity|].
      intros [_ (la' & lo' & ra & _ & _ & Hra)]. discriminate. }
  left. eexists la, lo, ra, _. split; [eauto|].
  repeat split.
Qed.

(** X14: setting a fence succeeds exactly for a registered device whose
    body holds [center_lat], [center_lon] and [radius_km] that convert to
    floats.  It then stores these three numbers and resets the recorded
    containment to ["inside"], whatever it was; [alert_on_breach] defaults
    to true and [alert_on_return] to false.  Any other answer leaves the
    stores as they were. *)
Theorem post_geofence_outcomes (now : Z) (d : string)
    (data : gmap string value) (st : state) :
  let accepted_body :=
    exists la lo ra,
      float_ <$> data !! "center_lat" = Some (Ok la) /\
      float_ <$> data !! "center_lon" = Some (Ok lo) /\
      float_ <$> data !! "radius_km" = Some (Ok ra) in
  (fst (post_geofence now d data st) = Success
   <-> is_Some (device_registry st !! d) /\ accepted_body) /\
  (fst (post_geofence now d data st) <> Success ->
   snd (post_geofence now d data st) = st) /\
  (forall la lo ra,
     is_Some (device_registry st !! d) ->
     float_ <$> data !! "center_lat" = Some (Ok la) ->
     float_ <$> data !! "center_lon" = Some (Ok lo) ->
     float_ <$> data !! "radius_km" = Some (Ok ra) ->
     let st' := snd (post_geofence now d data st) in
     device_geofence_state st' !! d = Some "inside" /\
     exists gf,
       geofences st' !! d = Some gf /\
       center_lat gf = la /\ center_lon gf = lo /\ radius_km gf = ra /\
       alert_on_breach gf = get_or data "alert_on_breach" (VBool true) /\
       alert_on_return gf = get_or data "alert_on_return" (VBool false)).
Proof.
  cbv zeta.
  destruct (post_geofence_cases now d data st)
    as [(la & lo & ra & gf & Hd & Hla & Hlo & Hra & Hrun & Hgf)
       |(Hfail & Hsame & Hnot)].
  - rewrite Hrun. cbn [fst snd]. split; [|split].
    + split; [intros _; split; [exact Hd|exists la, lo, ra; auto]
             |intros _; reflexivity].
    + intros Hne. contradiction.
    + intros la' lo' ra' _ Hla' Hlo' Hra'.
      assert (la' = la) as -> by congruence.
      assert (lo' = lo) as -> by congruence.
      assert (ra' = ra) as -> by congruence.
      cbn. rewrite !lookup_insert_eq. split; [reflexivity|].
      exists gf. split; [reflexivity|]. exact Hgf.
  - split; [|split].
    + split; [intros Hs; contradiction|intros Hok; contradiction].
    + intros _. exact Hsame.
    + intros la lo ra Hd Hla Hlo Hra. exfalso. apply Hnot. eauto 10.
Qed.

(** X15: removing a fence undoes setting it: for a device without fence
    and without recorded containment, a successful POST followed by the
    DELETE gives back the stores as they were, and a second DELETE finds
    no fence. *)
Theorem delete_geofence_undoes_post (now : Z) (d : string)
    (data : gmap string value) (st : state) :
  geofences st !! d = None ->
  device_geofence_state st !! d = None ->
  fst (post_geofence now d data st) = Success ->
  let st1 := snd (post_geofence now d data st) in
  delete_geofence d st1 = (Success, st) /\
  delete_geofence d st = (NotFound "No geofence found for device", st).
Proof.
  intros Hg Hgs. cbv zeta. unfold post_geofence.
  destruct (device_registry st !! d) as [info|] eqn:Hd; [|discriminate].
  destruct (size data =? 0)%nat; [discriminate|].
  destruct (data !! "center_lat"), (data !! "center_lon"),
    (data !! "radius_km"); try discriminate.
  destruct (bind _ _) as [gf|e]; [|discriminate].
  intros _. cbn [snd]. unfold delete_geofence. cbn.
  rewrite Hd, Hg, lookup_insert_eq.
  rewrite !delete_insert_id by assumption.
  split; [|reflexivity]. destruct st; reflexivity.
Qed.

(** *** Recorded messages *)

Lemma accepted_inv (d : string) (st : state) (data : gmap string value) :
  accepted d st data = true ->
  exists la lo b t,
    resolve_device_id data = VStr d /\
    float_ (get_or data "lat" (VFloat 0)) = Ok la /\
    float_ (get_or data "lon" (VFloat 0)) = Ok lo /\
    float_ (get_or data "battery" (VFloat 0)) = Ok b /\
    float_ (get_or data "temperature" (VFloat 0)) = Ok t /\
    geofence_evaluable d la lo st = true.
Proof.
  unfold accepted.
  destruct (resolve_device_id data) as [| | | |d'| |]; try discriminate.
  destruct (float_ (get_or data "lat" _)) as [la|]; try discriminate.
  destruct (float_ (get_or data "lon" _)) as [lo|]; try discriminate.
  destruct (float_ (get_or data "battery" _)) as [b|]; try discriminate.
  destruct (float_ (get_or data "temperature" _)) as [t|]; try discriminate.
  intros [Hd Heval]%andb_true_iff. apply String.eqb_eq in Hd. subst d'.
  exists la, lo, b, t. auto 10.
Qed.

(** The stores after an accepted message, step by step. *)
Lemma original_handle_telemetry_accepted (now : Z) (d : string)
    (data : gmap string value) (st : state) :
  accepted d st data = true ->
  exists la lo b t ev gs reg,
    let protocol := get_or data "protocol" (VStr "unknown") in
    let st0 := set_device_registry reg st in
    let stg := set_device_geofence_state gs st0 in
    let sta :=
      match ev with
      | Some e =>
        set_alerts (Deque.append 1000 (alerts st)
                      (geofence_alert_of now d data protocol e)) stg
      | None => stg
      end in
    let r := canonical_record now d data protocol la lo b t stg in
    auto_register now d data protocol st = st0 /\
    check_geofence_breach now d la lo st0 = Ok (ev, stg) /\
    float_ (get_or data "lat" (VFloat 0)) = Ok la /\
    float_ (get_or data "lon" (VFloat 0)) = Ok lo /\
    float_ (get_or data "battery" (VFloat 0)) = Ok b /\
    float_ (get_or data "temperature" (VFloat 0)) = Ok t /\
    snd (original_handle_telemetry now data st)
    = periodic_maintenance now d protocol
        (set_telemetry
           (<[d := Deque.append 500 (default [] (telemetry st !! d)) r]>
              (telemetry st))
           (set_assets (<[d := r]> (assets st)) sta)).
Proof.
  intros (la & lo & b & t & Hid & Hla & Hlo & Hb & Ht & Heval)%accepted_inv.
  destruct (auto_register_insert now d data
              (get_or data "protocol" (VStr "unknown")) st) as [info Hreg].
  set (reg := <[d := default info (device_registry st !! d)]> (device_registry st))
    in Hreg.
  assert (geofence_evaluable d la lo (set_device_registry reg st) = true)
    as Heval0 by exact Heval.
  destruct (check_geofence_breach_evaluable now d la lo _ Heval0)
    as (ev & stg & Hcheck).
  pose proof (check_geofence_breach_frame _ _ _ _ _ _ _ Hcheck) as Hframe.
  exists la, lo, b, t, ev, (device_geofence_state stg), reg. cbv zeta.
  rewrite <- Hframe.
  repeat split; try assumption.
  unfold original_handle_telemetry.
  rewrite Hid, Hla, Hlo, Hreg, Hcheck, Hb, Ht.
  rewrite Hframe.
  assert (forall s : state,
            snd (if industrial_manager
                 then match industrial_handle_telemetry
                              (get_or data "protocol" (VStr "unknown")) with
                      | Ok _ => (Returned, s)
                      | Raise e => (Raised e, s)
                      end
                 else (Returned, s)) = s) as Hend.
  { intros s. destruct industrial_manager; [|reflexivity].
    destruct (industrial_handle_telemetry _); reflexivity. }
  rewrite Hend. destruct ev; reflexivity.
Qed.

Lemma deque_append_nonempty {A : Type} (n : nat) (q : list A) (x : A) :
  (0 < n)%nat -> (1 <= length (Deque.append n q x))%nat.
Proof.
  intros Hn. unfold Deque.append. destruct n as [|m]; [lia|].
  destruct (S m <=? length q)%nat; rewrite length_app; cbn; lia.
Qed.

Lemma deque_append_full {A : Type} (n : nat) (q : list A) (x : A) :
  (0 < n)%nat -> length q = n -> length (Deque.append n q x) = n.
Proof.
  intros Hn Hq. rewrite deque_append_spec by lia.
  rewrite length_drop, length_app. cbn. lia.
Qed.

(** X11: the health analysis is decimated by the length of the retained
    history.  After an accepted message, if that length is a multiple of
    10 the prediction of the device is the fresh result of
    [analyze_health_trends] on the history; otherwise the predictions and
    the predictor are as before.  A full history keeps its length of 500,
    so from then on every accepted message runs the analysis. *)
Theorem analysis_follows_history_length (now : Z) (d : string)
    (data : gmap string value) (st : state) :
  accepted d st data = true ->
  let st' := snd (original_handle_telemetry now data st) in
  let h := default [] (telemetry st' !! d) in
  (Z.of_nat (length h) mod 10 = 0 ->
   exists p,
     fst (analyze_health_trends now d h (predictive_maintenance st)) = Some p /\
     maintenance_predictions st' !! d = Some p) /\
  (Z.of_nat (length h) mod 10 <> 0 ->
   maintenance_predictions st' = maintenance_predictions st /\
   predictive_maintenance st' = predictive_maintenance st) /\
  (length (default [] (telemetry st !! d)) = 500%nat -> length h = 500%nat).
Proof.
  intros Hacc. cbv zeta.
  destruct (original_handle_telemetry_accepted now d data st Hacc)
    as (la & lo & b & t & ev & gs & reg & _ & _ & _ & _ & _ & _ & ->).
  cbv zeta.
  match goal with
  | |- context [periodic_maintenance ?n ?dd ?p ?s] =>
    pose proof (periodic_maintenance_frame n dd p s) as Hframe;
    set (s0 := s) in *
  end.
  cbv zeta in Hframe. destruct Hframe as (_ & Htel & _).
  rewrite Htel.
  assert (telemetry s0 !! d
          = Some (Deque.append 500 (default [] (telemetry st !! d))
                    (canonical_record now d data
                       (get_or data "protocol" (VStr "unknown")) la lo b t
                       (set_device_geofence_state gs
                          (set_device_registry reg st))))) as Hh
    by (subst s0; cbn; apply lookup_insert_eq).
  rewrite Hh. cbn [from_option id].
  set (h := Deque.append 500 _ _) in *.
  assert (predictive_maintenance s0 = predictive_maintenance st
          /\ maintenance_predictions s0 = maintenance_predictions st)
    as [Hpm Hmp] by (subst s0; destruct ev; split; reflexivity).
  assert ((1 <= length h)%nat) as Hh1 by (apply deque_append_nonempty; lia).
  split; [|split].
  - intros Hmod. unfold periodic_maintenance.
    rewrite Hh. cbn [from_option id]. rewrite Hmod. cbn [Z.eqb].
    rewrite Hpm. unfold analyze_health_trends.
    destruct (Nat.ltb_spec (length h) 5) as [Hshort|_].
    { exfalso. assert (Z.of_nat (length h) < 5) by lia.
      assert (1 <= Z.of_nat (length h)) by lia.
      rewrite Z.mod_small in Hmod by lia. lia. }
    cbv zeta. eexists. split; [reflexivity|].
    cbn. destruct (_ <? 0.4)%float; cbn; apply lookup_insert_eq.
  - intros Hmod. unfold periodic_maintenance.
    rewrite Hh. cbn [from_option id].
    destruct (Z.eqb_spec (Z.of_nat (length h) mod 10) 0) as [Hz|_];
      [contradiction|]. split; assumption.
  - intros Hfull. subst h. apply deque_append_full; [lia|exact Hfull].
Qed.

(** *** The pre-filter in front of the handler *)

Lemma enhanced_first_sample (now : Z) (d : string) (data : gmap string value)
    (st : state) :
  resolve_device_id data = VStr d ->
  last (default [] (telemetry st !! d)) = None ->
  exists i,
    data_compressed i = true /\
    enhanced_handle_telemetry now data st
    = original_handle_telemetry now data
        (set_edge_insights (<[d := i]> (edge_insights st))
           (set_edge_processor
              (snd (detect_anomalies d data (edge_processor st))) st)).
Proof.
  intros Hid Hnone. unfold enhanced_handle_telemetry. rewrite Hid.
  destruct (detect_anomalies d data (edge_processor st)) as [is_anomaly ei].
  cbn [telemetry set_edge_processor snd]. rewrite Hnone.
  cbn [compress_telemetry negb andb from_option id].
  destruct (0 <? size data)%nat; eexists; (split; [|reflexivity]); reflexivity.
Qed.

(** X16: the first message of a device is never held back by the
    pre-filter.  If it is accepted, its record keeps the fields of the
    message (status, device type, signal strength, protocol) and becomes
    the whole history and the snapshot of the device; the insight of the
    device is written and says [data_compressed] although nothing was
    reduced. *)
Theorem first_sample_is_stored_in_full (now : Z) (d : string)
    (data : gmap string value) (st : state) :
  telemetry st !! d = None ->
  accepted d st data = true ->
  let st' := snd (enhanced_handle_telemetry now data st) in
  exists r,
    telemetry st' !! d = Some [r] /\ assets st' !! d = Some r /\
    record_of d data r /\
    r_device_type r = get_or data "device_type" (VStr "unknown") /\
    r_signal_strength r = get_or data "signal_strength" (VInt 0) /\
    r_sensor_data r = get_or data "sensor_data" (VDict []) /\
    r_protocol r = get_or data "protocol" (VStr "unknown") /\
    r_compressed r = get_or data "compressed" (VBool false) /\
    data_compressed <$> edge_insights st' !! d = Some true.
Proof.
  intros Hfresh Hacc. cbv zeta.
  pose proof (accepted_inv d st data Hacc)
    as (la0 & lo0 & b0 & t0 & Hid & _).
  destruct (enhanced_first_sample now d data st Hid) as (i & Hi & ->);
    [rewrite Hfresh; reflexivity|].
  set (st1 := set_edge_insights _ _).
  assert (accepted d st1 data = true) as Hacc1
    by (rewrite <- Hacc; apply accepted_ext; reflexivity).
  destruct (original_handle_telemetry_accepted now d data st1 Hacc1)
    as (la & lo & b & t & ev & gs & reg & _ & _ & Hla & Hlo & Hb & Ht & ->).
  cbv zeta.
  match goal with
  | |- context [periodic_maintenance ?n ?dd ?p ?s] =>
    pose proof (periodic_maintenance_frame n dd p s) as Hframe
  end.
  cbv zeta in Hframe.
  destruct Hframe as (-> & -> & _ & _ & _ & _ & -> & _).
  eexists. cbn. rewrite !lookup_insert_eq, Hfresh.
  split; [reflexivity|]. split; [reflexivity|].
  unfold record_of. cbn.
  repeat split; try assumption.
  destruct ev; cbn; rewrite ?lookup_insert_eq; cbn; rewrite Hi; reflexivity.
Qed.

Lemma resolve_device_id_tag (now : Z) (protocol : string)
    (data : gmap string value) :
  resolve_device_id (tag now protocol data) = resolve_device_id data.
Proof.
  unfold resolve_device_id, tag, get, get_or.
  rewrite !lookup_insert_ne by discriminate. reflexivity.
Qed.

Lemma accepted_tag (now : Z) (protocol d : string) (st : state)
    (data : gmap string value) :
  accepted d st (tag now protocol data) = accepted d st data.
Proof.
  unfold accepted. rewrite resolve_device_id_tag.
  unfold tag, get_or. rewrite !lookup_insert_ne by discriminate. reflexivity.
Qed.

(** X21: the HTTP entry point stamps its own protocol tag over whatever
    the body claims.  The first accepted message of an unknown device that
    arrives this way is recorded with protocol ["http"] and the reception
    time, and the device is registered with protocol ["http"]. *)
Theorem http_entry_stamps_protocol (now : Z) (d : string)
    (data : gmap string value) (st : state) :
  telemetry st !! d = None ->
  device_registry st !! d = None ->
  accepted d st data = true ->
  let st' := snd (handle_http_telemetry now data st) in
  exists r info,
    telemetry st' !! d = Some [r] /\
    r_protocol r = VStr "http" /\
    r_received_at r = VStr (utcnow_z now) /\
    device_registry st' !! d = Some info /\
    di_protocol info = VStr "http" /\
    di_firmware_version info = VStr "unknown".
Proof.
  intros Hfresh Hunknown Hacc. cbv zeta. unfold handle_http_telemetry.
  rewrite <- (accepted_tag now "http") in Hacc.
  set (data' := tag now "http" data) in *.
  pose proof (accepted_inv d st data' Hacc) as (la0 & lo0 & b0 & t0 & Hid & _).
  destruct (enhanced_first_sample now d data' st Hid) as (i & Hi & ->);
    [rewrite Hfresh; reflexivity|].
  set (st1 := set_edge_insights _ _).
  assert (accepted d st1 data' = true) as Hacc1
    by (rewrite <- Hacc; apply accepted_ext; reflexivity).
  destruct (original_handle_telemetry_accepted now d data' st1 Hacc1)
    as (la & lo & b & t & ev & gs & reg & Hreg & _ & _ & _ & _ & _ & ->).
  cbv zeta in Hreg |- *.
  match goal with
  | |- context [periodic_maintenance ?n ?dd ?p ?s] =>
    pose proof (periodic_maintenance_frame n dd p s) as Hframe
  end.
  cbv zeta in Hframe.
  destruct Hframe as (_ & -> & -> & _).
  assert (get_or data' "protocol" (VStr "unknown") = VStr "http") as Hproto.
  { subst data'. unfold tag, get_or.
    rewrite lookup_insert_ne by discriminate. rewrite lookup_insert_eq.
    reflexivity. }
  assert (get data' "received_at" = VStr (utcnow_z now)) as Hrecv.
  { subst data'. unfold tag, get. rewrite lookup_insert_eq. reflexivity. }
  assert (device_registry (set_device_registry reg st1) !! d
          = Some {| di_device_type := get_or data' "device_type" (VStr "unknown");
                    di_protocol := VStr "http";
                    di_firmware_version := VStr "unknown";
                    di_capabilities := VList [];
                    di_registered_at := utcnow_z now;
                    di_status := "active" |}) as Hinfo.
  { rewrite <- Hreg. unfold auto_register. subst st1.
    cbn [device_registry set_edge_insights set_edge_processor].
    rewrite Hunknown, Hproto. cbn. apply lookup_insert_eq. }
  eexists _, _. cbn. rewrite lookup_insert_eq, Hfresh.
  split; [reflexivity|]. cbn. rewrite Hproto, Hrecv.
  split; [reflexivity|]. split; [reflexivity|].
  split; [destruct ev; exact Hinfo|]. split; reflexivity.
Qed.

(** X10: a significant message that has its [device_id] and [timestamp]
    but no [lat] key (the pre-filter reads a missing [lat] as 0) is lost:
    the reduced dictionary carries [lat = None], the handler raises
    [TypeError] at its first conversion, and neither history, snapshot,
    containment nor alerts change, although the insight of the device has
    already been written. *)
Theorem significant_sample_without_lat_is_lost (now : Z)
    (data : gmap string value) (st : state) (d : string) (prev : record)
    (vts : value) (b t lo : float) :
  data !! "device_id" = Some (VStr d) -> d <> "" ->
  data !! "timestamp" = Some vts ->
  data !! "lat" = None ->
  float_ (get_or data "battery" (VInt 0)) = Ok b ->
  float_ (get_or data "temperature" (VInt 0)) = Ok t ->
  float_ (get_or data "lon" (VInt 0)) = Ok lo ->
  last (default [] (telemetry st !! d)) = Some prev ->
  significant_change (abs (b - r_battery prev)) (abs (t - r_temperature prev))
    (edge_calculate_distance 0 lo (r_lat prev) (r_lon prev)) = true ->
  exists st',
    enhanced_handle_telemetry now data st = (Raised TypeError, st') /\
    telemetry st' = telemetry st /\ assets st' = assets st /\
    device_geofence_state st' = device_geofence_state st /\
    alerts st' = alerts st /\
    last_processed <$> edge_insights st' !! d = Some (utcnow_z now).
Proof.
  intros Hid Hne Hts Hnolat Hb Ht Hlo Hprev Hsig.
  assert (resolve_device_id data = VStr d) as Hres.
  { unfold resolve_device_id, or_, get. rewrite Hid. cbn.
    destruct (String.eqb_spec d ""); [contradiction|reflexivity]. }
  assert (float_ (get_or data "lat" (VInt 0)) = Ok 0%float) as Hla.
  { unfold get_or. rewrite Hnolat. reflexivity. }
  unfold enhanced_handle_telemetry. rewrite Hres.
  destruct (detect_anomalies d data (edge_processor st)) as [is_anomaly ei].
  cbn [telemetry set_edge_processor]. rewrite Hprev.
  rewrite (compress_telemetry_significant data prev b t 0 lo (VStr d) vts
             Hb Ht Hla Hlo Hsig Hid Hts).
  cbn [negb andb].
  set (c := compressed_dict data (VStr d) vts _ _ _).
  destruct (compressed_dict_lookup data (VStr d) vts
              (abs (b - r_battery prev)) (abs (t - r_temperature prev))
              (edge_calculate_distance 0 lo (r_lat prev) (r_lon prev)))
    as (Cid & _ & Cla & _).
  fold c in Cid, Cla.
  assert ((0 <? size c)%nat = true) as ->.
  { apply Nat.ltb_lt. destruct (size c) eqn:Hsize; [|lia].
    apply map_size_empty_iff in Hsize. rewrite Hsize in Cid.
    rewrite lookup_empty in Cid. discriminate. }
  cbn [from_option id].
  unfold original_handle_telemetry.
  assert (resolve_device_id c = VStr d) as ->.
  { unfold resolve_device_id, or_, get. rewrite Cid. cbn.
    destruct (String.eqb_spec d ""); [contradiction|reflexivity]. }
  assert (float_ (get_or c "lat" (VFloat 0)) = Raise TypeError) as ->.
  { unfold get_or, get in *. rewrite Cla, Hnolat. reflexivity. }
  match goal with
  | |- context [auto_register ?n ?dd ?cc ?pp ?ss] =>
    destruct (auto_register_insert n dd cc pp ss) as [info ->]
  end.
  eexists. split; [reflexivity|]. cbn. rewrite lookup_insert_eq.
  repeat split.
Qed.

(** *** Analytics helpers *)

(** X12: the least-squares slope never divides by zero.  For a history of
    at least three points the window holds [n] readings, 3 <= n <= 10, the
    index sums are n(n-1)/2 and the denominator is n^2 (n^2 - 1) / 12,
    which is positive: the result is the quotient itself, never the
    fallback 0 of the exception handler. *)
Theorem regression_denominator_is_positive (history : list record) :
  (3 <= length history)%nat ->
  let ys := map r_battery (last_n 10 history) in
  let xs := map Z.of_nat (seq 0 (length ys)) in
  let n := Z.of_nat (length ys) in
  3 <= n <= 10 /\
  0 < n * n * (n * n - 1) / 12 /\
  calculate_battery_degradation history
  = ((fz n * sum_ (zip_with (fun xi yi => fz xi * yi)%float xs ys)
      - fz (n * (n - 1) / 2) * sum_ ys)
     / fz (n * n * (n * n - 1) / 12))%float.
Proof.
  intros Hlen. cbv zeta. unfold calculate_battery_degradation.
  destruct (Nat.ltb_spec (length history) 3) as [Hshort|_]; [lia|].
  set (ys := map r_battery (last_n 10 history)).
  assert (length ys = Nat.min (length history) 10) as Hys.
  { subst ys. unfold last_n. rewrite length_map, length_drop. lia. }
  rewrite length_map, length_seq.
  assert (length ys = 3 \/ length ys = 4 \/ length ys = 5 \/ length ys = 6 \/
          length ys = 7 \/ length ys = 8 \/ length ys = 9 \/ length ys = 10)%nat
    as Hcases by lia.
  destruct Hcases as [Hk|[Hk|[Hk|[Hk|[Hk|[Hk|[Hk|Hk]]]]]]]; rewrite Hk;
    (split; [lia|]); (split; [reflexivity|]); reflexivity.
Qed.

(** X17: the feature vector is all or nothing.  It always has five
    entries; when battery, temperature, signal strength, latitude and
    longitude all convert it holds them in that order, and as soon as one
    of them does not convert all five entries are 0. *)
Theorem extract_features_all_or_nothing (t : gmap string value) :
  length (extract_features t) = 5%nat /\
  (forall b te s la lo,
     float_ (get_or t "battery" (VInt 0)) = Ok b ->
     float_ (get_or t "temperature" (VInt 0)) = Ok te ->
     float_ (get_or t "signal_strength" (VInt 0)) = Ok s ->
     float_ (get_or t "lat" (VInt 0)) = Ok la ->
     float_ (get_or t "lon" (VInt 0)) = Ok lo ->
     extract_features t = [b; te; s; la; lo]) /\
  (forall k e,
     k ∈ ["battery"; "temperature"; "signal_strength"; "lat"; "lon"] ->
     float_ (get_or t k (VInt 0)) = Raise e ->
     extract_features t = [0; 0; 0; 0; 0]%float).
Proof.
  unfold extract_features. split; [|split].
  - repeat match goal with
           | |- context [float_ ?v] => destruct (float_ v); cbn [bind]
           end; reflexivity.
  - intros b te s la lo -> -> -> -> ->. reflexivity.
  - intros k e Hk Hraise.
    repeat (apply elem_of_cons in Hk; destruct Hk as [->|Hk]);
      try (rewrite Hraise;
           repeat match goal with
                  | |- context [float_ ?v] => destruct (float_ v); cbn [bind]
                  end; reflexivity);
      try (repeat match goal with
                  | |- context [bind (float_ ?v)] =>
                    destruct (float_ v) eqn:?; cbn [bind]
                  end; congruence).
    inversion Hk.
Qed.

End Requests.

(** ** Registration and commands *)

Section ManagementFacts.
Context `{Runtime}.

(** X18: registering is an upsert.  The registration and the
    configuration of the device are replaced by the ones built from the
    body (firmware ["1.0.0"], intervals 30 and 60 unless given), while its
    history, snapshot, fence, containment and commands stay; and telemetry
    handled afterwards for the device keeps this registration. *)
Theorem registration_is_an_upsert (now : Z) (d : string)
    (data : gmap string value) (sys : state * management) :
  let st := fst sys in
  let st' := fst (snd (register_device now d data sys)) in
  let m' := snd (snd (register_device now d data sys)) in
  let info :=
    {| di_device_type := get_or data "device_type" (VStr "unknown");
       di_protocol := get_or data "protocol" (VStr "unknown");
       di_firmware_version := get_or data "firmware_version" (VStr "1.0.0");
       di_capabilities := get_or data "capabilities" (VList []);
       di_registered_at := utcnow_z now;
       di_status := "active" |} in
  device_registry st' !! d = Some info /\
  (exists config,
     device_configs m' !! d = Some config /\
     config !! "telemetry_interval"
     = Some (get_or data "telemetry_interval" (VInt 30)) /\
     config !! "heartbeat_interval"
     = Some (get_or data "heartbeat_interval" (VInt 60)) /\
     size config = 3%nat) /\
  telemetry st' = telemetry st /\ assets st' = assets st /\
  geofences st' = geofences st /\
  device_geofence_state st' = device_geofence_state st /\
  device_commands st' = device_commands st /\
  (forall now' msg,
     resolve_device_id msg = VStr d ->
     device_registry (snd (original_handle_telemetry now' msg st')) !! d
     = Some info).
Proof.
  destruct sys as [st m]. cbv zeta. unfold register_device.
  set (info := {| di_device_type := _ |}).
  assert (forall m1 m2 : management,
            fst (snd (Success,
                      (set_device_registry (<[d := info]> (device_registry st)) st,
                       if industrial_manager
                          && is_str (get_or data "protocol" (VStr "unknown"))
                               "lorawan"
                       then m1 else m2)))
            = set_device_registry (<[d := info]> (device_registry st)) st)
    as Hst by reflexivity.
  cbn [fst snd].
  split; [cbn; apply lookup_insert_eq|].
  split.
  { eexists. split.
    - destruct (industrial_manager && _); cbn; apply lookup_insert_eq.
    - split; [apply lookup_insert_eq|].
      split; [rewrite lookup_insert_ne by discriminate; apply lookup_insert_eq|].
      rewrite !map_size_insert_None, map_size_empty; [reflexivity|..];
        rewrite ?lookup_insert_ne by discriminate; apply lookup_empty. }
  repeat split.
  intros now' msg Hid.
  pose proof (original_handle_telemetry_footprint now' msg
                (set_device_registry (<[d := info]> (device_registry st)) st))
    as Hfoot.
  rewrite Hid in Hfoot.
  destruct Hfoot as (_ & _ & _ & _ & [info0 ->] & _).
  cbn. rewrite lookup_insert_eq. cbn. rewrite lookup_insert_eq. reflexivity.
Qed.

(** The command built by [post_command] and its status. *)
Lemma post_command_queued (now : Z) (d : string) (data : gmap string value)
    (uuid : string) (publish : result unit) (st : state) (m : management)
    (info : device_info) (type_ : value) :
  device_registry st !! d = Some info ->
  data !! "command" = Some type_ ->
  exists c,
    post_command now d data uuid publish (st, m)
    = (Success,
       (set_device_commands
          (<[d := default [] (device_commands st !! d) ++ [c]]>
             (device_commands st)) st, m)) /\
    command_id c = uuid /\ c_type c = type_ /\
    c_parameters c = get_or data "parameters" (VDict []) /\
    c_ack_timestamp c = None /\
    c_status c
    = (if is_str (di_protocol info) "mqtt"
       then match publish with Ok _ => "sent" | Raise _ => "pending" end
       else if industrial_manager && is_industrial (di_protocol info)
            then if industrial_send_command d (di_protocol info) m
                 then "sent" else "pending"
            else "pending").
Proof.
  intros Hd Hcmd. unfold post_command. rewrite Hd, Hcmd.
  eexists. split; [reflexivity|]. repeat split.
Qed.

(** X19: a queued command can be acknowledged by its id.  For a registered
    device and a body with a [command], the command is appended to the
    queue with the given id and without ack timestamp; if no older command
    of the queue carries that id, acknowledging the id succeeds and turns
    exactly this command into an acknowledged one. *)
Theorem queued_command_is_acknowledged_by_id (now now' : Z) (d : string)
    (data : gmap string value) (uuid : string) (publish : result unit)
    (sys : state * management) (type_ : value) :
  is_Some (device_registry (fst sys) !! d) ->
  data !! "command" = Some type_ ->
  let queue := default [] (device_commands (fst sys) !! d) in
  Forall (fun c => command_id c <> uuid) queue ->
  let st1 := fst (snd (post_command now d data uuid publish sys)) in
  exists c,
    fst (post_command now d data uuid publish sys) = Success /\
    device_commands st1 !! d = Some (queue ++ [c]) /\
    command_id c = uuid /\ c_type c = type_ /\ c_ack_timestamp c = None /\
    (c_status c = "pending" \/ c_status c = "sent") /\
    ack_command now' d uuid st1
    = (Success,
       set_device_commands
         (<[d := queue ++ [acknowledge now' c]]> (device_commands st1)) st1).
Proof.
  destruct sys as [st m]. cbv zeta. cbn [fst].
  intros [info Hd] Hcmd Hfresh.
  set (queue := default [] (device_commands st !! d)) in *.
  destruct (post_command_queued now d data uuid publish st m info type_ Hd Hcmd)
    as (c & -> & Hid & Hty & _ & Hack & Hstatus).
  exists c. cbn [fst snd]. split; [reflexivity|].
  split; [cbn; apply lookup_insert_eq|].
  repeat split; try assumption.
  - rewrite Hstatus.
    repeat match goal with
           | |- context [if ?b then _ else _] => destruct b
           | |- context [match ?p with Ok _ => _ | Raise _ => _ end] =>
             destruct p
           end; auto.
  - unfold ack_command. cbn [device_commands set_device_commands].
    rewrite lookup_insert_eq.
    rewrite (ack_scan_first now' uuid queue [] c Hfresh Hid). reflexivity.
Qed.

(** X20: a new command is marked ["sent"] in two cases only: the device is
    registered with protocol ["mqtt"] and the publication did not raise;
    or the industrial manager is up, the protocol is ["lorawan"] and the
    DevEUI of the device is known to the LoRaWAN handler.  For every other
    protocol (["http"], ["coap"], ["opcua"], ["modbus"], ...) the command
    stays ["pending"]. *)
Theorem command_is_sent_through_mqtt_or_lorawan (now : Z) (d : string)
    (data : gmap string value) (uuid : string) (publish : result unit)
    (sys : state * management) (info : device_info) (type_ : value) :
  device_registry (fst sys) !! d = Some info ->
  data !! "command" = Some type_ ->
  let st1 := fst (snd (post_command now d data uuid publish sys)) in
  exists c,
    (device_commands st1 !! d) ≫= last = Some c /\
    (c_status c = "sent" \/ c_status c = "pending") /\
    (c_status c = "sent" <->
     is_str (di_protocol info) "mqtt" = true /\ (exists u, publish = Ok u) \/
     industrial_manager = true /\
     is_str (di_protocol info) "lorawan" = true /\
     is_Some (lorawan_devices (snd sys) !! dev_eui_of d)).
Proof.
  destruct sys as [st m]. cbn [fst snd]. intros Hd Hcmd. cbv zeta.
  destruct (post_command_queued now d data uuid publish st m info type_ Hd Hcmd)
    as (c & -> & _ & _ & _ & _ & Hstatus).
  exists c. cbn [fst snd]. split.
  { cbn. rewrite lookup_insert_eq. cbn. apply last_snoc. }
  rewrite Hstatus. clear Hstatus.
  unfold is_industrial, industrial_send_command, send_downlink.
  destruct (di_protocol info) as [| | | |p| |]; cbn;
    try (rewrite andb_false_r; split; [auto|];
         split; [discriminate|intros [[? _]|(_ & ? & _)]; discriminate]).
  destruct (String.eqb_spec p "mqtt") as [->|Hmqtt].
  - destruct publish as [u|e]; (split; [auto|]); split; try discriminate; eauto.
    intros [[_ [u Hu]]|(_ & ? & _)]; discriminate.
  - destruct (String.eqb_spec p "lorawan") as [->|Hlora].
    + rewrite orb_true_r. destruct industrial_manager; cbn.
      * case_bool_decide as Hknown; (split; [auto|]); split;
          try discriminate; eauto.
        intros [[? _]|(_ & _ & ?)]; [discriminate|contradiction].
      * split; [auto|]. split; [discriminate|].
        intros [[? _]|(? & _)]; discriminate.
    + rewrite orb_false_r.
      assert ((if industrial_manager
                  && ((p =? "opcua")%string || (p =? "modbus")%string)
               then "pending" else "pending") = "pending") as ->
        by (destruct (industrial_manager && _); reflexivity).
      split; [auto|]. split; [discriminate|].
      intros [[? _]|(_ & ? & _)]; discriminate.
Qed.

(** X24: a registered device without stored prediction is analysed when
    its maintenance is asked for.  With at least five retained records the
    answer carries the result of [analyze_health_trends] on the history,
    which is stored; asking again, at any later time, gives the same
    answer and changes nothing.  A stored prediction is answered as it is,
    and a history of fewer than five records gives no prediction and the
    health score 0; in both cases nothing changes.  The route never
    touches the histories, the snapshots or the alerts: no maintenance
    alert is raised on this path, whatever the score. *)
Theorem maintenance_is_analysed_on_demand (now now' : Z) (d : string)
    (st : state) :
  is_Some (device_registry st !! d) ->
  let history := default [] (telemetry st !! d) in
  let answer := fst (get_device_maintenance now d st) in
  let st1 := snd (get_device_maintenance now d st) in
  (telemetry st1 = telemetry st /\ assets st1 = assets st /\
   alerts st1 = alerts st /\ device_registry st1 = device_registry st) /\
  (forall p, maintenance_predictions st !! d = Some p ->
     st1 = st /\
     exists b, answer = Maintenance (Some p) (p_health_score p) b) /\
  (maintenance_predictions st !! d = None -> (length history < 5)%nat ->
     st1 = st /\ exists b, answer = Maintenance None 0 b) /\
  (maintenance_predictions st !! d = None -> (5 <= length history)%nat ->
     exists p b,
       fst (analyze_health_trends now d history (predictive_maintenance st))
       = Some p /\
       answer = Maintenance (Some p) (p_health_score p) b /\
       maintenance_predictions st1
       = <[d := p]> (maintenance_predictions st) /\
       get_device_maintenance now' d st1 = (answer, st1)).
Proof.
  intros [info Hd]. cbv zeta.
  destruct (get_device_maintenance now d st) as [answer st1] eqn:Hrun.
  cbn [fst snd]. unfold get_device_maintenance in Hrun. rewrite Hd in Hrun.
  destruct (maintenance_predictions st !! d) as [p0|] eqn:Hp.
  { inversion Hrun; subst answer st1. split; [auto|].
    split; [|split; discriminate].
    intros p Heq. inversion Heq; subst p. split; [reflexivity|]. eauto. }
  destruct (default [] (telemetry st !! d)) as [|r history] eqn:Hh.
  { rewrite Hh in Hrun. inversion Hrun; subst answer st1. split; [auto|].
    split; [discriminate|].
    split; [intros _ _; split; [reflexivity|eauto]|].
    cbn [length]. intros _ Hlen. lia. }
  unfold analyze_health_trends in *.
  destruct (length (r :: history) <? 5)%nat eqn:Hlen.
  { apply Nat.ltb_lt in Hlen.
    assert (set_predictive_maintenance (predictive_maintenance st) st = st)
      as Heta by (destruct st; reflexivity).
    rewrite Heta, Hh in Hrun. inversion Hrun; subst answer st1.
    split; [auto|]. split; [discriminate|].
    split; [intros _ _; split; [reflexivity|eauto]|].
    intros _ Hge. lia. }
  apply Nat.ltb_ge in Hlen. cbv zeta in Hrun.
  cbn [telemetry set_maintenance_predictions set_predictive_maintenance]
    in Hrun.
  rewrite Hh in Hrun. inversion Hrun; subst answer st1. clear Hrun.
  cbn [telemetry assets alerts device_registry set_maintenance_predictions
       set_predictive_maintenance maintenance_predictions].
  split; [auto|]. split; [discriminate|].
  split; [intros _ Hlt; lia|]. intros _ _.
  eexists _, _. cbn [fst]. split; [reflexivity|]. split; [reflexivity|].
  split; [reflexivity|].
  unfold get_device_maintenance.
  cbn [telemetry assets alerts device_registry set_maintenance_predictions
       set_predictive_maintenance maintenance_predictions].
  rewrite Hd, lookup_insert_eq.
  cbn [telemetry set_maintenance_predictions set_predictive_maintenance].
  rewrite Hh. reflexivity.
Qed.

(** A string that starts with [p] holds every character of [p]. *)
Lemma prefix_In (p s : string) (c : Ascii.ascii) :
  String.prefix p s = true ->
  In c (list_ascii_of_string p) -> In c (list_ascii_of_string s).
Proof.
  revert s. induction p as [|a p IH]; intros s Hp Hc; [destruct Hc|].
  destruct s as [|b s]; [discriminate|]. cbn in Hp.
  destruct (Ascii.ascii_dec a b) as [->|]; [|discriminate].
  destruct Hc as [->|Hc]; [left; reflexivity|right; apply IH; assumption].
Qed.

(** Nothing is removed from a string without underscore. *)
Lemma remove_occurrences_absent (s : string) :
  ~ In underscore (list_ascii_of_string s) ->
  remove_occurrences "lorawan_" s 0 = s.
Proof.
  induction s as [|c s IH]; intros Hs; [reflexivity|].
  cbn [remove_occurrences].
  destruct (String.prefix "lorawan_" (String c s)) eqn:Hp.
  - exfalso. apply Hs. apply (prefix_In "lorawan_"); [exact Hp|].
    cbn. auto 10.
  - rewrite IH; [reflexivity|]. intros Hin. apply Hs. right. exact Hin.
Qed.

(** The prefix that the routes put in front of a DevEUI is removed
    again. *)
Lemma dev_eui_of_prefixed (e : string) :
  dev_eui_of ("lorawan_" ++ e) = dev_eui_of e.
Proof. destruct e; vm_compute; reflexivity. Qed.

(** What [register_device] does for a LoRaWAN device while the manager is
    up. *)
Lemma register_device_lorawan (now : Z) (d : string)
    (data : gmap string value) (st : state) (m : management) :
  industrial_manager = true ->
  data !! "protocol" = Some (VStr "lorawan") ->
  exists info config,
    register_device now d data (st, m)
    = (Success,
       (set_device_registry (<[d := info]> (device_registry st)) st,
        lorawan_register_device now (dev_eui_of d) info
          {| device_configs := <[d := config]> (device_configs m);
             lorawan_devices := lorawan_devices m |})) /\
    di_protocol info = VStr "lorawan".
Proof.
  intros Hup Hproto. unfold register_device, get_or.
  rewrite Hproto, Hup. eexists _, _. split; reflexivity.
Qed.

(** X22: a device registered with protocol ["lorawan"] while the
    industrial manager is up can be commanded at once, whatever its id
    looks like: registration and command strip the id in the same way, so
    the next command for the device finds its DevEUI in the table of the
    LoRaWAN handler and is marked ["sent"]; the publication over MQTT is
    not attempted. *)
Theorem lorawan_registration_enables_commands (now now' : Z) (d : string)
    (data body : gmap string value) (uuid : string) (publish : result unit)
    (sys : state * management) (type_ : value) :
  industrial_manager = true ->
  data !! "protocol" = Some (VStr "lorawan") ->
  body !! "command" = Some type_ ->
  let sys1 := snd (register_device now d data sys) in
  let st2 := fst (snd (post_command now' d body uuid publish sys1)) in
  is_Some (lorawan_devices (snd sys1) !! dev_eui_of d) /\
  exists c,
    (device_commands st2 !! d) ≫= last = Some c /\
    command_id c = uuid /\ c_type c = type_ /\ c_status c = "sent".
Proof.
  intros Hup Hproto Hcmd. destruct sys as [st m]. cbv zeta.
  destruct (register_device_lorawan now d data st m Hup Hproto)
    as (info & config & -> & Hinfo).
  cbn [fst snd].
  assert (is_Some (lorawan_devices
                     (lorawan_register_device now (dev_eui_of d) info
                        {| device_configs := <[d := config]> (device_configs m);
                           lorawan_devices := lorawan_devices m |})
                   !! dev_eui_of d)) as Hknown.
  { cbn. rewrite lookup_insert_eq. eauto. }
  split; [exact Hknown|].
  match goal with
  | |- context [post_command _ _ _ _ _ (?st1, ?m1)] =>
    destruct (post_command_queued now' d body uuid publish st1 m1 info type_)
      as (c & -> & Hid & Hty & _ & _ & Hstatus);
      [cbn; apply lookup_insert_eq | exact Hcmd |]
  end.
  exists c. cbn [fst snd]. split.
  { cbn. rewrite lookup_insert_eq. cbn. apply last_snoc. }
  split; [exact Hid|]. split; [exact Hty|].
  rewrite Hstatus, Hup, Hinfo.
  unfold industrial_send_command, send_downlink.
  rewrite bool_decide_eq_true_2 by exact Hknown. reflexivity.
Qed.

(** X23: the downlink route reaches the device whose DevEUI is the given
    one with every ["lorawan_"] removed.  With the manager up and a
    [command] in the body the answer says whether that DevEUI is in the
    table of the handler; a DevEUI without underscore is looked up as it
    is, and a DevEUI written with the prefix is answered as the one
    without it. *)
Theorem downlink_strips_the_prefix (e : string) (data : gmap string value)
    (m : management) (type_ : value) :
  industrial_manager = true ->
  data !! "command" = Some type_ ->
  send_lorawan_downlink e data m
  = Downlink (bool_decide (is_Some (lorawan_devices m !! dev_eui_of e))) /\
  send_lorawan_downlink ("lorawan_" ++ e) data m
  = send_lorawan_downlink e data m /\
  (~ In underscore (list_ascii_of_string e) ->
   send_lorawan_downlink e data m
   = Downlink (bool_decide (is_Some (lorawan_devices m !! e)))).
Proof.
  intros Hup Hcmd.
  assert (forall e', send_lorawan_downlink e' data m
                     = Downlink (bool_decide
                                   (is_Some (lorawan_devices m
                                             !! dev_eui_of e')))) as Hroute.
  { intros e'. unfold send_lorawan_downlink. rewrite Hup, Hcmd. cbn [negb].
    unfold industrial_send_command, send_downlink.
    cbn [is_str String.eqb Ascii.eqb Bool.eqb].
    rewrite dev_eui_of_prefixed. reflexivity. }
  split; [apply Hroute|]. split.
  - rewrite !Hroute, dev_eui_of_prefixed. reflexivity.
  - intros Hplain. rewrite Hroute. unfold dev_eui_of.
    rewrite (remove_occurrences_absent e Hplain). reflexivity.
Qed.

End ManagementFacts.


(** * The theorems at concrete inputs *)


(** Two accepted reports of a device without history: both are kept. *)
Lemma history_bounded_fifo_witness :
  exists rs,
    Forall2 (fun m r => record_of (H := Sample.taylor) "truck-1" (snd m) r)
      [(0, Sample.report 34.89 (-1.32) 80 "MOVING");
       (5, Sample.report 34.95 (-1.32) 70 "MOVING")] rs /\
    let history :=
      default [] (telemetry
                    (feed [(0, Sample.report 34.89 (-1.32) 80 "MOVING");
                           (5, Sample.report 34.95 (-1.32) 70 "MOVING")]
                       Sample.fenced) !! "truck-1") in
    length history = Nat.min 2 500 /\
    history = drop (2 - 500) rs /\
    take (2 - 500) rs ++ history = rs.
Proof.
  apply (history_bounded_fifo (H := Sample.taylor) "truck-1"
           [(0, Sample.report 34.89 (-1.32) 80 "MOVING");
            (5, Sample.report 34.95 (-1.32) 70 "MOVING")] Sample.fenced).
  - vm_compute. reflexivity.
  - repeat constructor.
Defined.

(** The report from outside the fence is stored with the state it caused. *)
Lemma sample_carries_post_transition_state_witness :
  exists o st' r,
    original_handle_telemetry (H := Sample.taylor) 5
      (Sample.report 34.95 (-1.32) 70 "MOVING") Sample.tracked = (o, st') /\
    last (default [] (telemetry st' !! "truck-1")) = Some r /\
    r_geofence_state r = "outside" /\
    device_geofence_state st' !! "truck-1" = Some "outside".
Proof.
  destruct (sample_carries_post_transition_state (H := Sample.taylor) 5
              (Sample.report 34.95 (-1.32) 70 "MOVING") Sample.tracked
              "truck-1" 34.95 (-1.32) 70 25)
    as (o & st' & r & Hrun & Hlast & _ & _ & _ & Hstate & _ & Hfence);
    try (vm_compute; reflexivity).
  assert (r_geofence_state r = "outside") as Hout.
  { eapply eq_trans; [eapply Hfence|].
    - vm_compute. reflexivity.
    - eexists. vm_compute. reflexivity.
    - vm_compute. reflexivity.
    - vm_compute. reflexivity. }
  exists o, st', r. repeat split; try assumption.
  rewrite Hout in Hstate.
  destruct (device_geofence_state st' !! "truck-1") as [s|];
    cbn in Hstate; [congruence|discriminate].
Defined.



(** Ten evaluations of a new device leave its feature cache empty. *)
Lemma ten_evaluations_cache_nothing :
  detect_run (H := Sample.taylor) "truck-1"
    (repeat (Sample.report 34.89 (-1.32) 80 "MOVING") 10)
    {| anomaly_models := ∅; pattern_cache := ∅ |}
  = (repeat false 10,
     {| anomaly_models := ∅; pattern_cache := {["truck-1" := []]} |}).
Proof. vm_compute. reflexivity. Qed.

(** A second identical report is dropped, and the insight of the device
    still dates from the first one. *)
Lemma insignificant_sample_skipped_witness :
  exists st',
    enhanced_handle_telemetry (H := Sample.taylor) 5
      (Sample.report 34.89 (-1.32) 80 "MOVING") Sample.tracked
    = (Returned, st') /\
    telemetry st' = telemetry Sample.tracked /\
    edge_insights st' = edge_insights Sample.tracked /\
    last_processed <$> (edge_insights st' !! "truck-1") = Some "0Z".
Proof.
  edestruct (insignificant_sample_skipped (H := Sample.taylor) 5
               (Sample.report 34.89 (-1.32) 80 "MOVING") Sample.tracked
               "truck-1")
    as (st' & Hrun & _ & Htel & _ & _ & _ & _ & Hins);
    try (vm_compute; reflexivity).
  exists st'. repeat split; try assumption.
  rewrite Hins. vm_compute. reflexivity.
Defined.



(** Acknowledging the queued command, and an id the queue does not hold. *)
Lemma ack_command_lifecycle_witness :
  ack_command (H := Sample.taylor) 2 "truck-1" "c-9" Sample.acked
  = (NotFound "Command not found", Sample.acked) /\
  exists cmds,
    ack_command (H := Sample.taylor) 2 "truck-1" "c-1" Sample.acked
    = (Success,
       set_device_commands
         (<["truck-1" := cmds]> (device_commands Sample.acked)) Sample.acked) /\
    Forall (fun c => c_status c = "acknowledged") cmds.
Proof.
  destruct (ack_command_lifecycle (H := Sample.taylor) 2 "truck-1" "c-9"
              Sample.acked) as (_ & Habsent & _).
  destruct (ack_command_lifecycle (H := Sample.taylor) 2 "truck-1" "c-1"
              Sample.acked) as (_ & _ & Hpresent).
  split.
  - apply (Habsent [Sample.acked_ping]); [reflexivity|].
    cbn. intros [Heq|[]]. discriminate.
  - destruct (Hpresent [Sample.acked_ping])
      as (pre & c & post & Hsplit & _ & _ & Hrun & _ & Hstatus & _);
      [reflexivity|cbn; auto|].
    exists (pre ++ acknowledge (H := Sample.taylor) 2 c :: post).
    split; [exact Hrun|].
    destruct pre as [|c0 pre].
    + cbn in Hsplit. inversion Hsplit; subst. repeat constructor.
    + inversion Hsplit as [[Hc0 Hrest]]. destruct pre; discriminate.
Defined.

(** Acknowledging the acknowledged command again succeeds and replaces
    its ack timestamp. *)
Lemma second_ack_restamps :
  c_status Sample.acked_ping = "acknowledged" /\
  fst (ack_command (H := Sample.taylor) 2 "truck-1" "c-1" Sample.acked)
  = Success /\
  (map c_ack_timestamp <$>
     device_commands (snd (ack_command (H := Sample.taylor) 2 "truck-1" "c-1"
                             Sample.acked)) !! "truck-1")
  = Some [Some "2Z"] /\
  (map c_ack_timestamp <$> device_commands Sample.acked !! "truck-1")
  = Some [Some "1Z"].
Proof. repeat split; vm_compute; reflexivity. Defined.

(** A significant report with all its keys is stored with the defaults. *)
Lemma significant_sample_loses_fields_witness :
  exists o st' r,
    enhanced_handle_telemetry (H := Sample.taylor) 5
      (Sample.report 34.95 (-1.32) 70 "MOVING") Sample.tracked = (o, st') /\
    last (default [] (telemetry st' !! "truck-1")) = Some r /\
    r_status r = VStr "OK" /\ r_protocol r = VStr "unknown".
Proof.
  edestruct (significant_sample_loses_fields (H := Sample.taylor) 5
               (Sample.report 34.95 (-1.32) 70 "MOVING") Sample.tracked
               "truck-1")
    as (o & st' & r & Hrun & Hlast & _ & _ & _ & _ & _ & Hstatus & _ & _ & _
        & Hproto & _);
    [vm_compute; reflexivity | discriminate | vm_compute; reflexivity .. |].
  exists o, st', r. repeat split; assumption.
Defined.

(** The same significant report under the legacy [id] key keeps the status
    and the protocol it came with. *)
Lemma legacy_sample_keeps_fields :
  last (default [] (telemetry Sample.tracked !! "truck-1"))
  = Some (Sample.parked_moving) /\
  significant_change (abs (70 - 80)) (abs (25 - 25))
    (edge_calculate_distance (H := Sample.taylor) 34.95 (-1.32) 34.89 (-1.32))
  = true /\
  exists r,
    last (default []
            (telemetry
               (snd (enhanced_handle_telemetry (H := Sample.taylor) 5
                       (Sample.legacy_report 34.95 (-1.32) 70 "MOVING")
                       Sample.tracked)) !! "truck-1")) = Some r /\
    r_battery r = 70%float /\
    r_status r = VStr "MOVING" /\ r_protocol r = VStr "http" /\
    r_device_type r = VStr "truck" /\ r_signal_strength r = VInt (-90).
Proof.
  split; [vm_compute; reflexivity|]. split; [vm_compute; reflexivity|].
  eexists. split; [vm_compute; reflexivity|]. repeat split.
Defined.

(** After the session the truck, which has a history, is registered. *)
Lemma known_devices_are_registered_witness :
  is_Some
    (device_registry
       (fst (run (H := Sample.taylor) Sample.session
               (initial_state, initial_management))) !! "truck-1").
Proof.
  apply (known_devices_are_registered (H := Sample.taylor) Sample.session
           "truck-1").
  left. eexists. vm_compute. reflexivity.
Defined.

(** After the session the only command of the truck is acknowledged and
    stamped. *)
Lemma ack_timestamp_marks_acknowledged_witness :
  exists c,
    device_commands
      (fst (run (H := Sample.taylor) Sample.session
              (initial_state, initial_management))) !! "truck-1" = Some [c] /\
    ((c_status c = "pending" \/ c_status c = "sent") /\
     c_ack_timestamp c = None \/
     c_status c = "acknowledged" /\ is_Some (c_ack_timestamp c)).
Proof.
  eexists. split; [vm_compute; reflexivity|].
  eapply (ack_timestamp_marks_acknowledged (H := Sample.taylor) Sample.session
            "truck-1").
  - vm_compute. reflexivity.
  - constructor.
Defined.

(** The breach of the fenced truck is reported once. *)
Lemma geofence_check_settles_witness :
  exists ev st',
    check_geofence_breach (H := Sample.taylor) 0 "truck-1" 34.95 (-1.32)
      Sample.fenced = Ok (Some ev, st') /\
    check_geofence_breach (H := Sample.taylor) 9 "truck-1" 34.95 (-1.32) st'
    = Ok (None, st').
Proof.
  eexists _, _. split; [vm_compute; reflexivity|].
  eapply (geofence_check_settles (H := Sample.taylor) 0 9 "truck-1" 34.95
            (-1.32) Sample.fenced).
  vm_compute. reflexivity.
Defined.

(** A report of the truck leaves the other devices alone. *)
Lemma telemetry_touches_own_device_only_witness :
  let st' := snd (original_handle_telemetry (H := Sample.taylor) 5
                    (Sample.report 34.95 (-1.32) 70 "MOVING") Sample.tracked) in
  (forall d', d' <> "truck-1" ->
     telemetry st' !! d' = telemetry Sample.tracked !! d' /\
     assets st' !! d' = assets Sample.tracked !! d' /\
     device_geofence_state st' !! d'
     = device_geofence_state Sample.tracked !! d' /\
     device_registry st' !! d' = device_registry Sample.tracked !! d') /\
  geofences st' = geofences Sample.tracked /\
  device_commands st' = device_commands Sample.tracked /\
  is_Some (device_registry st' !! "truck-1") /\
  (forall info, device_registry Sample.tracked !! "truck-1" = Some info ->
                device_registry st' !! "truck-1" = Some info).
Proof.
  apply (telemetry_touches_own_device_only (H := Sample.taylor) 5
           (Sample.report 34.95 (-1.32) 70 "MOVING") Sample.tracked "truck-1").
  vm_compute. reflexivity.
Defined.

(** The truck leaves its fence with an unreadable battery field. *)
Lemma transition_outlives_rejected_sample_witness :
  exists st',
    original_handle_telemetry (H := Sample.taylor) 5
      (Sample.unreadable_battery_report 34.95 (-1.32)) Sample.tracked
    = (Raised ValueError, st') /\
    telemetry st' = telemetry Sample.tracked /\
    device_geofence_state st' !! "truck-1" = Some "outside" /\
    length (alerts st') = 1%nat.
Proof.
  edestruct (transition_outlives_rejected_sample (H := Sample.taylor) 5
               (Sample.unreadable_battery_report 34.95 (-1.32)) Sample.tracked)
    as (st' & Hrun & Htel & _ & _ & Hgs & Halerts);
    [vm_compute; reflexivity ..|].
  exists st'. split; [exact Hrun|]. split; [exact Htel|].
  split; [exact Hgs|]. rewrite Halerts. reflexivity.
Defined.

(** A report of the tracked truck without its latitude. *)
Lemma significant_sample_without_lat_is_lost_witness :
  exists st',
    enhanced_handle_telemetry (H := Sample.taylor) 5
      (Sample.report_without_lat (-1.32) 80) Sample.tracked
    = (Raised TypeError, st') /\
    telemetry st' = telemetry Sample.tracked /\
    last_processed <$> edge_insights st' !! "truck-1" = Some "5Z".
Proof.
  edestruct (significant_sample_without_lat_is_lost (H := Sample.taylor) 5
               (Sample.report_without_lat (-1.32) 80) Sample.tracked "truck-1")
    as (st' & Hrun & Htel & _ & _ & _ & Hins);
    [vm_compute; reflexivity | discriminate | vm_compute; reflexivity ..|].
  exists st'. split; [exact Hrun|]. split; [exact Htel|exact Hins].
Defined.

(** The first report of the fenced truck: a history of length 1, hence no
    analysis. *)
Lemma analysis_follows_history_length_witness :
  maintenance_predictions
    (snd (original_handle_telemetry (H := Sample.taylor) 0
            (Sample.report 34.89 (-1.32) 80 "MOVING") Sample.fenced))
  = maintenance_predictions Sample.fenced.
Proof.
  destruct (analysis_follows_history_length (H := Sample.taylor) 0 "truck-1"
              (Sample.report 34.89 (-1.32) 80 "MOVING") Sample.fenced)
    as (_ & Hidle & _); [vm_compute; reflexivity|].
  apply Hidle. vm_compute. discriminate.
Defined.

(** Five stored samples: a window of five readings and denominator 50. *)
Lemma regression_denominator_is_positive_witness :
  calculate_battery_degradation (H := Sample.taylor) (repeat Sample.parked 5)
  = ((fz 5
      * sum_ (Runtime := Sample.taylor)
          (zip_with (fun xi yi => fz xi * yi)%float
             (map Z.of_nat (seq 0 5)) (repeat 80%float 5))
      - fz 10 * sum_ (Runtime := Sample.taylor) (repeat 80%float 5))
     / fz 50)%float.
Proof.
  destruct (regression_denominator_is_positive (H := Sample.taylor)
              (repeat Sample.parked 5)) as (_ & _ & Hslope); [cbn; lia|].
  exact Hslope.
Defined.

(** Setting and removing the fence of the registered truck. *)
Lemma delete_geofence_undoes_post_witness :
  delete_geofence (H := Sample.taylor) "truck-1" Sample.fenced
  = (Success, Sample.registered) /\
  delete_geofence (H := Sample.taylor) "truck-1" Sample.registered
  = (NotFound "No geofence found for device", Sample.registered).
Proof.
  apply (delete_geofence_undoes_post (H := Sample.taylor) 0 "truck-1"
           Sample.depot_fence Sample.registered); reflexivity.
Defined.

(** The first report of the fenced truck is stored as sent. *)
Lemma first_sample_is_stored_in_full_witness :
  exists r,
    telemetry Sample.tracked !! "truck-1" = Some [r] /\
    r_status r = VStr "MOVING" /\ r_protocol r = VStr "http" /\
    data_compressed <$> edge_insights Sample.tracked !! "truck-1" = Some true.
Proof.
  destruct (first_sample_is_stored_in_full (H := Sample.taylor) 0 "truck-1"
              (Sample.report 34.89 (-1.32) 80 "MOVING") Sample.fenced)
    as (r & Htel & _ & Hrec & _ & _ & _ & Hproto & _ & Hins);
    [vm_compute; reflexivity ..|].
  exists r. split; [exact Htel|].
  destruct Hrec as (_ & _ & _ & _ & _ & Hstatus & _).
  split; [exact Hstatus|]. split; [exact Hproto|exact Hins].
Defined.

(** A report of an unknown van that claims to come over MQTT, sent to the
    HTTP entry point. *)
Lemma http_entry_stamps_protocol_witness :
  exists r info,
    telemetry
      (snd (handle_http_telemetry (H := Sample.taylor) 7
              (<["protocol" := VStr "mqtt"]>
                 (Sample.report 34.89 (-1.32) 80 "MOVING"))
              initial_state)) !! "truck-1" = Some [r] /\
    r_protocol r = VStr "http" /\ r_received_at r = VStr "7Z" /\
    device_registry
      (snd (handle_http_telemetry (H := Sample.taylor) 7
              (<["protocol" := VStr "mqtt"]>
                 (Sample.report 34.89 (-1.32) 80 "MOVING"))
              initial_state)) !! "truck-1" = Some info /\
    di_protocol info = VStr "http".
Proof.
  destruct (http_entry_stamps_protocol (H := Sample.taylor) 7 "truck-1"
              (<["protocol" := VStr "mqtt"]>
                 (Sample.report 34.89 (-1.32) 80 "MOVING")) initial_state)
    as (r & info & Htel & Hproto & Hrecv & Hreg & Hinfo & _);
    [vm_compute; reflexivity ..|].
  exists r, info. repeat split; assumption.
Defined.

(** A ping queued for the registered truck and acknowledged at once. *)
Lemma queued_command_is_acknowledged_by_id_witness :
  exists c,
    fst (post_command (H := Sample.taylor) 4 "truck-1" Sample.ping "c-1"
           (Ok tt) Sample.backend) = Success /\
    command_id c = "c-1" /\
    fst (ack_command (H := Sample.taylor) 5 "truck-1" "c-1"
           (fst (snd (post_command (H := Sample.taylor) 4 "truck-1"
                        Sample.ping "c-1" (Ok tt) Sample.backend))))
    = Success.
Proof.
  destruct (queued_command_is_acknowledged_by_id (H := Sample.taylor) 4 5
              "truck-1" Sample.ping "c-1" (Ok tt) Sample.backend (VStr "ping"))
    as (c & Hpost & _ & Hid & _ & _ & _ & Hack).
  - eexists. vm_compute. reflexivity.
  - reflexivity.
  - vm_compute. constructor.
  - exists c. split; [exact Hpost|]. split; [exact Hid|].
    rewrite Hack. reflexivity.
Defined.

(** The truck is registered over MQTT: its ping is sent when the
    publication goes through. *)
Lemma command_is_sent_through_mqtt_or_lorawan_witness :
  exists c,
    (device_commands
       (fst (snd (post_command (H := Sample.taylor) 4 "truck-1" Sample.ping
                    "c-1" (Ok tt) Sample.backend))) !! "truck-1") ≫= last
    = Some c /\
    c_status c = "sent".
Proof.
  edestruct (command_is_sent_through_mqtt_or_lorawan (H := Sample.taylor) 4
               "truck-1" Sample.ping "c-1" (Ok tt) Sample.backend)
    as (c & Hlast & _ & Hsent); [vm_compute; reflexivity | reflexivity |].
  exists c. split; [exact Hlast|]. apply Hsent. left.
  split; [vm_compute; reflexivity|eauto].
Defined.

(** The maintenance of the truck with five stored samples, asked twice. *)
Lemma maintenance_is_analysed_on_demand_witness :
  exists p,
    maintenance_predictions
      (snd (get_device_maintenance (H := Sample.taylor) 0 "truck-1"
              Sample.rested)) !! "truck-1" = Some p /\
    get_device_maintenance (H := Sample.taylor) 9 "truck-1"
      (snd (get_device_maintenance (H := Sample.taylor) 0 "truck-1"
              Sample.rested))
    = get_device_maintenance (H := Sample.taylor) 0 "truck-1" Sample.rested.
Proof.
  destruct (maintenance_is_analysed_on_demand (H := Sample.taylor) 0 9
              "truck-1" Sample.rested) as (_ & _ & _ & Hfresh);
    [eexists; vm_compute; reflexivity|].
  destruct Hfresh as (p & b & _ & _ & Hstored & Hagain);
    [vm_compute; reflexivity | vm_compute; lia |].
  exists p. split; [rewrite Hstored; apply lookup_insert_eq|].
  rewrite Hagain. symmetry. apply surjective_pairing.
Defined.

(** A sensor registered over LoRaWAN and pinged at once. *)
Lemma lorawan_registration_enables_commands_witness :
  exists c,
    (device_commands
       (fst (snd (post_command (H := Sample.plant) 1 "lorawan_70B3D5"
                    Sample.ping "c-1" (Raise RuntimeError)
                    (snd (register_device (H := Sample.plant) 0
                            "lorawan_70B3D5" Sample.sensor
                            (initial_state, initial_management))))))
     !! "lorawan_70B3D5") ≫= last = Some c /\
    c_status c = "sent".
Proof.
  destruct (lorawan_registration_enables_commands (H := Sample.plant) 0 1
              "lorawan_70B3D5" Sample.sensor Sample.ping "c-1"
              (Raise RuntimeError) (initial_state, initial_management)
              (VStr "ping"))
    as (_ & c & Hlast & _ & _ & Hsent); [reflexivity ..|].
  exists c. split; [exact Hlast|exact Hsent].
Defined.

(** A downlink for the sensor registered above, addressed by its DevEUI. *)
Lemma downlink_strips_the_prefix_witness :
  send_lorawan_downlink (H := Sample.plant) "70B3D5" Sample.ping
    (snd (snd (register_device (H := Sample.plant) 0 "lorawan_70B3D5"
                 Sample.sensor (initial_state, initial_management))))
  = Downlink true.
Proof.
  destruct (downlink_strips_the_prefix (H := Sample.plant) "70B3D5"
              Sample.ping
              (snd (snd (register_device (H := Sample.plant) 0
                           "lorawan_70B3D5" Sample.sensor
                           (initial_state, initial_management))))
              (VStr "ping")) as (_ & _ & Hplain); [reflexivity ..|].
  rewrite Hplain; [vm_compute; reflexivity|].
  intros Hin. vm_compute in Hin.
  repeat (destruct Hin as [Hin|Hin]; [discriminate|]). exact Hin.
Defined.

Example float_of_Z_80 : Py.float_of_Z 80 = Ok 80%float.
Proof. vm_compute. reflexivity. Qed.
